(** * DbQuery: the filter-to-SQL compiler of [class.db_query.js]

    A shallow embedding of [$.SqlClause] and [$.DbQuery]
    (src/src/class.db_query.js) together with the properties of the
    filter compiler [_buildSqlFromFilterArray], its helpers and the
    statement builders built on top of it. *)

From Stdlib Require Import ZArith List Bool Strings.String Strings.Ascii
  Numbers.DecimalString Lia.
Import ListNotations.

Local Open Scope string_scope.
Local Open Scope list_scope.

Set Warnings "-register-all".

(* ================================================================== *)
(** * JavaScript values *)
(* ================================================================== *)

(** The values a filter specification is made of.  Strings are made of
    ASCII characters; numbers are the integers that print in plain
    decimal (no NaN, no infinities, no fractions); arrays are dense; a
    [Date] is a valid date, carried by its time value and the two
    renderings the code can observe ([toISOString()] and [toString()]);
    a function is opaque and
    carried by its source text and its arity; [VClause] is an instance of
    [$.SqlClause] with its two private fields; [VObj] is a plain data
    object with its own properties in order.  A function that a data
    object holds is data too: what it would do when run is not
    modelled.  A plain object is converted to a string or to a number
    as by the methods every object inherits; [converts_as_inherited]
    tells the values for which this is what the runtime does. *)
Inductive value : Type :=
| VUndef
| VNull
| VBool (b : bool)
| VNum (n : Z)
| VStr (s : string)
| VDate (time : Z) (iso : string) (str : string)
| VArr (elems : list value)
| VClause (clause : string) (vals : list value)
| VObj (props : list (string * value))
| VFun (src : string) (arity : nat).

(** What a statement of the class can throw: one constructor for each
    [throw new Error(...)] of the source that can be reached, named
    after its message, and [TypeError] for the errors the runtime
    itself raises (a property read on [null] or [undefined], a call of
    something that is not a function).  The two [throw] statements on
    an unknown logic operator build their message with
    [this.SQL_OPERATORS_LOGIC.join(...)], a call of nothing on an
    object: what they raise is that [TypeError]. *)
Inductive Error : Type :=
| SqlClauseAcceptsOnlyStrings
| TableNameMissingOrEmpty
| MissingOrWrongParameterSearch
| MissingSearchFilter (t : nat)
| SearchFilterIsntAnArray (t : nat)
| FieldnameDoesntExist (t : nat)
| UnsupportedFieldType (t : nat)
| InvalidOrEmptyColumnName
| MissingOrEmptyOperator (t : nat)
| WrongOperatorType (t : nat)
| UnknownOperator (t : nat) (operator : string)
| MissingOrEmptyValue (t : nat)
| UnsupportedArrayForScalarOperator (t : nat)
| UnsupportedArrayLengthForBetween (t : nat)
| UnsupportedValue (t : nat)
| UnknownColumn (t : nat)
| UnacceptedColumnType (t : nat)
| TypeError (what : string).

Inductive Result (A : Type) : Type :=
| Ok (a : A)
| Throw (e : Error).
Arguments Ok {A} a.
Arguments Throw {A} e.

(* ------------------------------------------------------------------ *)
(** ** Strings *)

Definition is_lower (c : ascii) : bool :=
  let n := nat_of_ascii c in (97 <=? n)%nat && (n <=? 122)%nat.

Definition is_upper (c : ascii) : bool :=
  let n := nat_of_ascii c in (65 <=? n)%nat && (n <=? 90)%nat.

Definition upper_ascii (c : ascii) : ascii :=
  if is_lower c then ascii_of_nat (nat_of_ascii c - 32) else c.

Definition lower_ascii (c : ascii) : ascii :=
  if is_upper c then ascii_of_nat (nat_of_ascii c + 32) else c.

Fixpoint map_string (f : ascii -> ascii) (s : string) : string :=
  match s with
  | EmptyString => EmptyString
  | String c s' => String (f c) (map_string f s')
  end.

(** [String.prototype.toUpperCase] and [toLowerCase], on the ASCII
    letters. *)
Definition toUpperCase (s : string) : string := map_string upper_ascii s.
Definition toLowerCase (s : string) : string := map_string lower_ascii s.

(** White space as [trim] and the regular expression class [\s] see it:
    tab, line feed, vertical tab, form feed, carriage return, space. *)
Definition is_space (c : ascii) : bool :=
  let n := nat_of_ascii c in
  ((9 <=? n)%nat && (n <=? 13)%nat) || (n =? 32)%nat.

Fixpoint trim_start (s : string) : string :=
  match s with
  | String c s' => if is_space c then trim_start s' else s
  | EmptyString => EmptyString
  end.

Fixpoint rev_string_onto (s acc : string) : string :=
  match s with
  | EmptyString => acc
  | String c s' => rev_string_onto s' (String c acc)
  end.

Definition rev_string (s : string) : string := rev_string_onto s "".

Definition trim_end (s : string) : string :=
  rev_string (trim_start (rev_string s)).

(** [String.prototype.trim]. *)
Definition trim (s : string) : string := trim_end (trim_start s).

(** Occurrences of the character [c] in [s]. *)
Fixpoint count_char (c : ascii) (s : string) : nat :=
  match s with
  | EmptyString => 0
  | String d s' => (if Ascii.eqb c d then 1 else 0) + count_char c s'
  end.

(** The number of placeholder marks [?] of a piece of SQL text. *)
Definition placeholders (sql : string) : nat := count_char "?"%char sql.

(** [s.indexOf(needle) > -1]. *)
Definition includes (needle s : string) : bool :=
  match String.index 0 needle s with Some _ => true | None => false end.

(** [value.split(/\s*,\s*/)]: the pieces of [s] between the commas, a
    comma taking the white space on both of its sides with it.  [cur]
    is the piece being read, [ws] the white space read after it (both
    reversed), [skip] tells that a separator has just been read and is
    still eating white space. *)
Fixpoint split_commas_from (s : string) (cur ws : string) (skip : bool)
  : list string :=
  match s with
  | EmptyString => [rev_string (ws ++ cur)]
  | String c s' =>
      if Ascii.eqb c ","%char then
        rev_string cur :: split_commas_from s' "" "" true
      else if is_space c then
        if skip then split_commas_from s' cur ws true
        else split_commas_from s' cur (String c ws) false
      else
        split_commas_from s' (String c (ws ++ cur)) "" false
  end.

Definition split_commas (s : string) : list string :=
  split_commas_from s "" "" false.

(** Decimal rendering of a number. *)
Definition Z_to_string (n : Z) : string :=
  NilZero.string_of_int (Z.to_int n).

(* ------------------------------------------------------------------ *)
(** ** Conversions and type tests *)

(** Truthiness: what [if (v)] and [!v] test. *)
Definition truthy (v : value) : bool :=
  match v with
  | VUndef | VNull => false
  | VBool b => b
  | VNum n => negb (Z.eqb n 0)
  | VStr s => negb (String.eqb s "")
  | _ => true
  end.

(** [String(v)], the conversion behind [+] with a string and behind
    property keys; an array joins its elements with a comma, where
    [undefined] and [null] give the empty string; a [$.SqlClause] has a
    [toString] of its own. *)
Fixpoint toStr (v : value) : string :=
  match v with
  | VUndef => "undefined"
  | VNull => "null"
  | VBool true => "true"
  | VBool false => "false"
  | VNum n => Z_to_string n
  | VStr s => s
  | VDate _ _ str => str
  | VArr l =>
      String.concat ","
        (map (fun x => match x with
                       | VUndef | VNull => ""
                       | _ => toStr x
                       end) l)
  | VClause text _ => text
  | VObj _ => "[object Object]"
  | VFun src _ => src
  end.

(** The text an array element contributes to [Array.prototype.join]. *)
Definition join_elem (v : value) : string :=
  match v with
  | VUndef | VNull => ""
  | _ => toStr v
  end.

(** [l.join(sep)]. *)
Definition join (sep : string) (l : list value) : string :=
  String.concat sep (map join_elem l).

(** [typeof v === "string"] (the source's [isString]). *)
Definition isString (test : value) : bool :=
  match test with VStr _ => true | _ => false end.

(** [v === s] for a string literal [s]. *)
Definition is_str (v : value) (s : string) : bool :=
  match v with VStr s' => String.eqb s' s | _ => false end.

(** [v === undefined]. *)
Definition is_undefined (v : value) : bool :=
  match v with VUndef => true | _ => false end.

(** [v instanceof $.SqlClause]. *)
Definition instanceof_SqlClause (v : value) : bool :=
  match v with VClause _ _ => true | _ => false end.

(** Modelled from the spec: [$.typeOf] belongs to the host framework
    and is not among the sources.  It names the kind of a value (the
    spec's string / number / boolean / null / date / array kinds) with
    the tags the source compares its result against: ["Array"],
    ["String"], ["Boolean"], ["null"] and ["Date"]. *)
Definition typeOf (v : value) : string :=
  match v with
  | VUndef => "undefined"
  | VNull => "null"
  | VBool _ => "Boolean"
  | VNum _ => "Number"
  | VStr _ => "String"
  | VDate _ _ _ => "Date"
  | VArr _ => "Array"
  | VClause _ _ => "Object"
  | VObj _ => "Object"
  | VFun _ _ => "Function"
  end.

(** Modelled from the spec: [$.isArray] and [$.isObject] belong to the
    host framework and are not among the sources: a sequence is an
    array, and an object is anything of [typeof] ["object"] but
    [null]. *)
Definition isArray (v : value) : bool :=
  match v with VArr _ => true | _ => false end.

Definition isObject (v : value) : bool :=
  match v with
  | VDate _ _ _ | VArr _ | VClause _ _ | VObj _ => true
  | _ => false
  end.

(** The elements of an array, the ISO rendering of a date: accessors
    the code applies once the kind of the value is known. *)
Definition elements (v : value) : list value :=
  match v with VArr l => l | _ => [] end.

Definition toISOString (v : value) : string :=
  match v with VDate _ iso _ => iso | _ => "" end.

(** [value + 0] on a boolean. *)
Definition plus_zero (v : value) : value :=
  match v with
  | VBool true => VNum 1
  | VBool false => VNum 0
  | _ => v
  end.

(** [l[i]]: [undefined] past the end. *)
Fixpoint at_index (l : list value) (i : nat) : value :=
  match l, i with
  | [], _ => VUndef
  | x :: _, O => x
  | _ :: l', S i' => at_index l' i'
  end.

(** [l[i] = v]: an assignment past the end extends the array. *)
Fixpoint set_index (l : list value) (i : nat) (v : value) : list value :=
  match i, l with
  | O, [] => [v]
  | O, _ :: l' => v :: l'
  | S i', [] => VUndef :: set_index [] i' v
  | S i', x :: l' => x :: set_index l' i' v
  end.

(** [l.length = n]: cuts the array or extends it. *)
Fixpoint set_length (l : list value) (n : nat) : list value :=
  match n, l with
  | O, _ => []
  | S n', [] => VUndef :: set_length [] n'
  | S n', x :: l' => x :: set_length l' n'
  end.

Fixpoint lookup_prop (name : string) (props : list (string * value))
  : value :=
  match props with
  | [] => VUndef
  | (k, v) :: props' =>
      if String.eqb k name then v else lookup_prop name props'
  end.

Fixpoint update_prop (name : string) (v : value)
  (props : list (string * value)) : list (string * value) :=
  match props with
  | [] => [(name, v)]
  | (k, w) :: props' =>
      if String.eqb k name then (k, v) :: props'
      else (k, w) :: update_prop name v props'
  end.

(** [Array.prototype.filter], which every array inherits. *)
Definition Array_prototype_filter : value :=
  VFun "function filter() { [native code] }" 1.

(** [v.name] for the properties the class reads from a search object
    ([filter], [operator], [columns], [order], [limit]) and from a
    connective ([length]): a read on [null] or [undefined] throws. *)
Definition get_prop (v : value) (name : string) : Result value :=
  match v with
  | VUndef | VNull =>
      Throw (TypeError ("cannot read property " ++ name))
  | VObj props => Ok (lookup_prop name props)
  | VArr l =>
      if String.eqb name "length" then Ok (VNum (Z.of_nat (List.length l)))
      else if String.eqb name "filter" then Ok Array_prototype_filter
      else Ok VUndef
  | VStr s =>
      if String.eqb name "length" then Ok (VNum (Z.of_nat (String.length s)))
      else Ok VUndef
  | VFun _ arity =>
      if String.eqb name "length" then Ok (VNum (Z.of_nat arity))
      else Ok VUndef
  | _ => Ok VUndef
  end.

(** [v.name = w] in strict mode: a plain object takes the property;
    the other objects take it too, out of sight of the class; a
    primitive value refuses it. *)
Definition set_prop (v : value) (name : string) (w : value) : Result value :=
  match v with
  | VObj props => Ok (VObj (update_prop name w props))
  | VArr _ | VDate _ _ _ | VClause _ _ | VFun _ _ => Ok v
  | _ => Throw (TypeError ("cannot set property " ++ name))
  end.

(** Whether [name] is an own key of [v]: what the method
    [hasOwnProperty] that every object inherits answers. *)
Definition has_own_prop (v : value) (name : string) : bool :=
  match v with
  | VObj props => existsb (fun kv => String.eqb (fst kv) name) props
  | VArr _ => String.eqb name "length"
  | _ => false
  end.

(** [v.hasOwnProperty(name)], a call of the method on [v]: there is
    nothing to call on [null] and [undefined]; a plain object that has
    a property [hasOwnProperty] of its own hides the inherited method
    behind it, and the call of a property that is no function throws.
    A function of its own would be run in place of the inherited
    method; what a function held by data does is not modelled (see
    [value]), and the answer given for it is the inherited one. *)
Definition method_hasOwnProperty (v : value) (name : string)
  : Result bool :=
  match v with
  | VUndef | VNull =>
      Throw (TypeError "cannot read property hasOwnProperty")
  | VObj props =>
      if has_own_prop v "hasOwnProperty" then
        match lookup_prop "hasOwnProperty" props with
        | VFun _ _ => Ok (has_own_prop v name)
        | _ => Throw (TypeError "search.hasOwnProperty is not a function")
        end
      else Ok (has_own_prop v name)
  | _ => Ok (has_own_prop v name)
  end.

(** [name in v] for an object [v]: own and inherited properties. *)
Definition has_prop (v : value) (name : string) : bool :=
  match v with
  | VObj props => existsb (fun kv => String.eqb (fst kv) name) props
  | VArr _ => String.eqb name "length" || String.eqb name "filter"
  | _ => false
  end.

(** The search object as the caller sees it once the array behind its
    [filter] property has become [f]. *)
Definition with_filter (search : value) (f : value) : value :=
  match search with
  | VObj props => VObj (update_prop "filter" f props)
  | _ => search
  end.

(* ------------------------------------------------------------------ *)
(** ** The numeric test *)

(** The built-in conversions of a string to a number, as far as the
    class observes them: whether [parseFloat(s)] is [NaN], whether
    [isFinite(s)], whether [s > 0], and the text of [parseInt(s, 10)];
    and the text of [parseInt(n, 10)] for a number [n] that is no safe
    integer, which the runtime rounds or prints with an exponent
    before it reads it.  They belong to the JavaScript runtime. *)
Class JsRuntime : Type := {
  parseFloat_isNaN : string -> bool;
  string_isFinite : string -> bool;
  string_is_positive : string -> bool;
  parseInt_text : string -> string;
  parseInt_number : Z -> string
}.

(** The safe integers, [-(2^53 - 1)] to [2^53 - 1]: the numbers that
    print digit for digit. *)
Definition safe_integer (n : Z) : bool :=
  (Z.abs n <=? 9007199254740991)%Z.

Section Numeric.
Context {rt : JsRuntime}.

(** [isNaN(parseFloat(v))]: [parseFloat] reads the string of [v]; the
    strings of [undefined], [null], a boolean, a plain object, a date
    and a function start with no numeral. *)
Definition isNaN_parseFloat (v : value) : bool :=
  match v with
  | VNum _ => false
  | VStr _ | VArr _ | VClause _ _ => parseFloat_isNaN (toStr v)
  | _ => true
  end.

(** [isFinite(v)], which converts [v] to a number first. *)
Definition isFinite (v : value) : bool :=
  match v with
  | VNum _ | VBool _ | VNull | VDate _ _ _ => true
  | VStr _ | VArr _ | VClause _ _ => string_isFinite (toStr v)
  | _ => false
  end.

(** The source's [isNumeric]. *)
Definition isNumeric (test : value) : bool :=
  negb (isNaN_parseFloat test) && isFinite test.

(** [v > 0], which converts [v] to a number first. *)
Definition greater_than_zero (v : value) : bool :=
  match v with
  | VNum n => (0 <? n)%Z
  | VBool b => b
  | VDate time _ _ => (0 <? time)%Z
  | VStr _ | VArr _ | VClause _ _ => string_is_positive (toStr v)
  | _ => false
  end.

(** The text of [parseInt(v, 10)], which reads the string of [v]: a
    safe integer is read back as it is. *)
Definition parseInt (v : value) : string :=
  match v with
  | VNum n => if safe_integer n then Z_to_string n else parseInt_number n
  | VStr _ | VArr _ | VClause _ _ => parseInt_text (toStr v)
  | _ => "NaN"
  end.

End Numeric.

(* ================================================================== *)
(** * [$.SqlClause] *)
(* ================================================================== *)

Module SqlClause.

(** [set(sqlClause)] on the instance [this]. *)
Definition set (this : value) (sqlClause : value) : Result value :=
  match sqlClause with
  | VStr s => Ok (VClause s (match this with
                             | VClause _ vs => vs
                             | _ => []
                             end))
  | _ => Throw SqlClauseAcceptsOnlyStrings
  end.

(** [values(newValues)] on the instance [this]: the instance afterwards
    and the array returned. *)
Definition values (this : value) (newValues : value)
  : value * list value :=
  match this with
  | VClause s vs =>
      if isArray newValues then (VClause s (elements newValues),
                                 elements newValues)
      else (this, vs)
  | _ => (this, [])
  end.

(** [new $.SqlClause(sqlClause, sqlValues)]. *)
Definition new (sqlClause sqlValues : value) : Result value :=
  match set (VClause "" [])
            (if truthy sqlClause then sqlClause else VStr "") with
  | Throw e => Throw e
  | Ok this =>
      Ok (fst (values this
                 (if truthy sqlValues then sqlValues else VArr [])))
  end.

(** [toString()] and [get()]. *)
Definition toString (this : value) : string :=
  match this with VClause s _ => s | _ => "" end.

Definition get (this : value) : string := toString this.

(** [hasValues()]. *)
Definition hasValues (this : value) : bool :=
  match this with
  | VClause _ vs => (0 <? List.length vs)%nat
  | _ => false
  end.

(** [values()] without argument. *)
Definition get_values (this : value) : list value :=
  snd (values this VUndef).

End SqlClause.

(* ================================================================== *)
(** * [$.DbQuery] *)
(* ================================================================== *)

(** The operator catalogues: [flipToObject] turns each array into an
    object whose own keys are the array's entries, each mapped to its
    index as a string, which is truthy. *)
Definition SQL_OPERATORS : list string :=
  [ "<"; ">"; "="; ">="; "<="; "<>"; "!=";
    "BETWEEN"; "IN"; "NOT IN"; "LIKE"; "NOT LIKE";
    "REGEXP"; "RLIKE"; "NOT REGEXP";
    "ISNULL"; "NOT ISNULL";
    "EXISTS"; "NOT EXISTS"; "ALL"; "ANY" ].

Definition SQL_OPERATORS_ARRAY : list string :=
  [ "BETWEEN"; "NOT BETWEEN"; "IN"; "NOT IN" ].

Definition SQL_OPERATORS_LOGIC : list string :=
  [ "AND"; "OR"; "XOR"; "NOT" ].

(** [catalogue.hasOwnProperty(key)], and also the truth of
    [catalogue[key]]. *)
Definition hasOwnProperty (catalogue : list string) (key : string) : bool :=
  existsb (String.eqb key) catalogue.

(** The storage collaborator [$.db], as far as the class asks it: the
    columns of a table, whether a column of a table is known, and the
    placeholder registered for it. *)
Record DatabaseAdapter : Type := {
  getColumns : string -> list string;
  columnExists : string -> value -> bool;
  getColumnPlaceholder : string -> value -> string
}.

(** The fields of a [$.DbQuery].  [_callbackFilterElement] is left out:
    the constructor sets it to [undefined] and no method of the class
    assigns it, so the callback branch of the compiler is never
    taken. *)
Record DbQuery : Type := {
  _table : string;
  _db : DatabaseAdapter;
  _sql : string;
  _sqlValues : list value
}.

Definition set_sql (sql : string) (q : DbQuery) : DbQuery :=
  {| _table := _table q; _db := _db q; _sql := sql;
     _sqlValues := _sqlValues q |}.

Definition set_sqlValues (vs : list value) (q : DbQuery) : DbQuery :=
  {| _table := _table q; _db := _db q; _sql := _sql q;
     _sqlValues := vs |}.

(** [new $.DbQuery(tableName, {db: db})]. *)
Definition new_DbQuery (tableName : value) (db : DatabaseAdapter)
  : Result DbQuery :=
  match tableName with
  | VStr s =>
      if String.eqb s "" then Throw TableNameMissingOrEmpty
      else Ok {| _table := s; _db := db; _sql := ""; _sqlValues := [] |}
  | _ => Throw TableNameMissingOrEmpty
  end.

(* ------------------------------------------------------------------ *)
(** ** Computations that change state and may throw *)

(** A statement runs on a state [S] and either returns or throws; what
    it did to the state before throwing stays done. *)
Definition ST (S A : Type) : Type := S -> Result A * S.

Definition ret {S A} (a : A) : ST S A := fun s => (Ok a, s).

Definition throw {S A} (e : Error) : ST S A := fun s => (Throw e, s).

Definition bind {S A B} (m : ST S A) (k : A -> ST S B) : ST S B :=
  fun s =>
    match m s with
    | (Ok a, s') => k a s'
    | (Throw e, s') => (Throw e, s')
    end.

Definition liftR {S A} (r : Result A) : ST S A := fun s => (r, s).

Declare Scope st_scope.
Delimit Scope st_scope with st.
Notation "x <- m ;; k" := (bind m (fun x => k))
  (at level 61, m at next level, right associativity) : st_scope.
Notation "m ;;; k" := (bind m (fun _ => k))
  (at level 61, right associativity) : st_scope.
Local Open Scope st_scope.

(** Methods of the builder run on the builder. *)
Definition M (A : Type) : Type := ST DbQuery A.

(** The body of the compiler's loop runs on the entry at hand and the
    builder. *)
Definition E (A : Type) : Type := ST (list value * DbQuery) A.

Definition lift {A} (m : M A) : E A :=
  fun s =>
    let '(r, q) := m (snd s) in (r, (fst s, q)).

Definition entry_get (i : nat) : E value :=
  fun s => (Ok (at_index (fst s) i), s).

Definition entry_set (i : nat) (v : value) : E unit :=
  fun s => (Ok tt, (set_index (fst s) i v, snd s)).

Definition entry_set_length (n : nat) : E unit :=
  fun s => (Ok tt, (set_length (fst s) n, snd s)).

Definition entry_read : E (list value) :=
  fun s => (Ok (fst s), s).

Definition this_table : M string := fun q => (Ok (_table q), q).

(** [this._sqlValues.push(v)]. *)
Definition push (v : value) : M unit :=
  fun q => (Ok tt, set_sqlValues (_sqlValues q ++ [v]) q).

(** [this._sqlValues.push.apply(this._sqlValues, vs)]. *)
Definition push_all (vs : list value) : M unit :=
  fun q => (Ok tt, set_sqlValues (_sqlValues q ++ vs) q).

Definition when {S} (b : bool) (m : ST S unit) : ST S unit :=
  if b then m else ret tt.

(* ------------------------------------------------------------------ *)
(** ** Helpers of the compiler *)

Section Compiler.
Context {rt : JsRuntime}.

(** [_getLogicOperator(op1, defaultOp)]: [op1.toUpperCase()] is a call
    of nothing when [op1] is truthy and not a string. *)
Definition _getLogicOperator (op1 : value) (defaultOp : string)
  : Result string :=
  let defaultOp := if String.eqb defaultOp "" then "AND" else defaultOp in
  if truthy op1 then
    match op1 with
    | VStr s =>
        if hasOwnProperty SQL_OPERATORS_LOGIC (toUpperCase s)
        then Ok (toUpperCase s)
        else Ok (toUpperCase defaultOp)
    | _ => Throw (TypeError "op1.toUpperCase is not a function")
    end
  else Ok (toUpperCase defaultOp).

(** [_prepareColumnName(column)]. *)
Definition _prepareColumnName (column : value) : Result string :=
  if negb (truthy column) || negb (isString column) then
    Throw InvalidOrEmptyColumnName
  else Ok (toLowerCase (trim (toStr column))).

(** [_getColumnPlaceholder(table, column)]. *)
Definition _getColumnPlaceholder (table : string) (column : value)
  : M string :=
  fun q =>
    (Ok (if columnExists (_db q) table column
         then getColumnPlaceholder (_db q) table column
         else "?"), q).

(** [_prepareSearchOperator(entry, opIndex, valueIndex, searchIndex)]:
    returns the operator and, for [ISNULL] and [NOT ISNULL], rewrites
    the entry. *)
Definition _prepareSearchOperator (opIndex valueIndex searchIndex : nat)
  : E string :=
  op <- entry_get opIndex ;;
  if negb (truthy op) || is_undefined op then
    throw (MissingOrEmptyOperator searchIndex)
  else if negb (isString op) then
    throw (WrongOperatorType searchIndex)
  else
    let operator := toUpperCase (trim (toStr op)) in
    if negb (hasOwnProperty SQL_OPERATORS operator)
       && negb (hasOwnProperty SQL_OPERATORS_ARRAY operator) then
      throw (UnknownOperator searchIndex operator)
    else if includes "ISNULL" operator then
      e0 <- entry_get 0 ;;
      c <- liftR (SqlClause.new
                    (VStr (operator ++ "(" ++ toStr e0 ++ ")")) VUndef) ;;
      entry_set 0 c ;;;
      entry_set valueIndex VUndef ;;;
      ev <- entry_get valueIndex ;;
      lop <- liftR (_getLogicOperator ev "") ;;
      entry_set 3 (VStr lop) ;;;
      ret ""
    else ret operator.

(** [_pushValue(value)]: tells whether the value is of a known kind,
    and pushes its database form when it is. *)
Definition _pushValue (value : value) : M bool :=
  let valueType := typeOf value in
  if isString value || isNumeric value then
    push value ;;; ret true
  else if String.eqb "Boolean" valueType then
    push (plus_zero value) ;;; ret true
  else if String.eqb "null" valueType then
    push (VStr "NULL") ;;; ret true
  else if String.eqb "Date" valueType then
    push (VStr (toISOString value)) ;;; ret true
  else if String.eqb "Array" valueType then
    push (VStr ("'" ++ join "', '" (elements value) ++ "'")) ;;; ret true
  else ret false.

(** The [for (var tt in value)] loop of [_prepareSearchValue]: one
    placeholder for each element, each element pushed; [tt] is the
    index of the element. *)
Fixpoint placeholder_list (placeholder : string) (tmp : string)
  (tt : nat) (vs : list value) : M string :=
  match vs with
  | [] => ret tmp
  | v :: vs' =>
      let tmp :=
        (tmp ++ (if Nat.eqb tt 0 then "" else ", ") ++ placeholder)%string in
      _pushValue v ;;;
      placeholder_list placeholder tmp (S tt) vs'
  end.

(** [_prepareSearchValue(entry, opIndex, valueIndex, searchIndex)]: the
    SQL text that stands for the value of the entry. *)
Definition _prepareSearchValue (opIndex valueIndex searchIndex : nat)
  : E string :=
  entry <- entry_read ;;
  if negb (valueIndex <? List.length entry)%nat
     || is_undefined (at_index entry valueIndex)
  then throw (MissingOrEmptyValue searchIndex)
  else
    let value := at_index entry valueIndex in
    let operator := at_index entry opIndex in
    let valueType := typeOf value in
    table <- lift this_table ;;
    placeholder <- lift (_getColumnPlaceholder table (at_index entry 0)) ;;
    let value :=
      if hasOwnProperty SQL_OPERATORS_ARRAY (toStr operator)
         && isString value
      then VArr (map VStr (split_commas (toStr value)))
      else value in
    if String.eqb "Array" valueType then
      if negb (hasOwnProperty SQL_OPERATORS_ARRAY (toStr operator)) then
        throw (UnsupportedArrayForScalarOperator searchIndex)
      else
        if is_str operator "BETWEEN" then
          if negb (List.length (elements value) =? 2)%nat then
            throw (UnsupportedArrayLengthForBetween searchIndex)
          else
            lift (_pushValue (at_index (elements value) 0)) ;;;
            lift (_pushValue (at_index (elements value) 1)) ;;;
            ret (placeholder ++ " AND " ++ placeholder)%string
        else
          tmp <- lift (placeholder_list placeholder "(" 0
                         (elements value)) ;;
          ret (tmp ++ ")")%string
    else if instanceof_SqlClause value then
      lift (when (SqlClause.hasValues value)
              (push_all (SqlClause.get_values value))) ;;;
      ret (SqlClause.get value)
    else
      known <- lift (_pushValue value) ;;
      if negb known then throw (UnsupportedValue searchIndex)
      else ret placeholder.

(* ------------------------------------------------------------------ *)
(** ** The filter compiler *)

(** The part of the loop body of [_buildSqlFromFilterArray] that
    handles a string clause [[column, operator, value, logicOperator]]
    prepares the three slots in place, one after the other. *)
Definition prepare_operator_slot (t : nat) : E unit :=
  e1 <- entry_get 1 ;;
  when (truthy e1)
    (op <- _prepareSearchOperator 1 2 t ;; entry_set 1 (VStr op)).

Definition prepare_value_slot (t : nat) : E unit :=
  e2 <- entry_get 2 ;;
  when (negb (is_undefined e2))
    (v <- _prepareSearchValue 1 2 t ;; entry_set 2 (VStr v)).

Definition prepare_logic_slot (operator : string) (t : nat) : E unit :=
  e3 <- entry_get 3 ;;
  lop <- liftR (_getLogicOperator e3 operator) ;;
  entry_set 3 (VStr lop) ;;;
  if negb (hasOwnProperty SQL_OPERATORS_LOGIC lop) then
    throw (TypeError "this.SQL_OPERATORS_LOGIC.join is not a function")
  else ret tt.

Definition prepare_string_clause (operator : string) (t : nat) : E unit :=
  prepare_operator_slot t ;;;
  prepare_value_slot t ;;;
  prepare_logic_slot operator t.

(** The loop body from the brackets on, for the entry array [entry] of
    kind [entryType]: the SQL text and the [openBracket] flag
    afterwards.  The filter callback, which is never set, is passed
    over. *)
Definition compile_entry (operator : string) (t : nat)
  (entryType : string) (sql : string) (openBracket : bool)
  : E (string * bool) :=
  e0 <- entry_get 0 ;;
  if is_str e0 "(" || is_str e0 ")" then
    if is_str e0 "(" && negb openBracket then
      e1 <- entry_get 1 ;;
      lop <- liftR (_getLogicOperator e1 operator) ;;
      ret ((sql ++ (" " ++ lop)) ++ toStr e0, true)%string
    else if is_str e0 ")" then ret (sql ++ toStr e0, false)%string
    else ret (sql ++ toStr e0, openBracket)%string
  else
    when (String.eqb "String" entryType)
      (c <- liftR (_prepareColumnName e0) ;; entry_set 0 (VStr c)) ;;;
    e0 <- entry_get 0 ;;
    when (isString e0) (prepare_string_clause operator t) ;;;
    e3 <- entry_get 3 ;;
    let sql :=
      if negb openBracket then (sql ++ (" " ++ toStr e3 ++ " "))%string
      else sql in
    e0 <- entry_get 0 ;;
    if isString e0 then
      entry_set_length 3 ;;;
      entry <- entry_read ;;
      ret (sql ++ ("(" ++ join " " entry ++ ")"), false)%string
    else if instanceof_SqlClause e0 then
      lift (when (SqlClause.hasValues e0)
              (push_all (SqlClause.get_values e0))) ;;;
      ret (sql ++ ("(" ++ SqlClause.get e0 ++ ")"), false)%string
    else throw (UnsupportedFieldType t).

(** [filter[t].slice(0)]: arrays and strings have a [slice]. *)
Definition slice0 (v : value) : Result value :=
  match v with
  | VArr l => Ok (VArr l)
  | VStr s => Ok (VStr s)
  | VUndef | VNull => Throw (TypeError "cannot read property slice")
  | _ => Throw (TypeError "filter[t].slice is not a function")
  end.

(** One turn of the loop on [filter[t]]: the result, what [filter[t]]
    is afterwards, and the builder.  The copy made by [slice] is
    stored back into [filter[t]] and is the array the turn works on. *)
Definition compile_iteration (operator : string) (t : nat) (ft : value)
  (sql : string) (openBracket : bool) (q : DbQuery)
  : Result (string * bool) * value * DbQuery :=
  match slice0 ft with
  | Throw e => (Throw e, ft, q)
  | Ok entry =>
      let entryType := typeOf entry in
      if negb (truthy entry) then (Throw (MissingSearchFilter t), entry, q)
      else if negb (String.eqb "Array" entryType) then
        if is_str entry "(" || is_str entry ")"
           || instanceof_SqlClause entry then
          (* entry = [entry]: a new array, [filter[t]] keeps the copy *)
          let '(r, (_, q')) :=
            compile_entry operator t entryType sql openBracket
              ([entry], q) in
          (r, entry, q')
        else (Throw (SearchFilterIsntAnArray t), entry, q)
      else if negb (truthy (at_index (elements entry) 0)) then
        (Throw (FieldnameDoesntExist t), entry, q)
      else
        let '(r, (entry', q')) :=
          compile_entry operator t entryType sql openBracket
            (elements entry, q) in
        (r, VArr entry', q')
  end.

(** The loop [for (t = 0; t < filter.length; t++)], from index [t] on
    the entries [filter]: the SQL text, the entries afterwards and the
    builder. *)
Fixpoint compile_loop (operator : string) (filter : list value) (t : nat)
  (sql : string) (openBracket : bool) (q : DbQuery)
  : Result string * list value * DbQuery :=
  match filter with
  | [] => (Ok sql, [], q)
  | ft :: filter' =>
      match compile_iteration operator t ft sql openBracket q with
      | (Throw e, ft', q') => (Throw e, ft' :: filter', q')
      | (Ok (sql', openBracket'), ft', q') =>
          let '(r, filter'', q'') :=
            compile_loop operator filter' (S t) sql' openBracket' q' in
          (r, ft' :: filter'', q'')
      end
  end.

(** The default logic operator of a search object:
    [(search.operator && search.operator.length)
       ? search.operator.toUpperCase() : "AND"]. *)
Definition default_operator (op : value) : Result string :=
  if truthy op then
    match get_prop op "length" with
    | Throw e => Throw e
    | Ok len =>
        if truthy len then
          match op with
          | VStr s => Ok (toUpperCase s)
          | _ => Throw (TypeError
                   "search.operator.toUpperCase is not a function")
          end
        else Ok "AND"
    end
  else Ok "AND".

(** [_buildSqlFromFilterArray(search)]: the WHERE text, the search
    object as the caller finds it afterwards, and the builder. *)
Definition _buildSqlFromFilterArray (search : value) (q : DbQuery)
  : Result string * value * DbQuery :=
  let q := set_sqlValues [] q in
  match get_prop search "filter" with
  | Throw e => (Throw e, search, q)
  | Ok filter =>
      if negb (isArray filter) then
        (Throw MissingOrWrongParameterSearch, search, q)
      else if (List.length (elements filter) =? 0)%nat then
        (Ok "", search, q)
      else
        match get_prop search "operator" with
        | Throw e => (Throw e, search, q)
        | Ok op =>
            match default_operator op with
            | Throw e => (Throw e, search, q)
            | Ok operator =>
                if negb (hasOwnProperty SQL_OPERATORS_LOGIC operator) then
                  (Throw (TypeError
                     "this.SQL_OPERATORS_LOGIC.join is not a function"),
                   search, q)
                else if negb (isArray (at_index (elements filter) 0)) then
                  (* filter = [filter]: the loop works on a new array *)
                  let '(r, _, q') :=
                    compile_loop operator [filter] 0 "" true q in
                  (r, search, q')
                else
                  let '(r, filter', q') :=
                    compile_loop operator (elements filter) 0 "" true q in
                  (r, with_filter search (VArr filter'), q')
            end
        end
  end.

(* ------------------------------------------------------------------ *)
(** ** ORDER BY *)

Definition allowedDir : list string := [ "ASC"; "DESC" ].

(** The direction [_buildSqlOrderBy] stores into [orderBy[t][1]].  The
    test of the source, [!d || !d.toUpperCase() in allowedDir], reads
    [(!d.toUpperCase()) in allowedDir]: the key looked up is the
    negation, a boolean. *)
Definition order_direction (d : value) : Result string :=
  if negb (truthy d) then Ok "ASC"
  else
    match d with
    | VStr s =>
        let key := VBool (negb (truthy (VStr (toUpperCase s)))) in
        if hasOwnProperty allowedDir (toStr key) then Ok "ASC"
        else Ok (toUpperCase s)
    | _ => Throw (TypeError "orderBy[t][1].toUpperCase is not a function")
    end.

(** The loop of [_buildSqlOrderBy] over an array [orderBy]: the terms
    pushed to [sqlOrderBy].  (The direction is also stored into the
    caller's [orderBy[t]]; the terms do not depend on that.) *)
Fixpoint order_terms (orderBy : list value) : Result (list string) :=
  match orderBy with
  | [] => Ok []
  | o :: orderBy' =>
      let rest (term : list string) :=
        match order_terms orderBy' with
        | Throw e => Throw e
        | Ok terms => Ok (term ++ terms)%list
        end in
      if isString o then rest [toStr o]
      else if isArray o && (0 <? List.length (elements o))%nat then
        match order_direction (at_index (elements o) 1) with
        | Throw e => Throw e
        | Ok dir => rest [join " " (set_index (elements o) 1 (VStr dir))]
        end
      else rest []
  end.

(** [_buildSqlOrderBy(orderBy)]. *)
Definition _buildSqlOrderBy (orderBy : value) : Result string :=
  if negb (truthy orderBy) then Ok ""
  else
    match (if isArray orderBy then order_terms (elements orderBy)
           else if isString orderBy then Ok [toStr orderBy]
           else Ok []) with
    | Throw e => Throw e
    | Ok sqlOrderBy =>
        Ok (if (0 <? List.length sqlOrderBy)%nat
            then (" ORDER BY " ++ String.concat ", " sqlOrderBy)%string
            else "")
    end.

(** The loop of [_buildSqlOrderBy] together with what it stores: the
    terms, and the entries of [orderBy] as the caller finds them
    afterwards, the direction written into the second slot of each
    entry that is an array. *)
Fixpoint order_loop (orderBy : list value)
  : Result (list string) * list value :=
  match orderBy with
  | [] => (Ok [], [])
  | o :: orderBy' =>
      if isString o then
        let '(r, stored) := order_loop orderBy' in
        (match r with
         | Throw e => Throw e
         | Ok terms => Ok (toStr o :: terms)
         end, o :: stored)
      else if isArray o && (0 <? List.length (elements o))%nat then
        match order_direction (at_index (elements o) 1) with
        | Throw e => (Throw e, o :: orderBy')
        | Ok dir =>
            let entry := set_index (elements o) 1 (VStr dir) in
            let '(r, stored) := order_loop orderBy' in
            (match r with
             | Throw e => Throw e
             | Ok terms => Ok (join " " entry :: terms)
             end, VArr entry :: stored)
        end
      else
        let '(r, stored) := order_loop orderBy' in (r, o :: stored)
  end.

(** The argument of [_buildSqlOrderBy] as the caller finds it
    afterwards. *)
Definition order_after (orderBy : value) : value :=
  if truthy orderBy && isArray orderBy
  then VArr (snd (order_loop (elements orderBy)))
  else orderBy.

(** The search object as the caller sees it once the array behind its
    [order] property has become [o]. *)
Definition with_order (search : value) (o : value) : value :=
  match search with
  | VObj props => VObj (update_prop "order" o props)
  | _ => search
  end.

(* ------------------------------------------------------------------ *)
(** ** COUNT *)

(** [prepareCount(search)]. *)
Definition prepareCount (search : value) (q : DbQuery)
  : Result string * value * DbQuery :=
  match _buildSqlFromFilterArray search q with
  | (Throw e, search', q') => (Throw e, search', q')
  | (Ok sqlWhere, search', q') =>
      let sql := ("SELECT COUNT(*) FROM " ++ _table q')%string in
      let sql :=
        (sql ++ (if truthy (VStr sqlWhere) then " WHERE " ++ sqlWhere
                 else ""))%string in
      (Ok sql, search', set_sql sql q')
  end.

(** [count(search, successCallback, errorCallback)] up to the statement
    it hands to [executeOneValue]: the statement is left in the
    builder. *)
Definition count (search : value) (q : DbQuery) : Result unit * DbQuery :=
  let replaced :=
    if negb (isObject search) then Ok true
    else match get_prop search "filter" with
         | Throw e => Throw e
         | Ok f => Ok (negb (truthy f))
         end in
  match replaced with
  | Throw e => (Throw e, q)
  | Ok b =>
      let search := if b then VObj [("filter", VArr [])] else search in
      match prepareCount search q with
      | (Throw e, _, q') => (Throw e, q')
      | (Ok _, _, q') => (Ok tt, q')
      end
  end.

(* ------------------------------------------------------------------ *)
(** ** LIMIT, DELETE and SELECT *)

(** [_buildSqlLimit(limit)]. *)
Definition _buildSqlLimit (limit : value) : string :=
  if negb (truthy limit) then ""
  else if isArray limit
          && (0 <? List.length (elements limit))%nat
          && (1 <? List.length (elements limit))%nat
          && greater_than_zero (at_index (elements limit) 1)
  then ("LIMIT " ++ parseInt (at_index (elements limit) 0) ++ ", "
        ++ parseInt (at_index (elements limit) 1))%string
  else if isNumeric limit then ("LIMIT " ++ parseInt limit)%string
  else "".

(** [prepareDeleteSearch(search)]: the SQL text is stored before the
    search object is asked for a limit of its own. *)
Definition prepareDeleteSearch (search : value) (q : DbQuery)
  : Result string * value * DbQuery :=
  match _buildSqlFromFilterArray search q with
  | (Throw e, search', q') => (Throw e, search', q')
  | (Ok sqlWhere, search', q') =>
      let sql := ("DELETE FROM " ++ _table q')%string in
      let sql :=
        (sql ++ (if truthy (VStr sqlWhere) then " WHERE " ++ sqlWhere
                 else ""))%string in
      match method_hasOwnProperty search' "limit" with
      | Throw e => (Throw e, search', set_sql sql q')
      | Ok true =>
          match get_prop search' "limit" with
          | Throw e => (Throw e, search', set_sql sql q')
          | Ok limit =>
              let sql := (sql ++ _buildSqlLimit limit)%string in
              (Ok sql, search', set_sql sql q')
          end
      | Ok false => (Ok sql, search', set_sql sql q')
      end
  end.

(** The loop of [_searchPrepareReturnColumns] over the column list,
    from index [t] on: a name must be a column of the table, an object
    is taken as it is. *)
Fixpoint return_columns (columns : list string) (t : nat)
  (columnList : list value) : Result (list value) :=
  match columnList with
  | [] => Ok []
  | c :: columnList' =>
      let rest :=
        match return_columns columns (S t) columnList' with
        | Throw e => Throw e
        | Ok returnColumns => Ok (c :: returnColumns)
        end in
      if isString c then
        if negb (existsb (String.eqb (toStr c)) columns) then
          Throw (UnknownColumn t)
        else rest
      else if isObject c then rest
      else Throw (UnacceptedColumnType t)
  end.

(** [_searchPrepareReturnColumns(columnList)]. *)
Definition _searchPrepareReturnColumns (columnList : value)
  : M (list value) :=
  fun q =>
    let columns := getColumns (_db q) (_table q) in
    if negb (isArray columnList)
       || (List.length (elements columnList) <? 1)%nat
    then (Ok (map VStr columns), q)
    else (return_columns columns 0 (elements columnList), q).

(** [_buildSqlColumns(columns)] on an array of columns. *)
Definition _buildSqlColumns (columns : list value) : string :=
  join ", "
    (map (fun column =>
            if instanceof_SqlClause column
            then VStr (SqlClause.get column) else column)
       columns).

(** [prepareSearch(search)].  The array of return columns is truthy, so
    the check for missing return columns is passed over.  What
    [_buildSqlOrderBy] writes into the ordering is in the search object
    afterwards, also when it throws. *)
Definition prepareSearch (search : value) (q : DbQuery)
  : Result string * value * DbQuery :=
  let cleared :=
    if negb (truthy search) then
      Throw (TypeError "cannot set property columns")
    else
      match get_prop search "columns" with
      | Throw e => Throw e
      | Ok columns =>
          if negb (truthy columns) then set_prop search "columns" VNull
          else Ok search
      end in
  match cleared with
  | Throw e => (Throw e, search, q)
  | Ok search =>
      match get_prop search "columns" with
      | Throw e => (Throw e, search, q)
      | Ok columns =>
          match _searchPrepareReturnColumns columns q with
          | (Throw e, q) => (Throw e, search, q)
          | (Ok returnColumns, q) =>
              match _buildSqlFromFilterArray search q with
              | (Throw e, search, q) => (Throw e, search, q)
              | (Ok sqlWhere, search, q) =>
                  let q :=
                    set_sql ("SELECT " ++ _buildSqlColumns returnColumns
                             ++ " FROM " ++ _table q
                             ++ (if truthy (VStr sqlWhere)
                                 then " WHERE " ++ sqlWhere else ""))
                      q in
                  match get_prop search "order" with
                  | Throw e => (Throw e, search, q)
                  | Ok order =>
                      let search :=
                        if truthy order
                        then with_order search (order_after order)
                        else search in
                      match (if truthy order then _buildSqlOrderBy order
                             else Ok "") with
                      | Throw e => (Throw e, search, q)
                      | Ok sqlOrder =>
                          let q := if truthy order
                                   then set_sql (_sql q ++ sqlOrder) q
                                   else q in
                          match get_prop search "limit" with
                          | Throw e => (Throw e, search, q)
                          | Ok limit =>
                              let q :=
                                if truthy limit
                                then set_sql (_sql q ++ _buildSqlLimit limit)
                                       q
                                else q in
                              (Ok (_sql q), search, q)
                          end
                      end
                  end
              end
          end
      end
  end.

(** [getSql()] and [getValues()]. *)
Definition getSql (q : DbQuery) : string := _sql q.
Definition getValues (q : DbQuery) : list value := _sqlValues q.

(* ------------------------------------------------------------------ *)
(** ** Accessors *)

(** [setTableName(tableName)]. *)
Definition setTableName (tableName : value) : M unit :=
  fun q =>
    if negb (truthy tableName) || is_str tableName ""
       || negb (isString tableName)
    then (Throw TableNameMissingOrEmpty, q)
    else (Ok tt, {| _table := toStr tableName; _db := _db q;
                    _sql := _sql q; _sqlValues := _sqlValues q |}).

(** [getTableName()]. *)
Definition getTableName (q : DbQuery) : string := _table q.

(** [setDb(db)]; the connection, which only [execute] uses, is not
    kept. *)
Definition setDb (db : DatabaseAdapter) : M unit :=
  fun q =>
    (Ok tt, {| _table := _table q; _db := db; _sql := _sql q;
               _sqlValues := _sqlValues q |}).

(** [getSqlClause()]. *)
Definition getSqlClause (q : DbQuery) : Result value :=
  SqlClause.new (VStr (getSql q)) (VArr (getValues q)).

(** [getSearchColumns(search)]. *)
Definition getSearchColumns (search : value) : M (list value) :=
  fun q =>
    match (if truthy search then
             match method_hasOwnProperty search "columns" with
             | Throw e => Throw e
             | Ok true => get_prop search "columns"
             | Ok false => Ok VNull
             end
           else Ok VNull) with
    | Throw e => (Throw e, q)
    | Ok searchColumns => _searchPrepareReturnColumns searchColumns q
    end.

(* ------------------------------------------------------------------ *)
(** ** SEARCH and DELETE *)

(** What [search] does: it throws its own error, for an argument that
    is no search object, or it goes on to [prepareSearch]. *)
Inductive Searched : Type :=
| NeedSearchObject
| Prepared (r : Result string).

(** [search(search, successCallback, errorCallback)] up to the
    statement it hands to [execute]: the outcome, the argument as the
    caller finds it afterwards, and the builder.  A filter array given
    by itself is put into a new search object; the array stays the one
    the caller holds.  The four locals the method reads from the search
    object ([columns], [limit], [operator], [order]) are not used. *)
Definition search (search : value) (q : DbQuery)
  : Searched * value * DbQuery :=
  let wrapped := isArray search in
  let object := if wrapped then VObj [("filter", search)] else search in
  let refused :=
    if negb (isObject object) then Ok true
    else match get_prop object "filter" with
         | Throw e => Throw e
         | Ok f => Ok (negb (truthy f))
         end in
  match refused with
  | Throw e => (Prepared (Throw e), search, q)
  | Ok true => (NeedSearchObject, search, q)
  | Ok false =>
      let '(r, object', q') := prepareSearch object q in
      (Prepared r,
       (if wrapped then
          match get_prop object' "filter" with
          | Ok f => f
          | Throw _ => search
          end
        else object'),
       q')
  end.

(** [deleteSearch(search, successCallback, errorCallback)] up to the
    statement it hands to [execute]. *)
Definition deleteSearch (search : value) (q : DbQuery)
  : Result unit * value * DbQuery :=
  match prepareDeleteSearch search q with
  | (Throw e, search', q') => (Throw e, search', q')
  | (Ok _, search', q') => (Ok tt, search', q')
  end.

(* ------------------------------------------------------------------ *)
(** ** The catalogues as objects *)

(** The body of the loop of [flipToObject], [obj[array[t]] = t], from
    the index [t] on.  The index of a [for ... in] loop is a string.
    The key ["__proto__"] names the accessor of the prototype, which
    drops a string. *)
Fixpoint flip_entries (array : list value) (t : nat)
  (obj : list (string * value)) : list (string * value) :=
  match array with
  | [] => obj
  | v :: array' =>
      flip_entries array' (S t)
        (if String.eqb (toStr v) "__proto__" then obj
         else update_prop (toStr v) (VStr (Z_to_string (Z.of_nat t))) obj)
  end.

(** [flipToObject(array)]. *)
Definition flipToObject (array : value) : value :=
  if negb (isArray array) then VObj []
  else VObj (flip_entries (elements array) 0 []).

End Compiler.

(* ------------------------------------------------------------------ *)
(** ** Sample collaborators *)

(** A runtime whose numeric strings are the non-empty runs of decimal
    digits, and which reads every number from its digits. *)
Definition all_digits (s : string) : bool :=
  negb (String.eqb s "")
  && forallb (fun c => let n := nat_of_ascii c in
                       (48 <=? n)%nat && (n <=? 57)%nat)
       (list_ascii_of_string s).

Fixpoint strip_zeros (s : string) : string :=
  match s with
  | String "0" (String _ _ as s') => strip_zeros s'
  | _ => s
  end.

Definition decimal_runtime : JsRuntime :=
  {| parseFloat_isNaN := fun s => negb (all_digits s);
     string_isFinite := all_digits;
     string_is_positive :=
       fun s => all_digits s && negb (String.eqb (strip_zeros s) "0");
     parseInt_text :=
       fun s => if all_digits s then strip_zeros s else "NaN";
     parseInt_number := Z_to_string |}.

(** A database with the columns [id], [a], [b] and [c] in every table,
    that registers no placeholder of its own. *)
Definition plain_db : DatabaseAdapter :=
  {| getColumns := fun _ => ["id"; "a"; "b"; "c"];
     columnExists := fun _ _ => false;
     getColumnPlaceholder := fun _ _ => "?" |}.

(** A fresh builder on the table [t]. *)
Definition fresh (t : string) : DbQuery :=
  {| _table := t; _db := plain_db; _sql := ""; _sqlValues := [] |}.

(* ================================================================== *)
(** * Statements *)
(* ================================================================== *)

(** A search object with a filter and a default logic operator. *)
Definition search_of (filter : value) (operator : value) : value :=
  VObj [("filter", filter); ("operator", operator)].

(** The three components of what a build returns. *)
Definition result_of {A B C} (x : A * B * C) : A := fst (fst x).
Definition search_after {A B C} (x : A * B * C) : B := snd (fst x).
Definition builder_after {A B C} (x : A * B * C) : C := snd x.



(** The filter of the class documentation that uses parentheses. *)
Definition parenthesised_filter : value :=
  VArr [ VArr [VStr "("];
         VArr [VStr "a"; VStr "="; VNum 1];
         VArr [VStr "b"; VStr "!="; VNum 1];
         VArr [VStr ")"];
         VArr [VStr "c"; VStr "IN";
               VArr [VNum 6; VNum 7; VNum 8; VNum 9]; VStr "OR"] ].

(** A computation that leaves a component [proj] of its state as it
    found it, whether it returns or throws. *)
Definition keeps {S A B} (proj : S -> B) (m : ST S A) : Prop :=
  forall s, proj (snd (m s)) = proj s.

(** What a build must not touch: the table, the database and the SQL
    text of the builder. *)
Definition frame (q : DbQuery) : string * DatabaseAdapter * string :=
  (_table q, _db q, _sql q).

Definition entry_frame (s : list value * DbQuery)
  : string * DatabaseAdapter * string :=
  frame (snd s).

(** The placeholder the builder [q] uses for a column. *)
Definition placeholder_of (q : DbQuery) (column : value) : string :=
  if columnExists (_db q) (_table q) column
  then getColumnPlaceholder (_db q) (_table q) column
  else "?".


(** An operator of one of the two catalogues, once trimmed and put in
    upper case. *)
Definition catalogued (op : string) : bool :=
  hasOwnProperty SQL_OPERATORS (toUpperCase (trim op))
  || hasOwnProperty SQL_OPERATORS_ARRAY (toUpperCase (trim op)).

Section Statements.
Context {rt : JsRuntime}.

(** [compile filter operator q]: the compiler on a search object made
    of a filter and a default logic operator. *)
Definition compile (filter operator : value) (q : DbQuery)
  : Result string * value * DbQuery :=
  _buildSqlFromFilterArray (search_of filter operator) q.

(** The kinds [_pushValue] knows. *)
Definition known_kind (v : value) : bool :=
  isString v || isNumeric v
  || String.eqb "Boolean" (typeOf v) || String.eqb "null" (typeOf v)
  || String.eqb "Date" (typeOf v) || String.eqb "Array" (typeOf v).

(** The database form [_pushValue] gives to a value of a known kind. *)
Definition db_value (v : value) : value :=
  if isString v || isNumeric v then v
  else if String.eqb "Boolean" (typeOf v) then plus_zero v
  else if String.eqb "null" (typeOf v) then VStr "NULL"
  else if String.eqb "Date" (typeOf v) then VStr (toISOString v)
  else VStr ("'" ++ join "', '" (elements v) ++ "'").





(** C1 as the specification words it: a [null] value is written inline
    as the keyword NULL and nothing is pushed. *)
Definition null_written_inline (column op : string) (q : DbQuery) : Prop :=
  let out := compile (VArr [VArr [VStr column; VStr op; VNull]]) VUndef q in
  result_of out = Ok ("(" ++ column ++ " " ++ op ++ " NULL)")%string
  /\ getValues (builder_after out) = [].






End Statements.

(* ------------------------------------------------------------------ *)
(** ** Statements on the rest of the class *)

(** The own value of a key of a plain object, [undefined] when the
    object has no such key. *)
Definition own_value (obj : value) (key : string) : value :=
  match obj with
  | VObj props => lookup_prop key props
  | _ => VUndef
  end.

(** The calls that build a statement on a builder or change it. *)
Inductive Call : Type :=
| CallSetTableName (tableName : value)
| CallSetDb (db : DatabaseAdapter)
| CallGetSearchColumns (search : value)
| CallPrepareSearch (search : value)
| CallPrepareCount (search : value)
| CallPrepareDeleteSearch (search : value)
| CallSearch (search : value)
| CallCount (search : value)
| CallDeleteSearch (search : value).

Definition is_setTableName (c : Call) : bool :=
  match c with CallSetTableName _ => true | _ => false end.

Section Calls.
Context {rt : JsRuntime}.

(** The builder after a call, whether the call returned or threw. *)
Definition after_call (c : Call) (q : DbQuery) : DbQuery :=
  match c with
  | CallSetTableName tableName => snd (setTableName tableName q)
  | CallSetDb db => snd (setDb db q)
  | CallGetSearchColumns s => snd (getSearchColumns s q)
  | CallPrepareSearch s => builder_after (prepareSearch s q)
  | CallPrepareCount s => builder_after (prepareCount s q)
  | CallPrepareDeleteSearch s => builder_after (prepareDeleteSearch s q)
  | CallSearch s => builder_after (search s q)
  | CallCount s => snd (count s q)
  | CallDeleteSearch s => builder_after (deleteSearch s q)
  end.

Definition after_calls (cs : list Call) (q : DbQuery) : DbQuery :=
  fold_left (fun q c => after_call c q) cs q.

End Calls.

(** An argument that is an object with a truthy [filter]: what [search]
    and [count] take as a search object. *)
Definition has_filter (s : value) : bool :=
  isObject s
  && match get_prop s "filter" with
     | Ok f => truthy f
     | Throw _ => false
     end.

(** The WHERE part of a statement. *)
Definition where_text (sqlWhere : string) : string :=
  if truthy (VStr sqlWhere) then (" WHERE " ++ sqlWhere)%string else "".

(** A column name the compiler takes as one: a non-empty string that
    is no bracket. *)
Definition is_column (column : string) : bool :=
  negb (column =? "") && negb (column =? "(") && negb (column =? ")").

(** The text of the loop with the logic operator that joins the next
    entry, which is left out after an opening bracket and at the
    start. *)
Definition joined (sql : string) (openBracket : bool) (lop : string)
  : string :=
  if openBracket then sql else (sql ++ (" " ++ lop ++ " "))%string.

Section Predicates.
Context {rt : JsRuntime}.

(** The setting of a turn of the loop on a predicate
    [[column, op, ...]]: a column name, an operator of the catalogues
    that is not a null test, a default logic operator of the catalogue,
    and the logic operator [lop] that the fourth slot [conn] of the
    entry stands for. *)
Definition predicate_turn (operator column op : string) (conn : value)
  (lop : string) : Prop :=
  is_column column = true
  /\ catalogued op = true
  /\ includes "ISNULL" (toUpperCase (trim op)) = false
  /\ hasOwnProperty SQL_OPERATORS_LOGIC operator = true
  /\ _getLogicOperator conn operator = Ok lop.

(** What a turn of the loop on a predicate leaves when it succeeds:
    the text with the predicate in parentheses, the entry with its
    three slots prepared, and the builder with the values bound. *)
Definition predicate_compiled (sql : string) (openBracket : bool)
  (lop column OP : string) (text : value) (pushed : list value)
  (q : DbQuery) : Result (string * bool) * value * DbQuery :=
  (Ok ((joined sql openBracket lop
        ++ ("(" ++ (column ++ " " ++ OP ++ " " ++ join_elem text) ++ ")"))
       %string, false),
   VArr [VStr column; VStr OP; text],
   set_sqlValues (_sqlValues q ++ pushed) q).

(** A value that goes into a predicate by itself: of a kind
    [_pushValue] knows, no array and no raw clause. *)
Definition scalar_value (v : value) : bool :=
  known_kind v && negb (isArray v) && negb (instanceof_SqlClause v).

End Predicates.

(** The errors a turn of the loop on the entry [t] raises: the errors
    of the compiler that name an entry, with the index [t], and the
    errors of the runtime. *)
Definition raised_by_turn (t : nat) (e : Error) : bool :=
  match e with
  | MissingSearchFilter i | SearchFilterIsntAnArray i
  | FieldnameDoesntExist i | UnsupportedFieldType i
  | WrongOperatorType i | UnknownOperator i _
  | UnsupportedArrayForScalarOperator i
  | UnsupportedArrayLengthForBetween i
  | UnsupportedValue i => Nat.eqb i t
  | TypeError _ => true
  | _ => false
  end.

(** An entry that opens a bracket, and whether the loop is just after
    an opening bracket once it has gone over the entries [l], having
    started with the flag [openBracket]. *)
Definition opens_bracket (ft : value) : bool :=
  match ft with
  | VStr s => String.eqb s "("
  | VArr l => is_str (at_index l 0) "("
  | _ => false
  end.

Definition bracket_left_open (l : list value) (openBracket : bool) : bool :=
  match l with
  | [] => openBracket
  | _ => opens_bracket (last l VUndef)
  end.

(** A value that is converted to a string or to a number by the
    methods its kind inherits: no plain object in it has a [toString]
    or a [valueOf] of its own, which the conversion would call. *)
Fixpoint converts_as_inherited (v : value) : bool :=
  match v with
  | VObj _ =>
      negb (has_own_prop v "toString") && negb (has_own_prop v "valueOf")
  | VArr l => forallb converts_as_inherited l
  | _ => true
  end.

(** The builder [q'] holds the values of [q] and, after them, some
    more; the rest of it is as in [q]. *)
Definition appended (q q' : DbQuery) : Prop :=
  exists pushed, q' = set_sqlValues (_sqlValues q ++ pushed) q.

(* ================================================================== *)
(** * Proofs *)
(* ================================================================== *)

(** Unfolds the plumbing of a computation applied to its state. *)
Ltac run :=
  unfold bind, ret, throw, lift, liftR, when, entry_get, entry_set,
    entry_set_length, entry_read, this_table, push, push_all;
  cbv beta iota;
  cbn [fst snd at_index isString is_undefined
       truthy is_str instanceof_SqlClause typeOf elements negb andb orb
       toStr List.length slice0 isArray isObject
       SqlClause.new SqlClause.set SqlClause.values SqlClause.hasValues
       SqlClause.get SqlClause.get_values SqlClause.toString];
  cbv beta iota.

(** Decides the comparisons of two literals. *)
Ltac eqb_ground :=
  repeat match goal with
  | |- context [String.eqb ?a ?b] =>
      let r := eval vm_compute in (String.eqb a b) in
      match r with true => idtac | false => idtac end;
      change (String.eqb a b) with r
  | |- context [Nat.ltb ?a ?b] =>
      let r := eval vm_compute in (Nat.ltb a b) in
      match r with true => idtac | false => idtac end;
      change (Nat.ltb a b) with r
  | |- context [Nat.eqb ?a ?b] =>
      let r := eval vm_compute in (Nat.eqb a b) in
      match r with true => idtac | false => idtac end;
      change (Nat.eqb a b) with r
  end.

(** ** Marks in strings *)



Lemma append_assoc (s1 s2 s3 : string) :
  ((s1 ++ s2) ++ s3 = s1 ++ (s2 ++ s3))%string.
Proof. induction s1 as [|c s1 IH]; simpl; [reflexivity | now rewrite IH]. Qed.

Lemma append_empty_r (s : string) : (s ++ "")%string = s.
Proof. induction s as [|c s IH]; simpl; [reflexivity | now rewrite IH]. Qed.


Lemma hasOwnProperty_In (catalogue : list string) (key : string) :
  hasOwnProperty catalogue key = true -> In key catalogue.
Proof.
  unfold hasOwnProperty. rewrite existsb_exists.
  intros [x [Hin Heq]]. apply String.eqb_eq in Heq. now subst.
Qed.

Lemma operators_hold_no_mark (op : string) :
  hasOwnProperty SQL_OPERATORS op
  || hasOwnProperty SQL_OPERATORS_ARRAY op = true ->
  placeholders op = 0.
Proof.
  intros H. apply orb_true_iff in H.
  destruct H as [H|H]; apply hasOwnProperty_In in H; simpl in H;
    repeat (destruct H as [H|H]; [subst; reflexivity|]); contradiction.
Qed.


Lemma logic_operators_are_upper (op : string) :
  hasOwnProperty SQL_OPERATORS_LOGIC op = true -> toUpperCase op = op.
Proof.
  intros H. apply hasOwnProperty_In in H; simpl in H.
  repeat (destruct H as [H|H]; [subst; reflexivity|]); contradiction.
Qed.

Lemma falsy_holds_no_mark (v : value) :
  truthy v = false -> placeholders (join_elem v) = 0.
Proof.
  destruct v; simpl; try discriminate; try reflexivity.
  - destruct b; [discriminate | reflexivity].
  - intros H. apply negb_false_iff, Z.eqb_eq in H. now subst.
  - intros H. apply negb_false_iff, String.eqb_eq in H. now subst.
Qed.

Lemma toUpperCase_empty (s : string) : toUpperCase s = "" -> s = "".
Proof. destruct s; [reflexivity | discriminate]. Qed.

Section Proofs.
Context {rt : JsRuntime}.

(** ** The logic operator *)

Lemma _getLogicOperator_in_catalogue (op1 : value) (operator lop : string) :
  hasOwnProperty SQL_OPERATORS_LOGIC operator = true ->
  _getLogicOperator op1 operator = Ok lop ->
  hasOwnProperty SQL_OPERATORS_LOGIC lop = true.
Proof.
  intros Hop H. unfold _getLogicOperator in H.
  assert (Hd : hasOwnProperty SQL_OPERATORS_LOGIC
                 (toUpperCase (if (operator =? "")%string
                               then "AND" else operator)) = true).
  { destruct (String.eqb_spec operator ""); [reflexivity|].
    now rewrite (logic_operators_are_upper _ Hop). }
  destruct (truthy op1); [|congruence].
  destruct op1; try discriminate.
  destruct (hasOwnProperty SQL_OPERATORS_LOGIC (toUpperCase s)) eqn:E;
    congruence.
Qed.

Lemma _getLogicOperator_undefined (operator : string) :
  hasOwnProperty SQL_OPERATORS_LOGIC operator = true ->
  _getLogicOperator VUndef operator = Ok operator.
Proof.
  intros Hop. unfold _getLogicOperator. simpl.
  destruct (String.eqb_spec operator "") as [->|_]; [discriminate Hop|].
  now rewrite (logic_operators_are_upper _ Hop).
Qed.

(** ** What [_pushValue] does *)

Lemma _pushValue_known (v : value) (q : DbQuery) :
  exists pushed,
    _pushValue v q
    = (Ok (known_kind v), set_sqlValues (_sqlValues q ++ pushed) q)
    /\ pushed = if known_kind v then [db_value v] else [].
Proof.
  unfold _pushValue, known_kind, db_value.
  destruct (isString v || isNumeric v) eqn:E1; [|
  destruct (String.eqb "Boolean" (typeOf v)) eqn:E2; [|
  destruct (String.eqb "null" (typeOf v)) eqn:E3; [|
  destruct (String.eqb "Date" (typeOf v)) eqn:E4; [|
  destruct (String.eqb "Array" (typeOf v)) eqn:E5]]]];
  run; try (eexists; split; [reflexivity|reflexivity]).
  exists []. rewrite app_nil_r. destruct q; split; reflexivity.
Qed.


Lemma _pushValue_null (q : DbQuery) :
  _pushValue VNull q
  = (Ok true, set_sqlValues (_sqlValues q ++ [VStr "NULL"]) q).
Proof. reflexivity. Qed.


Lemma set_sqlValues_twice (q : DbQuery) (l1 l2 : list value) :
  set_sqlValues (_sqlValues (set_sqlValues (_sqlValues q ++ l1) q) ++ l2)
    (set_sqlValues (_sqlValues q ++ l1) q)
  = set_sqlValues (_sqlValues q ++ (l1 ++ l2)) q.
Proof. unfold set_sqlValues; simpl. now rewrite app_assoc. Qed.

Lemma set_sqlValues_none (q : DbQuery) :
  q = set_sqlValues (_sqlValues q ++ []) q.
Proof. destruct q; unfold set_sqlValues; simpl. now rewrite app_nil_r. Qed.


Lemma _getColumnPlaceholder_eq (q : DbQuery) (column : value) :
  _getColumnPlaceholder (_table q) column q
  = (Ok (placeholder_of q column), q).
Proof. reflexivity. Qed.

Lemma placeholder_of_set_sqlValues (q : DbQuery) vs column :
  placeholder_of (set_sqlValues vs q) column = placeholder_of q column.
Proof. reflexivity. Qed.





(** ** Entries as arrays *)

Lemma at_index_set_index_same (l : list value) (i : nat) (v : value) :
  at_index (set_index l i v) i = v.
Proof.
  revert l; induction i as [|i IH]; intros [|x l]; simpl; auto.
Qed.

Lemma at_index_nil (i : nat) : at_index [] i = VUndef.
Proof. destruct i; reflexivity. Qed.

Lemma at_index_set_index_other (l : list value) (i j : nat) (v : value) :
  i <> j -> at_index (set_index l i v) j = at_index l j.
Proof.
  revert l j; induction i as [|i IH]; intros [|x l] [|j] H; simpl;
    try congruence; rewrite ?at_index_nil; try reflexivity.
  - rewrite IH by congruence. now rewrite at_index_nil.
  - apply IH; congruence.
Qed.


Lemma SqlClause_new_string (s : string) :
  SqlClause.new (VStr s) VUndef = Ok (VClause s []).
Proof.
  unfold SqlClause.new. simpl.
  destruct (String.eqb_spec s "") as [->|_]; reflexivity.
Qed.

Ltac idx :=
  repeat first [ rewrite at_index_set_index_same
               | rewrite at_index_set_index_other by congruence ].

(** ** The three slots of a string clause *)

(** The operator slot leaves the builder alone; the operator it writes
    holds no mark; [ISNULL] and [NOT ISNULL] turn the column into a raw
    clause without values, clear the value and set the logic operator
    to [AND]. *)
Lemma prepare_operator_slot_marks (t : nat) (l : list value) (q : DbQuery) :
  exists r l',
    prepare_operator_slot t (l, q) = (r, (l', q))
    /\ (r = Ok tt ->
        (at_index l' 0 = at_index l 0
         /\ at_index l' 2 = at_index l 2
         /\ placeholders (join_elem (at_index l' 1)) = 0)
        \/ (exists OP,
              placeholders OP = 0
              /\ at_index l' 0
                 = VClause (OP ++ "(" ++ toStr (at_index l 0) ++ ")") []
              /\ at_index l' 2 = VUndef
              /\ at_index l' 3 = VStr "AND")).
Proof.
  unfold prepare_operator_slot. run.
  destruct (truthy (at_index l 1)) eqn:T1; run.
  2:{ exists (Ok tt), l. split; [reflexivity|]. intros _. left.
      repeat split. now apply falsy_holds_no_mark. }
  unfold _prepareSearchOperator. run. rewrite T1. run.
  destruct (is_undefined (at_index l 1)); run.
  { eexists _, l. split; [reflexivity | discriminate]. }
  destruct (isString (at_index l 1)); run.
  2:{ eexists _, l. split; [reflexivity | discriminate]. }
  set (OP := toUpperCase (trim (toStr (at_index l 1)))).
  destruct (hasOwnProperty SQL_OPERATORS OP
            || hasOwnProperty SQL_OPERATORS_ARRAY OP) eqn:Ecat.
  2:{ apply orb_false_iff in Ecat. destruct Ecat as [-> ->]. run.
      eexists _, l. split; [reflexivity | discriminate]. }
  pose proof (operators_hold_no_mark OP Ecat) as HOP.
  replace (negb (hasOwnProperty SQL_OPERATORS OP)
           && negb (hasOwnProperty SQL_OPERATORS_ARRAY OP)) with false
    by (symmetry; rewrite <- negb_orb, Ecat; reflexivity).
  destruct (includes "ISNULL" OP); run.
  - rewrite SqlClause_new_string, at_index_set_index_same.
    change (_getLogicOperator VUndef "") with (@Ok string "AND"). run.
    eexists _, _. split; [reflexivity|]. intros _. right.
    exists OP. split; [exact HOP|]. idx. repeat split.
  - eexists _, _. split; [reflexivity|]. intros _. left.
    idx. repeat split. exact HOP.
Qed.



(** ** One entry *)




(** ** The loop *)




(** ** The compiler as a whole *)

Lemma compile_unfold (filter operator : value) (q : DbQuery) :
  compile filter operator q
  = let search := search_of filter operator in
    let q0 := set_sqlValues [] q in
    if negb (isArray filter) then
      (Throw MissingOrWrongParameterSearch, search, q0)
    else if (List.length (elements filter) =? 0)%nat then (Ok "", search, q0)
    else
      match default_operator operator with
      | Throw e => (Throw e, search, q0)
      | Ok op =>
          if negb (hasOwnProperty SQL_OPERATORS_LOGIC op) then
            (Throw (TypeError
               "this.SQL_OPERATORS_LOGIC.join is not a function"),
             search, q0)
          else if negb (isArray (at_index (elements filter) 0)) then
            let '(r, _, q') := compile_loop op [filter] 0 "" true q0 in
            (r, search, q')
          else
            let '(r, filter', q') :=
              compile_loop op (elements filter) 0 "" true q0 in
            (r, with_filter search (VArr filter'), q')
      end.
Proof. reflexivity. Qed.




(** ** What the compiler leaves alone *)

Lemma keeps_ret {S A B} (proj : S -> B) (a : A) : keeps proj (ret a).
Proof. intro s; reflexivity. Qed.

Lemma keeps_throw {S A B} (proj : S -> B) (e : Error) :
  keeps proj (@throw S A e).
Proof. intro s; reflexivity. Qed.

Lemma keeps_liftR {S A B} (proj : S -> B) (r : Result A) :
  keeps proj (liftR r).
Proof. intro s; reflexivity. Qed.

Lemma keeps_bind {S A A' B} (proj : S -> B) (m : ST S A)
  (k : A -> ST S A') :
  keeps proj m -> (forall a, keeps proj (k a)) -> keeps proj (bind m k).
Proof.
  intros Hm Hk s. unfold bind. specialize (Hm s).
  destruct (m s) as [[a|e] s']; simpl in *; [|exact Hm].
  rewrite Hk. exact Hm.
Qed.

Lemma keeps_when {S B} (proj : S -> B) (b : bool) (m : ST S unit) :
  keeps proj m -> keeps proj (when b m).
Proof. destruct b; [trivial | intros _; apply keeps_ret]. Qed.

Lemma keeps_lift {A} (m : M A) : keeps frame m -> keeps entry_frame (lift m).
Proof.
  intros H [l q]. unfold lift, entry_frame. simpl. specialize (H q).
  destruct (m q) as [r q']. exact H.
Qed.

Lemma keeps_entry_get (i : nat) : keeps entry_frame (entry_get i).
Proof. intro s; reflexivity. Qed.

Lemma keeps_entry_set (i : nat) (v : value) :
  keeps entry_frame (entry_set i v).
Proof. intro s; reflexivity. Qed.

Lemma keeps_entry_set_length (n : nat) :
  keeps entry_frame (entry_set_length n).
Proof. intro s; reflexivity. Qed.

Lemma keeps_entry_read : keeps entry_frame entry_read.
Proof. intro s; reflexivity. Qed.

Lemma keeps_this_table : keeps frame this_table.
Proof. intro s; reflexivity. Qed.

Lemma keeps_push (v : value) : keeps frame (push v).
Proof. intro s; reflexivity. Qed.

Lemma keeps_push_all (vs : list value) : keeps frame (push_all vs).
Proof. intro s; reflexivity. Qed.

Lemma keeps__getColumnPlaceholder (table : string) (column : value) :
  keeps frame (_getColumnPlaceholder table column).
Proof. intro s; reflexivity. Qed.

Create HintDb keeps.
#[local] Hint Resolve keeps_ret keeps_throw keeps_liftR keeps_entry_get
  keeps_entry_set keeps_entry_set_length keeps_entry_read keeps_this_table
  keeps_push keeps_push_all keeps__getColumnPlaceholder : keeps.

(** Goes through a computation statement by statement. *)
Ltac keeps_step :=
  match goal with
  | |- keeps _ (bind _ _) => apply keeps_bind; [|intro]
  | |- keeps _ (when _ _) => apply keeps_when
  | |- keeps _ (lift _) => apply keeps_lift
  | |- keeps _ (if ?c then _ else _) => destruct c
  | |- keeps _ (let _ := _ in _) => cbv zeta
  | |- keeps _ _ => solve [auto with keeps]
  end.

Lemma keeps__pushValue (v : value) : keeps frame (_pushValue v).
Proof. unfold _pushValue. repeat keeps_step. Qed.
#[local] Hint Resolve keeps__pushValue : keeps.

Lemma keeps_placeholder_list (ph : string) (vs : list value) :
  forall tmp tt, keeps frame (placeholder_list ph tmp tt vs).
Proof.
  induction vs as [|v vs IH]; intros tmp tt; cbn [placeholder_list];
    repeat keeps_step.
Qed.
#[local] Hint Resolve keeps_placeholder_list : keeps.

Lemma keeps__prepareSearchValue (opIndex valueIndex t : nat) :
  keeps entry_frame (_prepareSearchValue opIndex valueIndex t).
Proof. unfold _prepareSearchValue. repeat keeps_step. Qed.

Lemma keeps__prepareSearchOperator (opIndex valueIndex t : nat) :
  keeps entry_frame (_prepareSearchOperator opIndex valueIndex t).
Proof. unfold _prepareSearchOperator. repeat keeps_step. Qed.
#[local] Hint Resolve keeps__prepareSearchValue
  keeps__prepareSearchOperator : keeps.

Lemma keeps_prepare_string_clause (operator : string) (t : nat) :
  keeps entry_frame (prepare_string_clause operator t).
Proof.
  unfold prepare_string_clause, prepare_operator_slot, prepare_value_slot,
    prepare_logic_slot.
  repeat keeps_step.
Qed.
#[local] Hint Resolve keeps_prepare_string_clause : keeps.

Lemma keeps_compile_entry (operator : string) (t : nat)
  (entryType sql : string) (openBracket : bool) :
  keeps entry_frame (compile_entry operator t entryType sql openBracket).
Proof. unfold compile_entry. repeat keeps_step. Qed.

Lemma compile_iteration_frame (operator : string) (t : nat) (ft : value)
  (sql : string) (openBracket : bool) (q : DbQuery) :
  frame (builder_after (compile_iteration operator t ft sql openBracket q))
  = frame q.
Proof.
  unfold compile_iteration, builder_after.
  destruct (slice0 ft) as [entry|e]; [|reflexivity].
  repeat match goal with
         | |- context [if ?c then _ else _] => destruct c
         end; try reflexivity;
  match goal with
  | |- context [compile_entry ?o ?t ?ty ?s ?b ?st] =>
      pose proof (keeps_compile_entry o t ty s b st) as H;
      destruct (compile_entry o t ty s b st) as [r [l' q']]; exact H
  end.
Qed.

Lemma compile_loop_frame (operator : string) (filter : list value) :
  forall t sql openBracket q,
  frame (builder_after (compile_loop operator filter t sql openBracket q))
  = frame q.
Proof.
  induction filter as [|ft filter IH]; intros t sql openBracket q;
    [reflexivity|].
  cbn [compile_loop].
  pose proof (compile_iteration_frame operator t ft sql openBracket q) as H.
  destruct (compile_iteration operator t ft sql openBracket q)
    as [[[[sql' ob']|e] ft'] q']; [|exact H].
  specialize (IH (S t) sql' ob' q').
  destruct (compile_loop operator filter (S t) sql' ob' q')
    as [[r f''] q'']. unfold builder_after in *. simpl in *. congruence.
Qed.

Lemma _buildSqlFromFilterArray_frame (search : value) (q : DbQuery) :
  frame (builder_after (_buildSqlFromFilterArray search q)) = frame q.
Proof.
  unfold _buildSqlFromFilterArray.
  repeat match goal with
         | |- context [match ?c with Ok _ => _ | Throw _ => _ end] =>
             destruct c
         | |- context [if ?c then _ else _] => destruct c
         end; try reflexivity;
  match goal with
  | |- context [compile_loop ?o ?f ?t ?s ?b ?st] =>
      pose proof (compile_loop_frame o f t s b st) as H;
      destruct (compile_loop o f t s b st) as [[r f'] q']; exact H
  end.
Qed.

(** ** The claims on the compiler *)

Lemma at_index_defined_length (l : list value) (i : nat) :
  is_undefined (at_index l i) = false -> (i <? List.length l)%nat = true.
Proof.
  revert i; induction l as [|x l IH]; intros [|i] H; simpl in *;
    try discriminate; try reflexivity.
  now apply IH.
Qed.

(** A [null] value is pushed as the string ["NULL"] and stands in the
    text as the placeholder of its column, whatever the operator. *)
Lemma _prepareSearchValue_null (t : nat) (l : list value) (q : DbQuery) :
  at_index l 2 = VNull ->
  _prepareSearchValue 1 2 t (l, q)
  = (Ok (placeholder_of q (at_index l 0)),
     (l, set_sqlValues (_sqlValues q ++ [VStr "NULL"]) q)).
Proof.
  intros Hnull. unfold _prepareSearchValue. run.
  rewrite (at_index_defined_length l 2) by now rewrite Hnull.
  rewrite Hnull. run. rewrite andb_false_r. eqb_ground. run.
  reflexivity.
Qed.

(** C1: one turn of the compiler's loop on a predicate
    [[column, operator, null, ...]] whose operator is of the catalogue
    and is neither ISNULL nor NOT ISNULL writes the placeholder of the
    column in the value position and pushes one parameter, the string
    ["NULL"]. *)
Theorem null_value_is_pushed (operator : string) (t : nat)
  (column op : string) (rest : list value) (sql : string)
  (openBracket : bool) (q : DbQuery) (lop : string) :
  (column =? "")%string = false ->
  (column =? "(")%string = false ->
  (column =? ")")%string = false ->
  catalogued op = true ->
  includes "ISNULL" (toUpperCase (trim op)) = false ->
  hasOwnProperty SQL_OPERATORS_LOGIC operator = true ->
  _getLogicOperator (at_index rest 0) operator = Ok lop ->
  compile_iteration operator t
    (VArr (VStr column :: VStr op :: VNull :: rest)) sql openBracket q
  = (Ok ((if openBracket then sql else sql ++ (" " ++ lop ++ " "))
         ++ ("(" ++ (column ++ " " ++ toUpperCase (trim op) ++ " "
                     ++ placeholder_of q (VStr column)) ++ ")"),
         false)%string,
     VArr [VStr column; VStr (toUpperCase (trim op));
           VStr (placeholder_of q (VStr column))],
     set_sqlValues (_sqlValues q ++ [VStr "NULL"]) q).
Proof.
  intros Hc1 Hc2 Hc3 Hcat Hnull Hlogic Hconn.
  assert (Hop1 : (op =? "")%string = false)
    by (destruct op; [discriminate Hcat | reflexivity]).
  pose proof (_getLogicOperator_in_catalogue _ _ _ Hlogic Hconn) as Hlop.
  unfold catalogued in Hcat.
  assert (Hneg : negb (hasOwnProperty SQL_OPERATORS (toUpperCase (trim op)))
                 && negb (hasOwnProperty SQL_OPERATORS_ARRAY
                            (toUpperCase (trim op))) = false)
    by (rewrite <- negb_orb, Hcat; reflexivity).
  unfold compile_iteration. run. eqb_ground. rewrite Hc1. run.
  unfold compile_entry. run. rewrite Hc2, Hc3. run. eqb_ground. run.
  unfold prepare_string_clause, prepare_operator_slot. run.
  rewrite Hop1. run.
  unfold _prepareSearchOperator. run. rewrite Hop1. run.
  rewrite Hneg, Hnull. run. cbn [set_index].
  unfold prepare_value_slot. run.
  rewrite _prepareSearchValue_null by reflexivity. run. cbn [set_index].
  unfold prepare_logic_slot. run. rewrite Hconn. run. rewrite Hlop. run.
  cbn [set_index set_length]. run.
  destruct rest; destruct openBracket; reflexivity.
Qed.

(** C9: on a table none of whose columns has a placeholder of its own,
    the filter [[["("],["a","=",1],["b","!=",1],[")"],
    ["c","IN",[6,7,8,9],"OR"]]] with default operator ["AND"] compiles
    to ["((a = ?) AND (b != ?)) OR (c IN (?, ?, ?, ?))"] with the
    values [[1, 1, 6, 7, 8, 9]]. *)
Theorem compile_parenthesised_example (q : DbQuery) :
  (forall c, columnExists (_db q) (_table q) c = false) ->
  let out := compile parenthesised_filter (VStr "AND") q in
  result_of out = Ok "((a = ?) AND (b != ?)) OR (c IN (?, ?, ?, ?))"
  /\ getValues (builder_after out)
     = [VNum 1; VNum 1; VNum 6; VNum 7; VNum 8; VNum 9].
Proof.
  intros Hdb. destruct q as [table db sql vals]; simpl in Hdb.
  cbv -[columnExists getColumnPlaceholder].
  rewrite !Hdb. split; reflexivity.
Qed.

(** C3: the compiler stores the copy of each entry it works on back
    into the caller's filter array, so the caller finds the prepared
    entries in it; a second builder given the same search object binds
    the placeholder text ["?"] where the first one bound [1]. *)
Theorem second_compile_binds_placeholder_text :
  let filter := VArr [VArr [VStr "a"; VStr "="; VNum 1]] in
  let first := compile filter VUndef (fresh "t") in
  let second := _buildSqlFromFilterArray (search_after first) (fresh "t") in
  result_of first = Ok "(a = ?)"
  /\ getValues (builder_after first) = [VNum 1]
  /\ search_after first
     = search_of (VArr [VArr [VStr "a"; VStr "="; VStr "?"]]) VUndef
  /\ result_of second = Ok "(a = ?)"
  /\ getValues (builder_after second) = [VStr "?"].
Proof. repeat split. Qed.

(** ** Plain objects *)

Lemma lookup_update_same (k : string) (v : value)
  (props : list (string * value)) :
  lookup_prop k (update_prop k v props) = v.
Proof.
  induction props as [|[k' w] props IH]; simpl.
  - now rewrite String.eqb_refl.
  - destruct (String.eqb_spec k' k) as [->|N]; simpl.
    + now rewrite String.eqb_refl.
    + destruct (String.eqb_spec k' k); [contradiction | exact IH].
Qed.

Lemma lookup_update_other (k k' : string) (v : value)
  (props : list (string * value)) :
  k <> k' -> lookup_prop k' (update_prop k v props) = lookup_prop k' props.
Proof.
  intros N. induction props as [|[k0 w] props IH]; simpl.
  - destruct (String.eqb_spec k k'); [contradiction | reflexivity].
  - destruct (String.eqb_spec k0 k) as [->|N0]; simpl.
    + destruct (String.eqb_spec k k'); [contradiction | reflexivity].
    + destruct (String.eqb_spec k0 k'); [reflexivity | exact IH].
Qed.

Lemma own_update_same (k : string) (v : value)
  (props : list (string * value)) :
  existsb (fun kv => String.eqb (fst kv) k) (update_prop k v props) = true.
Proof.
  induction props as [|[k' w] props IH]; simpl.
  - now rewrite String.eqb_refl.
  - destruct (String.eqb_spec k' k) as [->|N]; simpl.
    + now rewrite String.eqb_refl.
    + destruct (String.eqb_spec k' k); [contradiction | exact IH].
Qed.

Lemma own_update_other (k k' : string) (v : value)
  (props : list (string * value)) :
  k <> k' ->
  existsb (fun kv => String.eqb (fst kv) k') (update_prop k v props)
  = existsb (fun kv => String.eqb (fst kv) k') props.
Proof.
  intros N. induction props as [|[k0 w] props IH]; simpl.
  - destruct (String.eqb_spec k k'); [contradiction | reflexivity].
  - destruct (String.eqb_spec k0 k) as [->|N0]; simpl.
    + reflexivity.
    + now rewrite IH.
Qed.

(** An object without a [hasOwnProperty] of its own answers with the
    inherited method. *)
Lemma inherited_hasOwnProperty (props : list (string * value))
  (name : string) :
  has_own_prop (VObj props) "hasOwnProperty" = false ->
  method_hasOwnProperty (VObj props) name
  = Ok (has_own_prop (VObj props) name).
Proof. intros H. unfold method_hasOwnProperty. now rewrite H. Qed.


(** Only a plain object has an array for [filter]. *)
Lemma array_filter_of_object (search filter : value) :
  get_prop search "filter" = Ok filter ->
  isArray filter = true ->
  exists props, search = VObj props.
Proof.
  destruct search; simpl; try discriminate; intros [= <-];
    try discriminate; eauto.
Qed.

(** A search object that compiles is a plain object, before and after. *)
Lemma compiled_search_is_object (search : value) (q : DbQuery)
  (sqlWhere : string) :
  result_of (_buildSqlFromFilterArray search q) = Ok sqlWhere ->
  exists props, search_after (_buildSqlFromFilterArray search q) = VObj props.
Proof.
  unfold _buildSqlFromFilterArray.
  destruct (get_prop search "filter") as [filter|e] eqn:G; [|discriminate].
  destruct (isArray filter) eqn:A; [|discriminate].
  destruct (array_filter_of_object _ _ G A) as [props ->].
  cbn [negb].
  repeat match goal with
         | |- context [match ?c with Ok _ => _ | Throw _ => _ end] =>
             destruct c
         | |- context [if ?c then _ else _] => destruct c
         end; try discriminate; intros _;
  try (eexists; reflexivity);
  match goal with
  | |- context [compile_loop ?o ?f ?t ?s ?b ?st] =>
      destruct (compile_loop o f t s b st) as [[r f'] q']
  end; eexists; reflexivity.
Qed.

Lemma _searchPrepareReturnColumns_builder (columnList : value)
  (q : DbQuery) :
  snd (_searchPrepareReturnColumns columnList q) = q.
Proof.
  unfold _searchPrepareReturnColumns.
  destruct (negb (isArray columnList)
            || (List.length (elements columnList) <? 1)%nat); reflexivity.
Qed.








(** C5: the column name of a predicate goes into the text as the
    caller wrote it; [_prepareColumnName], which would trim it and put
    it in lower case, is not reached for an entry that is an array.  An
    empty column and a column that is not a string are refused by
    other checks of the loop. *)
Theorem column_name_is_emitted_as_given :
  result_of (compile (VArr [VArr [VStr " A "; VStr "="; VNum 1]]) VUndef
               (fresh "t"))
  = Ok "( A  = ?)"
  /\ _prepareColumnName (VStr " A ") = Ok "a"
  /\ result_of (compile (VArr [VArr [VStr ""; VStr "="; VNum 1]]) VUndef
                  (fresh "t"))
     = Throw (FieldnameDoesntExist 0)
  /\ result_of (compile (VArr [VArr [VNum 5; VStr "="; VNum 1]]) VUndef
                  (fresh "t"))
     = Throw (UnsupportedFieldType 0).
Proof. repeat split. Qed.

(** C6: an ISNULL predicate is joined with AND, whatever logic operator
    the entry names and whatever the default of the search is. *)
Theorem isnull_is_joined_with_and :
  result_of (compile (VArr [ VArr [VStr "a"; VStr "="; VNum 1];
                             VArr [VStr "b"; VStr "ISNULL"; VNull;
                                   VStr "OR"] ])
               (VStr "AND") (fresh "t"))
  = Ok "(a = ?) AND (ISNULL(b))"
  /\ result_of (compile (VArr [ VArr [VStr "a"; VStr "="; VNum 1];
                                VArr [VStr "b"; VStr "not isnull"] ])
                  (VStr "OR") (fresh "t"))
     = Ok "(a = ?) AND (NOT ISNULL(b))".
Proof. split; reflexivity. Qed.

(** A direction that is a non-empty string goes into the ordering term
    in upper case, whether it is ASC, DESC or anything else. *)
Lemma order_direction_upper (s : string) :
  s <> "" -> order_direction (VStr s) = Ok (toUpperCase s).
Proof.
  intros Hs. unfold order_direction. simpl.
  destruct (String.eqb_spec s "") as [->|_]; [contradiction|]. simpl.
  destruct (String.eqb_spec (toUpperCase s) "") as [E|_].
  - apply toUpperCase_empty in E. contradiction.
  - reflexivity.
Qed.

(** C7: a direction that is neither ASC nor DESC stays in the ordering
    term, in upper case; a missing direction gives ASC. *)
Theorem order_direction_is_not_coerced :
  _buildSqlOrderBy (VArr [VArr [VStr "a"; VStr "foo"]])
  = Ok " ORDER BY a FOO"
  /\ _buildSqlOrderBy (VArr [VArr [VStr "a"]]) = Ok " ORDER BY a ASC".
Proof. split; reflexivity. Qed.

(** ** The claims on the statement builders *)

Lemma lookup_prop_absent (name : string) (props : list (string * value)) :
  existsb (fun kv => String.eqb (fst kv) name) props = false ->
  lookup_prop name props = VUndef.
Proof.
  induction props as [|[k v] props IH]; simpl; [reflexivity|].
  intros H. apply orb_false_iff in H. destruct H as [-> H]. now apply IH.
Qed.

(** C10: [count] on an argument that is not an object with a [filter]
    property does not throw; it prepares [SELECT COUNT( * ) FROM table]
    without WHERE and without values. *)
Theorem count_without_filter_counts_all (search : value) (q : DbQuery) :
  isObject search && has_prop search "filter" = false ->
  count search q
  = (Ok tt,
     set_sql ("SELECT COUNT(*) FROM " ++ _table q) (set_sqlValues [] q)).
Proof.
  intros H.
  assert (E : count (VObj [("filter", VArr [])]) q
              = (Ok tt, set_sql ("SELECT COUNT(*) FROM " ++ _table q)
                          (set_sqlValues [] q))).
  { unfold count, prepareCount. simpl. now rewrite append_empty_r. }
  destruct search as [| | | | | | | |props|]; try exact E;
    try discriminate H.
  simpl in H. unfold count. cbn [isObject negb get_prop].
  rewrite (lookup_prop_absent _ _ H). exact E.
Qed.

End Proofs.

(* ================================================================== *)
(** * The claims at sample inputs *)
(* ================================================================== *)

Lemma fresh_is_new (t : string) :
  (t =? "")%string = false ->
  new_DbQuery (VStr t) plain_db = Ok (fresh t).
Proof. intros H. unfold new_DbQuery. now rewrite H. Qed.


(** C1: the filter [[["a", "=", null]]] does not compile to
    ["(a = NULL)"] without values. *)
Lemma null_is_not_written_inline :
  ~ null_written_inline (rt := decimal_runtime) "a" "=" (fresh "t").
Proof.
  unfold null_written_inline. intros [H _]. vm_compute in H. discriminate H.
Qed.

Lemma null_value_is_pushed_witness :
  ("a" =? "")%string = false
  /\ ("a" =? "(")%string = false
  /\ ("a" =? ")")%string = false
  /\ catalogued "=" = true
  /\ includes "ISNULL" (toUpperCase (trim "=")) = false
  /\ hasOwnProperty SQL_OPERATORS_LOGIC "AND" = true
  /\ _getLogicOperator (at_index [] 0) "AND" = Ok "AND"
  /\ compile_iteration (rt := decimal_runtime) "AND" 0
       (VArr [VStr "a"; VStr "="; VNull]) "" true (fresh "t")
     = (Ok ("(a = ?)", false),
        VArr [VStr "a"; VStr "="; VStr "?"],
        set_sqlValues [VStr "NULL"] (fresh "t")).
Proof.
  do 7 (split; [vm_compute; reflexivity|]).
  pose proof (null_value_is_pushed (rt := decimal_runtime) "AND" 0 "a" "="
                [] "" true (fresh "t") "AND"
                eq_refl eq_refl eq_refl eq_refl eq_refl eq_refl eq_refl)
    as H.
  exact H.
Defined.





(** A delete build on a search object whose [hasOwnProperty] is no
    function throws when it asks for the limit, and has stored its SQL
    text already. *)
Lemma delete_failure_changes_sql_text :
  let search := VObj [ ("filter", VArr [VArr [VStr "a"; VStr "="; VNum 1]]);
                       ("hasOwnProperty", VNum 1) ] in
  let out := prepareDeleteSearch (rt := decimal_runtime) search
               (fresh "t") in
  result_of out = Throw (TypeError "search.hasOwnProperty is not a function")
  /\ getSql (builder_after out) = "DELETE FROM t WHERE (a = ?)".
Proof. split; reflexivity. Qed.

(** A select build that throws from the ORDER BY has stored its SQL
    text already. *)
Lemma order_failure_changes_sql_text :
  let search := VObj [ ("filter", VArr [VArr [VStr "a"; VStr "="; VNum 1]]);
                       ("order", VArr [VArr [VStr "a"; VNum 5]]) ] in
  let out := prepareSearch (rt := decimal_runtime) search (fresh "t") in
  result_of out
  = Throw (TypeError "orderBy[t][1].toUpperCase is not a function")
  /\ getSql (builder_after out) = "SELECT id, a, b, c FROM t WHERE (a = ?)".
Proof. split; reflexivity. Qed.


Lemma compile_parenthesised_example_witness :
  (forall c, columnExists (_db (fresh "t")) (_table (fresh "t")) c = false)
  /\ result_of (compile (rt := decimal_runtime) parenthesised_filter
                  (VStr "AND") (fresh "t"))
     = Ok "((a = ?) AND (b != ?)) OR (c IN (?, ?, ?, ?))"
  /\ getValues (builder_after
                  (compile (rt := decimal_runtime) parenthesised_filter
                     (VStr "AND") (fresh "t")))
     = [VNum 1; VNum 1; VNum 6; VNum 7; VNum 8; VNum 9].
Proof.
  split; [intro c; reflexivity|].
  pose proof (compile_parenthesised_example (rt := decimal_runtime)
                (fresh "t") (fun c => eq_refl)) as H.
  exact H.
Defined.

(** An array argument has the [filter] it inherits, so [count] keeps
    it and the compiler refuses it. *)
Lemma count_on_an_array_throws :
  count (rt := decimal_runtime)
    (VArr [VArr [VStr "a"; VStr "="; VNum 1]]) (fresh "t")
  = (Throw MissingOrWrongParameterSearch, fresh "t").
Proof. reflexivity. Qed.

Lemma count_without_filter_counts_all_witness :
  isObject VNull && has_prop VNull "filter" = false
  /\ count (rt := decimal_runtime) VNull (fresh "t")
     = (Ok tt, set_sql "SELECT COUNT(*) FROM t" (fresh "t")).
Proof.
  split; [vm_compute; reflexivity|].
  pose proof (count_without_filter_counts_all (rt := decimal_runtime)
                VNull (fresh "t") eq_refl) as H.
  exact H.
Defined.

(* ================================================================== *)
(** * The rest of the class *)
(* ================================================================== *)

Section Rest.
Context {rt : JsRuntime}.

(** ** [flipToObject] *)

(** The decimal rendering of an index is not the empty string. *)
Lemma index_string_truthy (t : nat) :
  truthy (VStr (Z_to_string (Z.of_nat t))) = true.
Proof.
  unfold truthy, Z_to_string.
  destruct (Z.of_nat t) as [|p|p] eqn:E; [reflexivity| |lia].
  cbn [Z.to_int]. unfold NilZero.string_of_int, NilZero.string_of_uint.
  destruct (Pos.to_uint p); reflexivity.
Qed.

Lemma flip_entries_own (l : list string) (key : string) :
  (key =? "__proto__") = false ->
  forall t obj,
    existsb (fun kv => String.eqb (fst kv) key)
      (flip_entries (map VStr l) t obj)
    = hasOwnProperty l key
      || existsb (fun kv => String.eqb (fst kv) key) obj.
Proof.
  intros Hk. induction l as [|s l IH]; intros t obj; [reflexivity|].
  cbn [map flip_entries toStr]. rewrite IH. unfold hasOwnProperty.
  cbn [existsb].
  destruct (String.eqb_spec s "__proto__") as [->|Ns].
  - rewrite Hk. reflexivity.
  - destruct (String.eqb_spec key s) as [->|N].
    + rewrite own_update_same. now rewrite orb_true_r.
    + rewrite own_update_other by congruence. reflexivity.
Qed.

Lemma flip_entries_truthy (l : list string) (key : string) :
  (key =? "__proto__") = false ->
  forall t obj,
    truthy (lookup_prop key (flip_entries (map VStr l) t obj))
    = hasOwnProperty l key || truthy (lookup_prop key obj).
Proof.
  intros Hk. induction l as [|s l IH]; intros t obj; [reflexivity|].
  cbn [map flip_entries toStr]. rewrite IH. unfold hasOwnProperty.
  cbn [existsb].
  destruct (String.eqb_spec s "__proto__") as [->|Ns].
  - rewrite Hk. reflexivity.
  - destruct (String.eqb_spec key s) as [->|N].
    + rewrite lookup_update_same, index_string_truthy.
      now rewrite orb_true_r.
    + rewrite lookup_update_other by congruence. reflexivity.
Qed.

Lemma flip_entries_absent (l : list string) (key : string) :
  hasOwnProperty l key = false ->
  forall t obj,
    lookup_prop key (flip_entries (map VStr l) t obj) = lookup_prop key obj.
Proof.
  induction l as [|s l IH]; intros H t obj; [reflexivity|].
  unfold hasOwnProperty in H. cbn [existsb] in H.
  apply orb_false_iff in H. destruct H as [Hs H].
  cbn [map flip_entries toStr]. rewrite (IH H).
  destruct (s =? "__proto__"); [reflexivity|].
  apply lookup_update_other. intros ->. now rewrite String.eqb_refl in Hs.
Qed.

Lemma flip_entries_index (l : list string) (i : nat) :
  i < List.length l ->
  (nth i l "" =? "__proto__") = false ->
  hasOwnProperty (skipn (S i) l) (nth i l "") = false ->
  forall t obj,
    lookup_prop (nth i l "") (flip_entries (map VStr l) t obj)
    = VStr (Z_to_string (Z.of_nat (t + i))).
Proof.
  revert i. induction l as [|s l IH]; intros i Hi Hp Hlast t obj;
    [simpl in Hi; lia|].
  destruct i as [|i].
  - cbn [nth skipn] in *. cbn [map flip_entries toStr].
    rewrite (flip_entries_absent l s Hlast), Hp, lookup_update_same.
    now rewrite Nat.add_0_r.
  - cbn [nth skipn] in *. cbn [map flip_entries toStr].
    cbn [List.length] in Hi.
    rewrite (IH i) by (try lia; assumption).
    now rewrite Nat.add_succ_r.
Qed.

(** X1: [flipToObject] turns an array of names into an object that has a
    name as own key exactly when the array holds it, with a truthy
    value (the index, as a string) under each of them, the first
    included; the value under a name is the index of its last
    occurrence. *)
Theorem flipToObject_keeps_the_names (array : list string) (key : string) :
  (key =? "__proto__") = false ->
  let obj := flipToObject (VArr (map VStr array)) in
  has_own_prop obj key = hasOwnProperty array key
  /\ truthy (own_value obj key) = hasOwnProperty array key
  /\ forall i,
       i < List.length array ->
       nth i array "" = key ->
       hasOwnProperty (skipn (S i) array) key = false ->
       own_value obj key = VStr (Z_to_string (Z.of_nat i)).
Proof.
  intros Hk. cbv zeta. unfold flipToObject. cbn [isArray negb elements].
  cbn [has_own_prop own_value]. split; [|split].
  - rewrite flip_entries_own by exact Hk. apply orb_false_r.
  - rewrite flip_entries_truthy by exact Hk. apply orb_false_r.
  - intros i Hi <- Hlast.
    now rewrite (flip_entries_index array i Hi Hk Hlast 0 []).
Qed.

(** ** [$.SqlClause] *)

(** X2: the constructor of [$.SqlClause] refuses a clause text that is
    truthy and not a string, and nothing else; the instance it makes
    gives back the text and the values it was made of (no text for a
    falsy argument, no values for an argument that is not an array),
    has values exactly when the list is not empty, and takes a new
    text only from a string. *)
Theorem SqlClause_keeps_what_it_is_given (sqlClause sqlValues : value) :
  (truthy sqlClause && negb (isString sqlClause) = true ->
   SqlClause.new sqlClause sqlValues = Throw SqlClauseAcceptsOnlyStrings)
  /\ (truthy sqlClause && negb (isString sqlClause) = false ->
      exists this,
        SqlClause.new sqlClause sqlValues = Ok this
        /\ SqlClause.get this = (if truthy sqlClause then toStr sqlClause
                                 else "")
        /\ SqlClause.get_values this = elements sqlValues
        /\ SqlClause.hasValues this
           = negb (List.length (elements sqlValues) =? 0)%nat
        /\ (forall v, isString v = false ->
              SqlClause.set this v = Throw SqlClauseAcceptsOnlyStrings)
        /\ (forall s, exists this',
              SqlClause.set this (VStr s) = Ok this'
              /\ SqlClause.get this' = s
              /\ SqlClause.get_values this' = elements sqlValues)).
Proof.
  split.
  - intros H. unfold SqlClause.new.
    destruct sqlClause as [| |[|]|n|s| | | | |]; try discriminate H;
      try reflexivity.
    + simpl in H |- *. destruct (Z.eqb n 0); [discriminate H | reflexivity].
    + simpl in H. rewrite andb_false_r in H. discriminate H.
  - intros H.
    assert (E : exists s,
               SqlClause.set (VClause "" [])
                 (if truthy sqlClause then sqlClause else VStr "")
               = Ok (VClause s [])
               /\ s = (if truthy sqlClause then toStr sqlClause else "")).
    { destruct sqlClause as [| |[|]|n|s| | | | |]; try discriminate H;
        try (eexists; split; reflexivity).
      - simpl in H |- *. destruct (Z.eqb n 0); [|discriminate H].
        eexists; split; reflexivity.
      - simpl. destruct (negb (s =? "")); eexists; split; reflexivity. }
    destruct E as [s [E Hs]]. unfold SqlClause.new. rewrite E.
    exists (VClause s (elements sqlValues)). rewrite <- Hs.
    assert (V : fst (SqlClause.values (VClause s [])
                       (if truthy sqlValues then sqlValues else VArr []))
                = VClause s (elements sqlValues)).
    { destruct sqlValues as [| |[|]|n|s'| | | | |]; try reflexivity.
      - simpl. destruct (Z.eqb n 0); reflexivity.
      - simpl. destruct (negb (s' =? "")); reflexivity. }
    rewrite V. repeat split.
    + unfold SqlClause.hasValues.
      destruct (elements sqlValues); reflexivity.
    + intros v Hv. destruct v; try reflexivity. discriminate Hv.
    + intros s'. eexists. repeat split.
Qed.

(** ** The table name *)

Lemma _buildSqlFromFilterArray_table (s : value) (q : DbQuery) :
  _table (builder_after (_buildSqlFromFilterArray s q)) = _table q.
Proof.
  pose proof (_buildSqlFromFilterArray_frame s q) as H.
  unfold frame in H. congruence.
Qed.

Lemma prepareCount_table (s : value) (q : DbQuery) :
  _table (builder_after (prepareCount s q)) = _table q.
Proof.
  pose proof (_buildSqlFromFilterArray_table s q) as H.
  unfold prepareCount.
  destruct (_buildSqlFromFilterArray s q) as [[[w|e] s'] q']; exact H.
Qed.

Lemma prepareDeleteSearch_table (s : value) (q : DbQuery) :
  _table (builder_after (prepareDeleteSearch s q)) = _table q.
Proof.
  pose proof (_buildSqlFromFilterArray_table s q) as H.
  unfold prepareDeleteSearch.
  destruct (_buildSqlFromFilterArray s q) as [[[w|e] s'] q']; [|exact H].
  destruct (method_hasOwnProperty s' "limit") as [[|]|e]; try exact H.
  destruct (get_prop s' "limit"); exact H.
Qed.

Lemma prepareSearch_table (s : value) (q : DbQuery) :
  _table (builder_after (prepareSearch s q)) = _table q.
Proof.
  unfold prepareSearch.
  match goal with
  | |- context [match ?c with Ok _ => _ | Throw _ => _ end] =>
      destruct c as [s0|e]; [|reflexivity]
  end.
  destruct (get_prop s0 "columns") as [columns|e]; [|reflexivity].
  pose proof (_searchPrepareReturnColumns_builder columns q) as Hq.
  destruct (_searchPrepareReturnColumns columns q) as [[cols|e] q0];
    simpl in Hq; subst q0; [|reflexivity].
  pose proof (_buildSqlFromFilterArray_table s0 q) as H.
  destruct (_buildSqlFromFilterArray s0 q) as [[[w|e] s'] q']; [|exact H].
  unfold builder_after in H. simpl in H.
  destruct (get_prop s' "order") as [order|e]; [|exact H].
  destruct (truthy order).
  - destruct (_buildSqlOrderBy order) as [o|e]; [|exact H].
    destruct (get_prop _ "limit") as [limit|e]; [|exact H].
    destruct (truthy limit); exact H.
  - destruct (get_prop s' "limit") as [limit|e]; [|exact H].
    destruct (truthy limit); exact H.
Qed.

Lemma after_call_table (c : Call) (q : DbQuery) :
  is_setTableName c = false -> _table (after_call c q) = _table q.
Proof.
  intros Hc; destruct c as [v|db|s|s|s|s|s|s|s]; try discriminate Hc;
    cbn [after_call].
  - reflexivity.
  - unfold getSearchColumns.
    destruct (truthy s);
      [destruct (method_hasOwnProperty s "columns") as [[|]|e];
         [destruct (get_prop s "columns") as [c|e]| |]|];
      try reflexivity; now rewrite _searchPrepareReturnColumns_builder.
  - apply prepareSearch_table.
  - apply prepareCount_table.
  - apply prepareDeleteSearch_table.
  - unfold search.
    match goal with
    | |- context [match ?c with Ok _ => _ | Throw _ => _ end] =>
        destruct c as [[|]|e]; try reflexivity
    end.
    pose proof (prepareSearch_table
                  (if isArray s then VObj [("filter", s)] else s) q) as H.
    destruct (prepareSearch _ q) as [[r s'] q']. exact H.
  - unfold count.
    match goal with
    | |- context [match ?c with Ok _ => _ | Throw _ => _ end] =>
        destruct c as [b|e]; [|reflexivity]
    end.
    pose proof (prepareCount_table
                  (if b then VObj [("filter", VArr [])] else s) q) as H.
    destruct (prepareCount _ q) as [[[r|e] s'] q']; exact H.
  - unfold deleteSearch.
    pose proof (prepareDeleteSearch_table s q) as H.
    destruct (prepareDeleteSearch s q) as [[[r|e] s'] q']; exact H.
Qed.

Lemma setTableName_table (v : value) (q : DbQuery) :
  (_table q =? "") = false ->
  (_table (snd (setTableName v q)) =? "") = false.
Proof.
  intros H. unfold setTableName.
  destruct v as [| |[|]|n|s| | | | |]; try exact H.
  - simpl. destruct (Z.eqb n 0); exact H.
  - simpl. destruct (s =? "") eqn:E; simpl; [exact H | exact E].
Qed.

(** X3: the table name of a builder is a non-empty string from the
    constructor on, whatever is called on the builder and whether the
    calls return or throw; it is the name the builder was made with as
    long as [setTableName] is not called. *)
Theorem table_name_is_never_empty (tableName : value)
  (db : DatabaseAdapter) (q : DbQuery) (cs : list Call) :
  new_DbQuery tableName db = Ok q ->
  (getTableName (after_calls cs q) =? "") = false
  /\ (existsb is_setTableName cs = false ->
      VStr (getTableName (after_calls cs q)) = tableName).
Proof.
  intros Hnew.
  assert (H0 : (_table q =? "") = false /\ VStr (_table q) = tableName).
  { unfold new_DbQuery in Hnew.
    destruct tableName as [| | | |s| | | | |]; try discriminate Hnew.
    destruct (s =? "") eqn:E; [discriminate Hnew|].
    injection Hnew as <-. split; [exact E | reflexivity]. }
  destruct H0 as [Hne Hname]. unfold getTableName, after_calls.
  clear Hnew. revert q Hne Hname.
  induction cs as [|c cs IH]; intros q Hne Hname; cbn [fold_left existsb].
  - split; [exact Hne | intros _; exact Hname].
  - destruct (is_setTableName c) eqn:Ec.
    + destruct c; try discriminate Ec. cbn [after_call].
      split; [|discriminate].
      assert (H1 := setTableName_table tableName0 q Hne).
      clear IH Hname.
      revert H1. generalize (snd (setTableName tableName0 q)).
      clear q Hne. induction cs as [|c cs IH]; intros q Hne;
        cbn [fold_left]; [exact Hne|].
      apply IH. destruct (is_setTableName c) eqn:Ec'.
      * destruct c; try discriminate Ec'. cbn [after_call].
        now apply setTableName_table.
      * now rewrite after_call_table.
    + cbn [orb]. apply IH; now rewrite after_call_table.
Qed.

(** ** The return columns *)



Lemma return_columns_first_refused (columns : list string)
  (columnList : list value) :
  forall t e,
    return_columns columns t columnList = Throw e ->
    exists i,
      i < List.length columnList
      /\ return_columns columns t (firstn i columnList)
         = Ok (firstn i columnList)
      /\ ((e = UnknownColumn (t + i)
           /\ isString (at_index columnList i) = true
           /\ existsb (String.eqb (toStr (at_index columnList i))) columns
              = false)
          \/ (e = UnacceptedColumnType (t + i)
              /\ isString (at_index columnList i) = false
              /\ isObject (at_index columnList i) = false)).
Proof.
  induction columnList as [|c l IH]; intros t e H; [discriminate H|].
  cbn [return_columns] in H.
  assert (Hrest : forall e',
            return_columns columns (S t) l = Throw e' ->
            (isString c = true /\ existsb (String.eqb (toStr c)) columns
                                  = true
             \/ isString c = false /\ isObject c = true) ->
            exists i,
              i < List.length (c :: l)
              /\ return_columns columns t (firstn i (c :: l))
                 = Ok (firstn i (c :: l))
              /\ ((e' = UnknownColumn (t + i)
                   /\ isString (at_index (c :: l) i) = true
                   /\ existsb (String.eqb (toStr (at_index (c :: l) i)))
                        columns = false)
                  \/ (e' = UnacceptedColumnType (t + i)
                      /\ isString (at_index (c :: l) i) = false
                      /\ isObject (at_index (c :: l) i) = false))).
  { intros e' E Hc. destruct (IH _ _ E) as [i [Hi [Hok Hcase]]].
    exists (S i). split; [simpl; lia|]. rewrite Nat.add_succ_r.
    split; [|exact Hcase].
    cbn [firstn return_columns]. rewrite Hok.
    destruct Hc as [[-> ->]|[-> ->]]; reflexivity. }
  destruct (isString c) eqn:Es.
  - destruct (existsb (String.eqb (toStr c)) columns) eqn:Ec; cbn [negb] in H.
    + destruct (return_columns columns (S t) l) as [rc'|e'] eqn:E;
        [discriminate H|]. injection H as <-.
      apply Hrest; [reflexivity | left; split; reflexivity].
    + injection H as <-. exists 0. split; [simpl; lia|].
      rewrite Nat.add_0_r. split; [reflexivity|]. left.
      cbn [at_index]. repeat split; assumption.
  - destruct (isObject c) eqn:Eo.
    + destruct (return_columns columns (S t) l) as [rc'|e'] eqn:E;
        [discriminate H|]. injection H as <-.
      apply Hrest; [reflexivity | right; split; reflexivity].
    + injection H as <-. exists 0. split; [simpl; lia|].
      rewrite Nat.add_0_r. split; [reflexivity|]. right.
      cbn [at_index]. repeat split; assumption.
Qed.

(** X5: when [_searchPrepareReturnColumns] throws, the index in the
    error is the index of the first entry of the column list that is
    refused: the entries before it are accepted, and the entry is a
    name that is no column of the table (unknown column) or is neither
    a string nor an object (unaccepted column type). *)
Theorem refused_column_is_the_first (columnList : list value)
  (q : DbQuery) (e : Error) :
  fst (_searchPrepareReturnColumns (VArr columnList) q) = Throw e ->
  exists i,
    i < List.length columnList
    /\ return_columns (getColumns (_db q) (_table q)) 0
         (firstn i columnList)
       = Ok (firstn i columnList)
    /\ ((e = UnknownColumn i
         /\ isString (at_index columnList i) = true
         /\ existsb (String.eqb (toStr (at_index columnList i)))
              (getColumns (_db q) (_table q)) = false)
        \/ (e = UnacceptedColumnType i
            /\ isString (at_index columnList i) = false
            /\ isObject (at_index columnList i) = false)).
Proof.
  unfold _searchPrepareReturnColumns. cbn [isArray negb elements orb].
  destruct columnList as [|c l]; [discriminate|].
  cbn [List.length Nat.ltb Nat.leb fst]. intros H.
  destruct (return_columns_first_refused
              (getColumns (_db q) (_table q)) (c :: l) 0 _ H)
    as [i [Hi [Hok Hcase]]].
  exists i. split; [exact Hi|]. split; [exact Hok | exact Hcase].
Qed.

(** ** The statements *)

Lemma join_names (sep : string) (names : list string) :
  join sep (map VStr names) = String.concat sep names.
Proof.
  unfold join. f_equal. induction names as [|n l IH]; [reflexivity|].
  simpl. now rewrite IH.
Qed.

Lemma _buildSqlColumns_names (names : list string) :
  _buildSqlColumns (map VStr names) = String.concat ", " names.
Proof.
  unfold _buildSqlColumns. rewrite map_map. cbn [instanceof_SqlClause].
  apply join_names.
Qed.

Lemma own_of_lookup (name : string) (props : list (string * value)) :
  is_undefined (lookup_prop name props) = false ->
  existsb (fun kv => String.eqb (fst kv) name) props = true.
Proof.
  induction props as [|[k v] props IH]; [discriminate|].
  simpl. destruct (k =? name); [reflexivity | exact IH].
Qed.

(** The compiler reads the [filter] and the [operator] of the search
    object and nothing else. *)
Lemma _buildSqlFromFilterArray_reads (props props' : list (string * value))
  (q : DbQuery) :
  lookup_prop "filter" props' = lookup_prop "filter" props ->
  lookup_prop "operator" props' = lookup_prop "operator" props ->
  result_of (_buildSqlFromFilterArray (VObj props') q)
  = result_of (_buildSqlFromFilterArray (VObj props) q)
  /\ builder_after (_buildSqlFromFilterArray (VObj props') q)
     = builder_after (_buildSqlFromFilterArray (VObj props) q).
Proof.
  intros Hf Ho. unfold _buildSqlFromFilterArray. cbn [get_prop].
  rewrite Hf, Ho.
  destruct (negb (isArray (lookup_prop "filter" props)));
    [split; reflexivity|].
  destruct (List.length (elements (lookup_prop "filter" props)) =? 0)%nat;
    [split; reflexivity|].
  destruct (default_operator (lookup_prop "operator" props)) as [op|e];
    [|split; reflexivity].
  destruct (negb (hasOwnProperty SQL_OPERATORS_LOGIC op));
    [split; reflexivity|].
  destruct (negb (isArray (at_index (elements (lookup_prop "filter" props))
                             0))).
  - destruct (compile_loop op [lookup_prop "filter" props] 0 "" true
                (set_sqlValues [] q)) as [[r f'] q'].
    split; reflexivity.
  - destruct (compile_loop op (elements (lookup_prop "filter" props)) 0 ""
                true (set_sqlValues [] q)) as [[r f'] q'].
    split; reflexivity.
Qed.

(** The search object after the compiler is the object with, at most,
    another [filter]. *)
Lemma compiled_search_props (props : list (string * value)) (q : DbQuery) :
  exists props',
    search_after (_buildSqlFromFilterArray (VObj props) q) = VObj props'
    /\ forall name,
         name <> "filter" ->
         lookup_prop name props' = lookup_prop name props
         /\ existsb (fun kv => String.eqb (fst kv) name) props'
            = existsb (fun kv => String.eqb (fst kv) name) props.
Proof.
  assert (Same : forall name : string,
            name <> "filter" ->
            lookup_prop name props = lookup_prop name props
            /\ existsb (fun kv => String.eqb (fst kv) name) props
               = existsb (fun kv => String.eqb (fst kv) name) props)
    by (intros; split; reflexivity).
  unfold _buildSqlFromFilterArray. cbn [get_prop].
  destruct (negb (isArray (lookup_prop "filter" props)));
    [exists props; split; [reflexivity | exact Same]|].
  destruct (List.length (elements (lookup_prop "filter" props)) =? 0)%nat;
    [exists props; split; [reflexivity | exact Same]|].
  destruct (default_operator (lookup_prop "operator" props)) as [op|e];
    [|exists props; split; [reflexivity | exact Same]].
  destruct (negb (hasOwnProperty SQL_OPERATORS_LOGIC op));
    [exists props; split; [reflexivity | exact Same]|].
  destruct (negb (isArray (at_index (elements (lookup_prop "filter" props))
                             0))).
  - destruct (compile_loop op [lookup_prop "filter" props] 0 "" true
                (set_sqlValues [] q)) as [[r f'] q'].
    exists props; split; [reflexivity | exact Same].
  - destruct (compile_loop op (elements (lookup_prop "filter" props)) 0 ""
                true (set_sqlValues [] q)) as [[r f'] q'].
    eexists. split; [reflexivity|]. intros name Hn.
    split; [apply lookup_update_other | apply own_update_other];
      congruence.
Qed.

(** A search object without a [hasOwnProperty] of its own has none
    after the compiler either. *)
Lemma compiled_search_inherits (s : value) (q : DbQuery) (w name : string) :
  result_of (_buildSqlFromFilterArray s q) = Ok w ->
  has_own_prop s "hasOwnProperty" = false ->
  method_hasOwnProperty (search_after (_buildSqlFromFilterArray s q)) name
  = Ok (has_own_prop (search_after (_buildSqlFromFilterArray s q)) name).
Proof.
  intros H Hm.
  assert (exists props, s = VObj props) as [props ->].
  { unfold _buildSqlFromFilterArray in H.
    destruct (get_prop s "filter") as [filter|e] eqn:G; [|discriminate H].
    destruct (isArray filter) eqn:A; [|discriminate H].
    exact (array_filter_of_object _ _ G A). }
  destruct (compiled_search_props props q) as [props' [Hs Hsame]].
  rewrite Hs. apply inherited_hasOwnProperty.
  destruct (Hsame "hasOwnProperty" ltac:(discriminate)) as [_ Ho].
  cbn [has_own_prop] in *. now rewrite Ho.
Qed.

Lemma empty_filter_compiles_to_nothing (props : list (string * value))
  (q : DbQuery) :
  lookup_prop "filter" props = VArr [] ->
  _buildSqlFromFilterArray (VObj props) q
  = (Ok "", VObj props, set_sqlValues [] q).
Proof.
  intros H. unfold _buildSqlFromFilterArray. cbn [get_prop]. now rewrite H.
Qed.

(** X6: a search object whose filter is the empty array gives
    statements without WHERE and without values, whatever its default
    logic operator is: the count counts every row, the delete without
    limit, for a search object that has no [hasOwnProperty] of its own,
    deletes every row, and the select without columns, order and limit
    reads every column of every row. *)
Theorem empty_filter_means_every_row (props : list (string * value))
  (q : DbQuery) :
  lookup_prop "filter" props = VArr [] ->
  prepareCount (VObj props) q
  = (Ok ("SELECT COUNT(*) FROM " ++ _table q)%string, VObj props,
     set_sql ("SELECT COUNT(*) FROM " ++ _table q) (set_sqlValues [] q))
  /\ (has_own_prop (VObj props) "hasOwnProperty" = false ->
      has_own_prop (VObj props) "limit" = false ->
      prepareDeleteSearch (VObj props) q
      = (Ok ("DELETE FROM " ++ _table q)%string, VObj props,
         set_sql ("DELETE FROM " ++ _table q) (set_sqlValues [] q)))
  /\ (truthy (lookup_prop "columns" props) = false ->
      truthy (lookup_prop "order" props) = false ->
      truthy (lookup_prop "limit" props) = false ->
      let out := prepareSearch (VObj props) q in
      let sql := ("SELECT "
                  ++ String.concat ", " (getColumns (_db q) (_table q))
                  ++ " FROM " ++ _table q)%string in
      result_of out = Ok sql
      /\ builder_after out = set_sql sql (set_sqlValues [] q)).
Proof.
  intros Hf. split; [|split].
  - unfold prepareCount. rewrite (empty_filter_compiles_to_nothing _ _ Hf).
    cbn [truthy String.eqb negb _table set_sqlValues].
    now rewrite append_empty_r.
  - intros Hm Hl. unfold prepareDeleteSearch.
    rewrite (empty_filter_compiles_to_nothing _ _ Hf).
    rewrite (inherited_hasOwnProperty _ _ Hm), Hl.
    cbn [truthy String.eqb negb _table set_sqlValues].
    now rewrite append_empty_r.
  - intros Hc Ho Hl. cbv zeta. unfold prepareSearch.
    cbn [truthy negb get_prop set_prop]. rewrite Hc. cbn [negb get_prop].
    rewrite lookup_update_same.
    unfold _searchPrepareReturnColumns. cbn [isArray negb orb].
    rewrite empty_filter_compiles_to_nothing
      by (rewrite lookup_update_other by discriminate; exact Hf).
    cbn [get_prop].
    rewrite !lookup_update_other by discriminate. rewrite Ho.
    cbn [get_prop].
    rewrite !lookup_update_other by discriminate. rewrite Hl.
    cbn [truthy String.eqb negb _table set_sqlValues set_sql _sql].
    rewrite _buildSqlColumns_names, append_empty_r.
    unfold result_of, builder_after. split; reflexivity.
Qed.

(** X7: [search] takes a filter array given by itself as the search
    object [{filter: array}], with the same statement and the same
    values; [count] does not: an array has the [filter] it inherits,
    which is no array, and the compiler refuses it. *)
Theorem search_takes_a_bare_filter (f : list value) (q : DbQuery) :
  result_of (search (VArr f) q)
  = result_of (search (VObj [("filter", VArr f)]) q)
  /\ builder_after (search (VArr f) q)
     = builder_after (search (VObj [("filter", VArr f)]) q)
  /\ count (VArr f) q
     = (Throw MissingOrWrongParameterSearch, set_sqlValues [] q).
Proof.
  unfold search. cbn [isArray isObject negb get_prop lookup_prop String.eqb
                      Ascii.eqb Bool.eqb truthy].
  destruct (prepareSearch (VObj [("filter", VArr f)]) q) as [[r s'] q'].
  repeat split.
Qed.

(** X8: [search] refuses, with its own error and before it touches the
    builder or the argument, everything that is neither an array nor an
    object with a truthy [filter]. *)
Theorem search_needs_a_search_object (s : value) (q : DbQuery) :
  isArray s = false ->
  has_filter s = false ->
  search s q = (NeedSearchObject, s, q).
Proof.
  intros Ha Hf. unfold search. rewrite Ha. unfold has_filter in Hf.
  destruct (isObject s) eqn:Eo; [|reflexivity]. cbn [negb andb] in *.
  destruct (get_prop s "filter") as [f|e] eqn:E.
  - rewrite Hf. reflexivity.
  - destruct s; try discriminate Eo; simpl in E; discriminate E.
Qed.

Lemma cleared_search_compiles_alike (s s0 : value) (q : DbQuery) :
  (if negb (truthy s) then Throw (TypeError "cannot set property columns")
   else
     match get_prop s "columns" with
     | Throw e => Throw e
     | Ok columns =>
         if negb (truthy columns) then set_prop s "columns" VNull else Ok s
     end) = Ok s0 ->
  result_of (_buildSqlFromFilterArray s0 q)
  = result_of (_buildSqlFromFilterArray s q)
  /\ builder_after (_buildSqlFromFilterArray s0 q)
     = builder_after (_buildSqlFromFilterArray s q).
Proof.
  intros H. destruct (negb (truthy s)); [discriminate H|].
  destruct (get_prop s "columns") as [c|e]; [|discriminate H].
  destruct (negb (truthy c)); [|injection H as <-; split; reflexivity].
  destruct s; try discriminate H; injection H as <-;
    try (split; reflexivity).
  apply _buildSqlFromFilterArray_reads;
    apply lookup_update_other; discriminate.
Qed.

(** [prepareSearch] asks for the return columns [getSearchColumns]
    gives. *)
Lemma cleared_search_columns (s s0 columns : value) (q : DbQuery) :
  has_own_prop s "hasOwnProperty" = false ->
  (if negb (truthy s) then Throw (TypeError "cannot set property columns")
   else
     match get_prop s "columns" with
     | Throw e => Throw e
     | Ok columns =>
         if negb (truthy columns) then set_prop s "columns" VNull else Ok s
     end) = Ok s0 ->
  get_prop s0 "columns" = Ok columns ->
  _searchPrepareReturnColumns columns q = getSearchColumns s q.
Proof.
  intros Hm H Hc. unfold getSearchColumns.
  destruct (truthy s) eqn:Et; [|discriminate H]. cbn [negb andb] in *.
  assert (Default : forall c,
            truthy c = false ->
            _searchPrepareReturnColumns c q
            = (Ok (map VStr (getColumns (_db q) (_table q))), q)).
  { intros c Hf. unfold _searchPrepareReturnColumns.
    destruct c; try discriminate Hf; reflexivity. }
  destruct s as [| |b|n|str|tm iso st|l|text vals|props|src ar];
    try discriminate Et; simpl in H; try discriminate H;
    try (injection H as <-; simpl in Hc; injection Hc as <-; reflexivity).
  (* a plain object *)
  rewrite (inherited_hasOwnProperty _ _ Hm).
  cbn [get_prop has_own_prop] in *.
  destruct (truthy (lookup_prop "columns" props)) eqn:Ec;
    cbn [negb set_prop] in H; injection H as <-; cbn [get_prop] in Hc;
    injection Hc as <-.
  - rewrite own_of_lookup; [reflexivity|].
    destruct (lookup_prop "columns" props); try discriminate Ec;
      reflexivity.
  - rewrite lookup_update_same.
    rewrite (Default VNull eq_refl).
    destruct (existsb (fun kv => String.eqb (fst kv) "columns") props);
      cbv beta iota;
      [now rewrite (Default _ Ec) | now rewrite (Default VNull eq_refl)].
Qed.

(** X9: the select, the count and the delete read the filter alike.
    Take search objects of the same content [s] without a
    [hasOwnProperty] of their own, one for each build (a build rewrites
    the filter it is given), and the same state [q] of the builder:
    when the select is built, the count and the delete are built too,
    the three statements carry the same WHERE text after the table
    name, and the builder holds the same values after each of them.
    The select reads the columns that [getSearchColumns] gives for the
    search object, in their order. *)
Theorem statements_share_the_filter (s : value) (q : DbQuery)
  (sql : string) :
  has_own_prop s "hasOwnProperty" = false ->
  result_of (prepareSearch s q) = Ok sql ->
  exists columns sqlWhere order_limit limit,
    getSearchColumns s q = (Ok columns, q)
    /\ sql = ("SELECT " ++ _buildSqlColumns columns ++ " FROM " ++ _table q
              ++ where_text sqlWhere ++ order_limit)%string
    /\ result_of (prepareCount s q)
       = Ok ("SELECT COUNT(*) FROM " ++ _table q
             ++ where_text sqlWhere)%string
    /\ result_of (prepareDeleteSearch s q)
       = Ok ("DELETE FROM " ++ _table q ++ where_text sqlWhere
             ++ limit)%string
    /\ getValues (builder_after (prepareCount s q))
       = getValues (builder_after (prepareSearch s q))
    /\ getValues (builder_after (prepareDeleteSearch s q))
       = getValues (builder_after (prepareSearch s q)).
Proof.
  intros Hm. unfold prepareSearch.
  match goal with
  | |- context [match ?c with Ok _ => _ | Throw _ => _ end] =>
      destruct c as [s0|e] eqn:Es0; [|discriminate]
  end.
  destruct (cleared_search_compiles_alike s s0 q Es0) as [Hr Hb].
  destruct (get_prop s0 "columns") as [columns|e] eqn:Ecol; [|discriminate].
  pose proof (cleared_search_columns s s0 columns q Hm Es0 Ecol) as Hcols.
  pose proof (_searchPrepareReturnColumns_builder columns q) as Hq.
  destruct (_searchPrepareReturnColumns columns q) as [[cols|e] q0];
    simpl in Hq; subst q0; [|discriminate].
  pose proof (_buildSqlFromFilterArray_table s0 q) as Ht.
  destruct (_buildSqlFromFilterArray s0 q) as [[[w|e] s'] q'];
    [|discriminate].
  unfold result_of, builder_after in Hr, Hb, Ht. cbn [fst snd] in Hr, Hb, Ht.
  assert (Hcount : result_of (prepareCount s q)
                   = Ok ("SELECT COUNT(*) FROM " ++ _table q
                         ++ where_text w)%string
                   /\ getValues (builder_after (prepareCount s q))
                      = getValues q').
  { unfold prepareCount.
    destruct (_buildSqlFromFilterArray s q) as [[r s''] q''].
    cbn [fst snd] in Hr, Hb. subst r q''.
    unfold result_of, builder_after, where_text. cbn [fst snd].
    rewrite Ht. split; reflexivity. }
  assert (Hdelete : exists limit,
            result_of (prepareDeleteSearch s q)
            = Ok ("DELETE FROM " ++ _table q ++ where_text w
                  ++ limit)%string
            /\ getValues (builder_after (prepareDeleteSearch s q))
               = getValues q').
  { unfold prepareDeleteSearch.
    pose proof (compiled_search_is_object s q w) as Hobj.
    pose proof (compiled_search_inherits s q w "limit") as Hinh.
    destruct (_buildSqlFromFilterArray s q) as [[r s''] q''].
    cbn [fst snd] in Hr, Hb. subst r q''.
    specialize (Hinh eq_refl Hm). unfold search_after in Hinh.
    cbn [fst snd] in Hinh. rewrite Hinh.
    destruct (Hobj eq_refl) as [props Hs]. unfold search_after in Hs.
    cbn [fst snd] in Hs. subst s''.
    unfold result_of, builder_after, where_text. cbn [fst snd get_prop].
    rewrite Ht. destruct (has_own_prop (VObj props) "limit").
    - eexists. split; [|reflexivity]. rewrite append_assoc. reflexivity.
    - exists "". rewrite append_empty_r. split; reflexivity. }
  destruct Hcount as [Hc1 Hc2]. destruct Hdelete as [limit [Hd1 Hd2]].
  assert (Shape : forall tail,
            (("SELECT " ++ _buildSqlColumns cols ++ " FROM " ++ _table q'
              ++ (if truthy (VStr w) then " WHERE " ++ w else ""))
             ++ tail
             = "SELECT " ++ _buildSqlColumns cols ++ " FROM " ++ _table q
               ++ where_text w ++ tail)%string).
  { intros tail. rewrite Ht. unfold where_text.
    rewrite !append_assoc. reflexivity. }
  unfold result_of, builder_after. cbn [fst snd].
  destruct (get_prop s' "order") as [order|e]; [|discriminate].
  destruct (truthy order).
  - destruct (_buildSqlOrderBy order) as [o|e]; [|discriminate].
    destruct (get_prop _ "limit") as [l|e]; [|discriminate].
    destruct (truthy l); cbn [fst snd _sql set_sql getValues _sqlValues];
      intros [= <-].
    + exists cols, w, (o ++ _buildSqlLimit l)%string, limit.
      rewrite <- Shape, <- append_assoc. repeat split; auto.
    + exists cols, w, o, limit.
      rewrite <- Shape. repeat split; auto.
  - destruct (get_prop s' "limit") as [l|e]; [|discriminate].
    destruct (truthy l); cbn [fst snd _sql set_sql getValues _sqlValues];
      intros [= <-].
    + exists cols, w, (_buildSqlLimit l), limit.
      rewrite <- Shape. repeat split; auto.
    + exists cols, w, "", limit.
      rewrite <- Shape, append_empty_r. repeat split; auto.
Qed.

(** ** LIMIT *)

Lemma append_inj_l (s a b : string) : (s ++ a = s ++ b)%string -> a = b.
Proof.
  induction s as [|c s IH]; simpl; intros H; [exact H|].
  injection H as H. now apply IH.
Qed.

(** X10: for a search object that has a [limit] of its own and no
    [hasOwnProperty] of its own, and whose limit is converted by the
    inherited methods, the delete is the count's statement with
    [DELETE] for [SELECT COUNT( * )], followed at once by what
    [_buildSqlLimit] makes of the limit: nothing for [0], [LIMIT n]
    for another integer that a number holds exactly, and
    [LIMIT offset, count] for a pair of such integers with a positive
    count. *)
Theorem limit_follows_the_statement (props : list (string * value))
  (q : DbQuery) (rest : string) :
  has_own_prop (VObj props) "hasOwnProperty" = false ->
  has_own_prop (VObj props) "limit" = true ->
  converts_as_inherited (lookup_prop "limit" props) = true ->
  result_of (prepareCount (VObj props) q)
  = Ok ("SELECT COUNT(*) FROM " ++ _table q ++ rest)%string ->
  result_of (prepareDeleteSearch (VObj props) q)
  = Ok ("DELETE FROM " ++ _table q ++ rest
        ++ _buildSqlLimit (lookup_prop "limit" props))%string
  /\ (forall n : Z,
        safe_integer n = true ->
        _buildSqlLimit (VNum n)
        = if (n =? 0)%Z then "" else ("LIMIT " ++ Z_to_string n)%string)
  /\ (forall a b : Z,
        safe_integer a = true ->
        safe_integer b = true ->
        (0 <? b)%Z = true ->
        _buildSqlLimit (VArr [VNum a; VNum b])
        = ("LIMIT " ++ Z_to_string a ++ ", " ++ Z_to_string b)%string).
Proof.
  intros Hm Hown _ Hcount. split; [|split].
  - unfold prepareCount in Hcount. unfold prepareDeleteSearch.
    pose proof (_buildSqlFromFilterArray_table (VObj props) q) as Ht.
    pose proof (compiled_search_inherits (VObj props) q) as Hinh.
    destruct (compiled_search_props props q) as [props' [Hs Hsame]].
    destruct (_buildSqlFromFilterArray (VObj props) q) as [[[w|e] s'] q'];
      [|discriminate Hcount].
    specialize (Hinh w "limit" eq_refl Hm).
    unfold search_after, builder_after, result_of in *.
    cbn [fst snd] in *. subst s'. rewrite Ht in *.
    injection Hcount as Hcount. apply append_inj_l in Hcount.
    destruct (Hsame "limit" ltac:(discriminate)) as [Hl Ho].
    rewrite Hinh. cbn [has_own_prop] in Hown |- *. rewrite Ho, Hown.
    cbn [get_prop fst]. rewrite Hl, <- Hcount, !append_assoc.
    reflexivity.
  - intros n Hn. unfold _buildSqlLimit.
    cbn [truthy isArray andb isNumeric isNaN_parseFloat isFinite negb
         parseInt].
    rewrite Hn. destruct (n =? 0)%Z; reflexivity.
  - intros a b Ha Hsb Hb. unfold _buildSqlLimit.
    cbn [truthy negb isArray elements List.length Nat.ltb Nat.leb andb
         at_index greater_than_zero parseInt].
    now rewrite Hb, Ha, Hsb.
Qed.

(** ** ORDER BY *)

Lemma upper_ascii_twice (c : ascii) :
  upper_ascii (upper_ascii c) = upper_ascii c.
Proof. destruct c as [[] [] [] [] [] [] [] []]; reflexivity. Qed.

Lemma toUpperCase_twice (s : string) :
  toUpperCase (toUpperCase s) = toUpperCase s.
Proof.
  induction s as [|c s IH]; [reflexivity|].
  unfold toUpperCase in *. simpl. now rewrite upper_ascii_twice, IH.
Qed.

Lemma toUpperCase_empty_iff (s : string) :
  (toUpperCase s =? "") = (s =? "").
Proof. destruct s; reflexivity. Qed.

(** The direction [_buildSqlOrderBy] stores is one it stores again. *)
Lemma order_direction_stored (d : value) (dir : string) :
  order_direction d = Ok dir -> order_direction (VStr dir) = Ok dir.
Proof.
  unfold order_direction. destruct (negb (truthy d)) eqn:Et.
  - intros [= <-]. reflexivity.
  - destruct d as [| | | |s| | | | |]; try discriminate.
    cbn [truthy] in Et |- *. rewrite toUpperCase_empty_iff.
    destruct (s =? "") eqn:Es; [discriminate Et|]. cbn [negb toStr].
    cbn [hasOwnProperty allowedDir existsb]. intros H.
    assert (Hd : dir = toUpperCase s)
      by (vm_compute in H; now injection H as <-). subst dir.
    rewrite !toUpperCase_empty_iff, Es, toUpperCase_twice. exact H.
Qed.

Lemma order_loop_terms (orderBy : list value) :
  fst (order_loop orderBy) = order_terms orderBy.
Proof.
  induction orderBy as [|o l IH]; [reflexivity|].
  cbn [order_loop order_terms]. rewrite <- IH.
  destruct (order_loop l) as [r stored]. cbn [fst].
  destruct (isString o).
  - destruct r; reflexivity.
  - destruct (isArray o && (0 <? List.length (elements o))%nat).
    + destruct (order_direction (at_index (elements o) 1)); [|reflexivity].
      destruct r; reflexivity.
    + destruct r; reflexivity.
Qed.

Lemma set_index_twice (l : list value) (i : nat) (v : value) :
  set_index (set_index l i v) i v = set_index l i v.
Proof.
  revert l; induction i as [|i IH]; intros [|x l]; simpl; try reflexivity;
    now rewrite IH.
Qed.

Lemma set_index_length (l : list value) (i : nat) (v : value) :
  (0 <? List.length (set_index l i v))%nat = true.
Proof. destruct i, l; reflexivity. Qed.

Lemma order_loop_again (orderBy : list value) :
  forall terms stored,
    order_loop orderBy = (Ok terms, stored) ->
    order_loop stored = (Ok terms, stored).
Proof.
  induction orderBy as [|o l IH]; intros terms stored H.
  - injection H as <- <-. reflexivity.
  - cbn [order_loop] in H. destruct (isString o) eqn:Es.
    + destruct (order_loop l) as [[ts|e] st]; [|discriminate H].
      injection H as <- <-. cbn [order_loop]. rewrite Es.
      now rewrite (IH _ _ eq_refl).
    + destruct (isArray o && (0 <? List.length (elements o))%nat) eqn:Ea.
      * destruct (order_direction (at_index (elements o) 1)) as [dir|e]
          eqn:Ed; [|discriminate H].
        cbv zeta in H.
        remember (set_index (elements o) 1 (VStr dir)) as entry eqn:He.
        destruct (order_loop l) as [[ts|e] st]; [|discriminate H].
        injection H as <- <-. cbn [order_loop isString isArray elements].
        subst entry. rewrite set_index_length. cbn [andb].
        rewrite at_index_set_index_same, (order_direction_stored _ _ Ed).
        rewrite set_index_twice. now rewrite (IH _ _ eq_refl).
      * destruct (order_loop l) as [[ts|e] st]; [|discriminate H].
        injection H as <- <-. cbn [order_loop]. rewrite Es, Ea.
        now rewrite (IH _ _ eq_refl).
Qed.

(** X11: [_buildSqlOrderBy] writes the direction it has settled on into
    the caller's entries, and these are entries it reads as it wrote
    them: a second ORDER BY from the same ordering has the same text
    and leaves the ordering as it is. *)
Theorem order_is_built_the_same_again (orderBy : value) (text : string) :
  _buildSqlOrderBy orderBy = Ok text ->
  _buildSqlOrderBy (order_after orderBy) = Ok text
  /\ order_after (order_after orderBy) = order_after orderBy.
Proof.
  unfold _buildSqlOrderBy, order_after.
  destruct (truthy orderBy) eqn:Et; cbn [negb andb];
    [|rewrite Et; intros H; split; [exact H | reflexivity]].
  destruct (isArray orderBy) eqn:Ea;
    [|rewrite Et, Ea; intros H; split; [exact H | reflexivity]].
  cbn [truthy negb isArray andb elements].
  rewrite <- order_loop_terms.
  destruct (order_loop (elements orderBy)) as [[terms|e] stored] eqn:E;
    [|discriminate].
  cbn [fst snd]. intros H. rewrite <- order_loop_terms.
  rewrite (order_loop_again _ _ _ E). cbn [fst snd].
  split; [exact H | reflexivity].
Qed.

Lemma order_terms_names (l : list value) :
  forallb (fun o => isString o
                    || negb (isArray o
                             && (0 <? List.length (elements o))%nat)) l
  = true ->
  order_terms l = Ok (map toStr (filter isString l)).
Proof.
  induction l as [|o l IH]; [reflexivity|].
  cbn [forallb]. intros H. apply andb_true_iff in H.
  destruct H as [Ho H]. cbn [order_terms filter]. rewrite (IH H).
  destruct (isString o); [reflexivity|]. cbn [orb] in Ho.
  apply negb_true_iff in Ho. rewrite Ho. reflexivity.
Qed.

(** X12: in an ordering that is an array, a string is a term as it is
    written, and an entry that is neither a string nor a non-empty
    array is passed over; the terms are joined with commas after
    [ORDER BY], and there is no ORDER BY at all when no term is
    left. *)
Theorem order_by_names (orderBy : list value) :
  forallb (fun o => isString o
                    || negb (isArray o
                             && (0 <? List.length (elements o))%nat))
    orderBy = true ->
  _buildSqlOrderBy (VArr orderBy)
  = Ok (match filter isString orderBy with
        | [] => ""
        | names =>
            (" ORDER BY " ++ String.concat ", " (map toStr names))%string
        end).
Proof.
  intros H. unfold _buildSqlOrderBy.
  cbn [truthy negb isArray elements]. rewrite (order_terms_names _ H).
  destruct (filter isString orderBy); reflexivity.
Qed.

(** ** A turn of the loop on a predicate *)

Lemma keeps_fst_lift {A} (m : M A) : keeps fst (lift m).
Proof.
  intros [l q]. unfold lift. cbn [fst snd]. destruct (m q). reflexivity.
Qed.

(** [_prepareSearchValue] leaves the entry as it is. *)
Lemma _prepareSearchValue_entry (opIndex valueIndex t : nat) :
  keeps fst (_prepareSearchValue opIndex valueIndex t).
Proof.
  unfold _prepareSearchValue.
  repeat first
    [ apply keeps_fst_lift
    | match goal with
      | |- keeps _ (bind _ _) => apply keeps_bind; [|intro]
      | |- keeps _ (if ?c then _ else _) => destruct c
      | |- keeps _ (let _ := _ in _) => cbv zeta
      | |- keeps _ (ret _) => apply keeps_ret
      | |- keeps _ (throw _) => apply keeps_throw
      | |- keeps fst entry_read => intros ?; reflexivity
      end ].
Qed.

Lemma is_column_parts (column : string) :
  is_column column = true ->
  (column =? "") = false /\ (column =? "(") = false
  /\ (column =? ")") = false.
Proof.
  unfold is_column. intros H.
  apply andb_true_iff in H. destruct H as [H H3].
  apply andb_true_iff in H. destruct H as [H1 H2].
  apply negb_true_iff in H1, H2, H3. now repeat split.
Qed.

(** A turn of the loop on a predicate comes to what
    [_prepareSearchValue] makes of its value. *)
Lemma string_clause_turn (operator : string) (t : nat)
  (column op : string) (tail : list value) (sql : string)
  (openBracket : bool) (q : DbQuery) (lop : string) :
  predicate_turn operator column op (at_index tail 1) lop ->
  compile_iteration operator t (VArr (VStr column :: VStr op :: tail))
    sql openBracket q
  = let OP := toUpperCase (trim op) in
    if is_undefined (at_index tail 0) then
      predicate_compiled sql openBracket lop column OP VUndef [] q
    else
      match _prepareSearchValue 1 2 t
              (VStr column :: VStr OP :: tail, q) with
      | (Ok text, (_, q')) =>
          (fst (predicate_compiled sql openBracket lop column OP
                  (VStr text) [] q), q')
      | (Throw e, (_, q')) =>
          (Throw e, VArr (VStr column :: VStr OP :: tail), q')
      end.
Proof.
  intros [Hcol [Hcat [Hnull [Hlogic Hconn]]]].
  destruct (is_column_parts _ Hcol) as [Hc1 [Hc2 Hc3]].
  assert (Hop1 : (op =? "")%string = false)
    by (destruct op; [discriminate Hcat | reflexivity]).
  pose proof (_getLogicOperator_in_catalogue _ _ _ Hlogic Hconn) as Hlop.
  unfold catalogued in Hcat.
  assert (Hneg : negb (hasOwnProperty SQL_OPERATORS (toUpperCase (trim op)))
                 && negb (hasOwnProperty SQL_OPERATORS_ARRAY
                            (toUpperCase (trim op))) = false)
    by (rewrite <- negb_orb, Hcat; reflexivity).
  cbv zeta. unfold compile_iteration. run. eqb_ground. rewrite Hc1. run.
  unfold compile_entry. run. rewrite Hc2, Hc3. run. eqb_ground. run.
  unfold prepare_string_clause, prepare_operator_slot. run.
  rewrite Hop1. run.
  unfold _prepareSearchOperator. run. rewrite Hop1. run.
  rewrite Hneg, Hnull. run. cbn [set_index].
  unfold prepare_value_slot. run.
  destruct (is_undefined (at_index tail 0)) eqn:Eu; run.
  - unfold prepare_logic_slot. run. cbn [set_index].
    rewrite Hconn. run. rewrite Hlop. run.
    unfold predicate_compiled, joined. rewrite <- set_sqlValues_none.
    destruct tail as [|v [|c tail]]; cbn [at_index] in Eu;
      destruct openBracket; try reflexivity;
      destruct v; try discriminate Eu; reflexivity.
  - destruct tail as [|v tail]; [discriminate Eu|].
    cbn [at_index] in Hconn.
    pose proof (_prepareSearchValue_entry 1 2 t
                  (VStr column :: VStr (toUpperCase (trim op)) :: v :: tail,
                   q)) as Hentry.
    destruct (_prepareSearchValue 1 2 t
                (VStr column :: VStr (toUpperCase (trim op)) :: v :: tail,
                 q))
      as [[text|e] [l' q']]; cbn [fst snd] in Hentry; subst l'; run;
      [|reflexivity].
    cbn [set_index]. unfold prepare_logic_slot. run.
    rewrite Hconn. run. rewrite Hlop. run.
    unfold predicate_compiled, joined.
    destruct tail as [|c tail]; destruct openBracket; reflexivity.
Qed.

(** ** The value of a predicate *)

Lemma typeOf_array (v : value) : String.eqb "Array" (typeOf v) = isArray v.
Proof. destruct v; reflexivity. Qed.

Lemma known_kind_defined (v : value) :
  known_kind v = true -> is_undefined v = false.
Proof. destruct v; try reflexivity. discriminate. Qed.

(** What [_prepareSearchValue] does with the value [v] of the entry
    [[column, OP, v, ...]], by the kind of the value. *)
Lemma _prepareSearchValue_cases (t : nat) (column : value) (OP : string)
  (v : value) (rest : list value) (q : DbQuery) :
  is_undefined v = false ->
  let l := column :: VStr OP :: v :: rest in
  let ph := placeholder_of q column in
  _prepareSearchValue 1 2 t (l, q)
  = if isArray v then
      if negb (hasOwnProperty SQL_OPERATORS_ARRAY OP) then
        (Throw (UnsupportedArrayForScalarOperator t), (l, q))
      else if String.eqb OP "BETWEEN" then
        if negb (List.length (elements v) =? 2)%nat then
          (Throw (UnsupportedArrayLengthForBetween t), (l, q))
        else
          (Ok (ph ++ " AND " ++ ph)%string,
           (l, snd (_pushValue (at_index (elements v) 1)
                      (snd (_pushValue (at_index (elements v) 0) q)))))
      else
        let '(r, q') := placeholder_list ph "(" 0 (elements v) q in
        (match r with
         | Ok tmp => Ok (tmp ++ ")")%string
         | Throw e => Throw e
         end, (l, q'))
    else if hasOwnProperty SQL_OPERATORS_ARRAY OP && isString v then
      let list := VArr (map VStr (split_commas (toStr v))) in
      (Ok ph, (l, set_sqlValues (_sqlValues q ++ [db_value list]) q))
    else if instanceof_SqlClause v then
      (Ok (SqlClause.get v),
       (l, set_sqlValues (_sqlValues q ++ SqlClause.get_values v) q))
    else if known_kind v then
      (Ok ph, (l, set_sqlValues (_sqlValues q ++ [db_value v]) q))
    else (Throw (UnsupportedValue t), (l, q)).
Proof.
  intros Hv. cbv zeta. unfold _prepareSearchValue. run.
  cbn [List.length Nat.ltb Nat.leb negb orb]. rewrite Hv. run.
  fold (_getColumnPlaceholder (_table q) column q).
  rewrite _getColumnPlaceholder_eq. run. rewrite typeOf_array.
  destruct (isArray v) eqn:Ea.
  - assert (Hs : isString v = false) by (destruct v; try discriminate Ea;
                                          reflexivity).
    rewrite Hs, andb_false_r. run.
    destruct (hasOwnProperty SQL_OPERATORS_ARRAY OP); run; [|reflexivity].
    destruct (String.eqb OP "BETWEEN"); run.
    + destruct (List.length (elements v) =? 2)%nat; run; [|reflexivity].
      destruct (_pushValue_known (at_index (elements v) 0) q)
        as [p0 [E0 _]]. rewrite E0. run.
      destruct (_pushValue_known (at_index (elements v) 1)
                  (set_sqlValues (_sqlValues q ++ p0) q)) as [p1 [E1 _]].
      rewrite E1. run. reflexivity.
    + destruct (placeholder_list (placeholder_of q column) "(" 0
                  (elements v) q) as [[tmp|e] q']; reflexivity.
  - destruct (hasOwnProperty SQL_OPERATORS_ARRAY OP && isString v) eqn:Es.
    + run.
      destruct (_pushValue_known
                  (VArr (map VStr (split_commas (toStr v)))) q)
        as [p [E Hp]].
      rewrite E.
      assert (K : forall x, known_kind (VArr x) = true).
      { intros x. unfold known_kind. cbn [typeOf].
        now rewrite !orb_true_r. }
      rewrite K in *. run. subst p. reflexivity.
    + run. destruct (instanceof_SqlClause v) eqn:Ec.
      * destruct v as [| | | | | | |text vals| |]; try discriminate Ec.
        run. destruct vals as [|x vals]; run; eqb_ground; run.
        -- now rewrite <- set_sqlValues_none.
        -- reflexivity.
      * run. destruct (_pushValue_known v q) as [p [E Hp]]. rewrite E.
        destruct (known_kind v); run; subst p.
        -- reflexivity.
        -- now rewrite <- set_sqlValues_none.
Qed.

Lemma turn_with_value (operator : string) (t : nat)
  (column op : string) (v : value) (rest : list value) (sql : string)
  (openBracket : bool) (q : DbQuery) (lop : string) :
  predicate_turn operator column op (at_index rest 0) lop ->
  is_undefined v = false ->
  compile_iteration operator t (VArr (VStr column :: VStr op :: v :: rest))
    sql openBracket q
  = match _prepareSearchValue 1 2 t
            (VStr column :: VStr (toUpperCase (trim op)) :: v :: rest, q)
    with
    | (Ok text, (_, q')) =>
        (fst (predicate_compiled sql openBracket lop column
                (toUpperCase (trim op)) (VStr text) [] q), q')
    | (Throw e, (_, q')) =>
        (Throw e,
         VArr (VStr column :: VStr (toUpperCase (trim op)) :: v :: rest),
         q')
    end.
Proof.
  intros Hturn Hv.
  rewrite (string_clause_turn operator t column op (v :: rest) sql
             openBracket q lop Hturn).
  cbv zeta. cbn [at_index]. now rewrite Hv.
Qed.

(** X13: a predicate whose value is of a kind [_pushValue] knows, and is
    no array, no raw clause and no string under an array operator,
    compiles to [(column OP placeholder)] after the logic operator
    that joins it, with the operator trimmed and in upper case, and
    binds one value, the database form of the value. *)
Theorem scalar_value_is_bound (operator : string) (t : nat)
  (column op : string) (v : value) (rest : list value) (sql : string)
  (openBracket : bool) (q : DbQuery) (lop : string) :
  predicate_turn operator column op (at_index rest 0) lop ->
  scalar_value v = true ->
  hasOwnProperty SQL_OPERATORS_ARRAY (toUpperCase (trim op)) && isString v
  = false ->
  compile_iteration operator t (VArr (VStr column :: VStr op :: v :: rest))
    sql openBracket q
  = predicate_compiled sql openBracket lop column (toUpperCase (trim op))
      (VStr (placeholder_of q (VStr column))) [db_value v] q.
Proof.
  intros Hturn Hs Harr. unfold scalar_value in Hs.
  apply andb_true_iff in Hs. destruct Hs as [Hs Hc].
  apply andb_true_iff in Hs. destruct Hs as [Hk Ha].
  apply negb_true_iff in Hc, Ha.
  rewrite (turn_with_value _ _ _ _ _ _ _ _ _ _ Hturn
             (known_kind_defined _ Hk)).
  rewrite (_prepareSearchValue_cases _ _ _ _ _ _ (known_kind_defined _ Hk)).
  cbv zeta. rewrite Ha, Harr, Hc, Hk. reflexivity.
Qed.







(** X17: a string value under an array operator is split at its commas,
    but the list is then bound as one value under one placeholder and
    not as a list of placeholders: as the text of its pieces in single
    quotes, unless the runtime takes the list for a number. *)
Theorem string_list_is_bound_as_one_value (operator : string) (t : nat)
  (column op s : string) (rest : list value) (sql : string)
  (openBracket : bool) (q : DbQuery) (lop : string) :
  predicate_turn operator column op (at_index rest 0) lop ->
  hasOwnProperty SQL_OPERATORS_ARRAY (toUpperCase (trim op)) = true ->
  let pieces := VArr (map VStr (split_commas s)) in
  compile_iteration operator t
    (VArr (VStr column :: VStr op :: VStr s :: rest)) sql openBracket q
  = predicate_compiled sql openBracket lop column (toUpperCase (trim op))
      (VStr (placeholder_of q (VStr column))) [db_value pieces] q
  /\ (isNumeric pieces = false ->
      db_value pieces
      = VStr ("'" ++ String.concat "', '" (split_commas s) ++ "'")).
Proof.
  intros Hturn Hop. cbv zeta. split.
  - rewrite (turn_with_value operator t column op (VStr s) rest sql
               openBracket q lop Hturn eq_refl).
    rewrite (_prepareSearchValue_cases t (VStr column) _ (VStr s) rest q
               eq_refl).
    cbv zeta. cbn [isArray isString toStr]. rewrite Hop. reflexivity.
  - intros Hn. unfold db_value. cbn [isString typeOf orb elements].
    rewrite Hn. eqb_ground. cbv iota.
    unfold join. rewrite map_map. cbn [join_elem toStr].
    now rewrite map_id.
Qed.

(** X18: the statement of a builder goes into the filter of another as a
    raw clause: with [getSqlClause()] of the one as its value, a
    predicate of the other compiles to the column, the operator and
    the SQL text of the one, and binds the values of the one, in their
    order, after its own. *)
Theorem statement_embeds_as_a_value (operator : string) (t : nat)
  (column op : string) (inner : DbQuery) (clause : value)
  (rest : list value) (sql : string) (openBracket : bool) (q : DbQuery)
  (lop : string) :
  predicate_turn operator column op (at_index rest 0) lop ->
  getSqlClause inner = Ok clause ->
  compile_iteration operator t
    (VArr (VStr column :: VStr op :: clause :: rest)) sql openBracket q
  = predicate_compiled sql openBracket lop column (toUpperCase (trim op))
      (VStr (getSql inner)) (getValues inner) q.
Proof.
  intros Hturn Hc.
  assert (Hclause : clause = VClause (getSql inner) (getValues inner)).
  { unfold getSqlClause, SqlClause.new in Hc.
    cbn [truthy isArray] in Hc.
    destruct (negb (getSql inner =? "")) eqn:E; cbn [SqlClause.set] in Hc.
    - now injection Hc as <-.
    - apply negb_false_iff, String.eqb_eq in E. rewrite E in *.
      now injection Hc as <-. }
  subst clause.
  rewrite (turn_with_value operator t column op
             (VClause (getSql inner) (getValues inner)) rest sql
             openBracket q lop Hturn eq_refl).
  rewrite (_prepareSearchValue_cases t (VStr column) _
             (VClause (getSql inner) (getValues inner)) rest q eq_refl).
  cbv zeta. cbn [isArray isString instanceof_SqlClause].
  rewrite andb_false_r. reflexivity.
Qed.

(** X19: a predicate without a value is not refused: [[column, op]]
    compiles to [(column OP )], the place of the value left empty, and
    binds nothing. *)
Theorem missing_value_is_left_empty (operator : string) (t : nat)
  (column op : string) (tail : list value) (sql : string)
  (openBracket : bool) (q : DbQuery) (lop : string) :
  predicate_turn operator column op (at_index tail 1) lop ->
  is_undefined (at_index tail 0) = true ->
  compile_iteration operator t (VArr (VStr column :: VStr op :: tail))
    sql openBracket q
  = (Ok ((joined sql openBracket lop
          ++ ("(" ++ column ++ " " ++ toUpperCase (trim op) ++ " )"))
         %string, false),
     VArr [VStr column; VStr (toUpperCase (trim op)); VUndef], q).
Proof.
  intros Hturn Hu.
  rewrite (string_clause_turn operator t column op tail sql openBracket q
             lop Hturn).
  cbv zeta. rewrite Hu. unfold predicate_compiled. cbn [join_elem].
  rewrite <- set_sqlValues_none, !append_assoc. reflexivity.
Qed.

(** ** Raw clauses and brackets as entries *)



(** X21: a closing bracket is written as it is and ends the bracket; an
    opening bracket is written after the logic operator that joins it,
    which is left out at the start and after another opening bracket,
    and it makes the next entry go without its logic operator.  A
    bracket binds nothing, and a bracket given as a string by itself
    compiles as the entry [[bracket]]. *)
Theorem brackets_group_the_entries (operator : string) (t : nat)
  (rest : list value) (sql : string) (openBracket : bool) (q : DbQuery)
  (lop : string) :
  _getLogicOperator (at_index rest 0) operator = Ok lop ->
  compile_iteration operator t (VArr (VStr "(" :: rest)) sql openBracket q
  = (Ok (((if openBracket then sql else sql ++ (" " ++ lop)) ++ "(")%string,
         true),
     VArr (VStr "(" :: rest), q)
  /\ compile_iteration operator t (VArr (VStr ")" :: rest)) sql openBracket q
     = (Ok ((sql ++ ")")%string, false), VArr (VStr ")" :: rest), q)
  /\ (rest = [] ->
      compile_iteration operator t (VStr "(") sql openBracket q
      = (Ok (((if openBracket then sql else sql ++ (" " ++ lop)) ++ "(")
             %string, true),
         VStr "(", q)
      /\ compile_iteration operator t (VStr ")") sql openBracket q
         = (Ok ((sql ++ ")")%string, false), VStr ")", q)).
Proof.
  intros Hconn. split; [|split].
  - unfold compile_iteration. run. eqb_ground. run.
    unfold compile_entry. run. eqb_ground. run.
    destruct openBracket; run; [reflexivity|].
    rewrite Hconn. run. reflexivity.
  - unfold compile_iteration. run. eqb_ground. run.
    unfold compile_entry. run. eqb_ground. run.
    destruct openBracket; reflexivity.
  - intros ->. cbn [at_index] in Hconn. split.
    + unfold compile_iteration. run. eqb_ground. run.
      unfold compile_entry. run. eqb_ground. run.
      destruct openBracket; run; [reflexivity|].
      rewrite Hconn. run. reflexivity.
    + unfold compile_iteration. run. eqb_ground. run.
      unfold compile_entry. run. eqb_ground. run.
      destruct openBracket; reflexivity.
Qed.

(** ** The filter as a whole *)

(** X22: a filter that is one entry by itself (its first element is no
    array) compiles as the filter made of that one entry, with the
    same text and the same values; and the compiler, which works on a
    copy of the entry, leaves the caller's search object as it was. *)
Theorem single_entry_is_a_filter (entry : list value) (operator : value)
  (q : DbQuery) :
  isArray (at_index entry 0) = false ->
  (0 <? List.length entry)%nat = true ->
  result_of (compile (VArr entry) operator q)
  = result_of (compile (VArr [VArr entry]) operator q)
  /\ builder_after (compile (VArr entry) operator q)
     = builder_after (compile (VArr [VArr entry]) operator q)
  /\ search_after (compile (VArr entry) operator q)
     = search_of (VArr entry) operator.
Proof.
  intros Ha Hlen. rewrite !compile_unfold. cbv zeta.
  cbn [isArray negb elements List.length Nat.eqb at_index].
  assert (Hl : (List.length entry =? 0)%nat = false)
    by (destruct entry; [discriminate Hlen | reflexivity]).
  rewrite Hl, Ha.
  destruct (default_operator operator) as [op|e]; [|repeat split].
  destruct (negb (hasOwnProperty SQL_OPERATORS_LOGIC op)); [repeat split|].
  cbn [negb].
  destruct (compile_loop op [VArr entry] 0 "" true (set_sqlValues [] q))
    as [[r f'] q'].
  repeat split.
Qed.

Lemma toUpperCase_length (s : string) :
  String.length (toUpperCase s) = String.length s.
Proof.
  induction s as [|c s IH]; [reflexivity|].
  unfold toUpperCase in *. simpl. now rewrite IH.
Qed.

Lemma same_default_compiles_alike (filter op1 op2 : value) (q : DbQuery) :
  default_operator op1 = default_operator op2 ->
  result_of (compile filter op1 q) = result_of (compile filter op2 q)
  /\ builder_after (compile filter op1 q)
     = builder_after (compile filter op2 q).
Proof.
  intros H. rewrite !compile_unfold. cbv zeta. rewrite H.
  destruct (negb (isArray filter)); [split; reflexivity|].
  destruct (List.length (elements filter) =? 0)%nat; [split; reflexivity|].
  destruct (default_operator op2) as [op|e]; [|split; reflexivity].
  destruct (negb (hasOwnProperty SQL_OPERATORS_LOGIC op));
    [split; reflexivity|].
  destruct (negb (isArray (at_index (elements filter) 0))).
  - destruct (compile_loop op [filter] 0 "" true (set_sqlValues [] q))
      as [[r f'] q']. split; reflexivity.
  - destruct (compile_loop op (elements filter) 0 "" true
                (set_sqlValues [] q)) as [[r f'] q']. split; reflexivity.
Qed.

(** X23: the default logic operator of a search is read without regard
    to case, and a search without one (no operator, an empty one, or
    any falsy one) is compiled with [AND]: the text and the values are
    the same. *)
Theorem default_operator_is_AND (filter operator : value) (q : DbQuery) :
  (forall s, operator = VStr s ->
     result_of (compile filter operator q)
     = result_of (compile filter (VStr (toUpperCase s)) q)
     /\ builder_after (compile filter operator q)
        = builder_after (compile filter (VStr (toUpperCase s)) q))
  /\ (truthy operator = false ->
      result_of (compile filter operator q)
      = result_of (compile filter (VStr "AND") q)
      /\ builder_after (compile filter operator q)
         = builder_after (compile filter (VStr "AND") q)).
Proof.
  split.
  - intros s ->. apply same_default_compiles_alike.
    unfold default_operator. cbn [truthy get_prop String.eqb].
    rewrite toUpperCase_empty_iff, toUpperCase_length, toUpperCase_twice.
    reflexivity.
  - intros H. apply same_default_compiles_alike.
    unfold default_operator. rewrite H. reflexivity.
Qed.

(** ** The values bound *)


(** ** The errors of the compiler *)

Lemma placeholder_list_returns (ph : string) (vs : list value) :
  forall tmp tt q, exists tmp' q',
    placeholder_list ph tmp tt vs q = (Ok tmp', q').
Proof.
  induction vs as [|v vs IH]; intros tmp tt q.
  - eexists _, _. reflexivity.
  - cbn [placeholder_list]. run.
    destruct (_pushValue_known v q) as [p [E _]]. rewrite E. run.
    apply IH.
Qed.

Lemma _prepareSearchValue_raises (t : nat) (l : list value) (q : DbQuery)
  (e : Error) :
  is_undefined (at_index l 2) = false ->
  fst (_prepareSearchValue 1 2 t (l, q)) = Throw e ->
  raised_by_turn t e = true.
Proof.
  intros Hv. unfold _prepareSearchValue. run.
  rewrite (at_index_defined_length l 2 Hv), Hv. run.
  fold (_getColumnPlaceholder (_table q) (at_index l 0) q).
  rewrite _getColumnPlaceholder_eq. run.
  set (ph := placeholder_of q (at_index l 0)). clearbody ph.
  set (value := if hasOwnProperty SQL_OPERATORS_ARRAY (toStr (at_index l 1))
                   && isString (at_index l 2)
                then VArr (map VStr (split_commas (toStr (at_index l 2))))
                else at_index l 2). clearbody value.
  destruct (String.eqb "Array" (typeOf (at_index l 2))).
  - destruct (negb (hasOwnProperty SQL_OPERATORS_ARRAY
                      (toStr (at_index l 1)))); run.
    { intros [= <-]. cbn [raised_by_turn]. apply Nat.eqb_refl. }
    destruct (is_str (at_index l 1) "BETWEEN"); run.
    + destruct (negb (List.length (elements value) =? 2)%nat); run.
      { intros [= <-]. cbn [raised_by_turn]. apply Nat.eqb_refl. }
      destruct (_pushValue_known (at_index (elements value) 0) q)
        as [p0 [E0 _]]. rewrite E0. run.
      destruct (_pushValue_known (at_index (elements value) 1)
                  (set_sqlValues (_sqlValues q ++ p0) q)) as [p1 [E1 _]].
      rewrite E1. run. discriminate.
    + destruct (placeholder_list_returns ph (elements value) "(" 0 q)
        as [tmp [q' E]]. rewrite E. run. discriminate.
  - destruct (instanceof_SqlClause value); run.
    + destruct (SqlClause.hasValues value); run; discriminate.
    + destruct (_pushValue_known value q) as [p [E _]]. rewrite E. run.
      destruct (known_kind value); run; [discriminate|].
      intros [= <-]. cbn [raised_by_turn]. apply Nat.eqb_refl.
Qed.

Lemma prepare_operator_slot_raises (t : nat) (l : list value) (q : DbQuery)
  (e : Error) :
  fst (prepare_operator_slot t (l, q)) = Throw e ->
  raised_by_turn t e = true.
Proof.
  unfold prepare_operator_slot. run.
  destruct (truthy (at_index l 1)) eqn:Et; run; [|discriminate].
  unfold _prepareSearchOperator. run. rewrite Et.
  assert (Hu : is_undefined (at_index l 1) = false)
    by (destruct (at_index l 1); try discriminate Et; reflexivity).
  rewrite Hu. run.
  destruct (isString (at_index l 1)); run.
  2:{ intros [= <-]. cbn [raised_by_turn]. apply Nat.eqb_refl. }
  set (OP := toUpperCase (trim (toStr (at_index l 1)))). clearbody OP.
  destruct (negb (hasOwnProperty SQL_OPERATORS OP)
            && negb (hasOwnProperty SQL_OPERATORS_ARRAY OP)); run.
  { intros [= <-]. cbn [raised_by_turn]. apply Nat.eqb_refl. }
  destruct (includes "ISNULL" OP); run; [|discriminate].
  rewrite SqlClause_new_string. run.
  rewrite at_index_set_index_same. cbn [_getLogicOperator truthy]. run.
  discriminate.
Qed.

Lemma prepare_value_slot_raises (t : nat) (l : list value) (q : DbQuery)
  (e : Error) :
  fst (prepare_value_slot t (l, q)) = Throw e ->
  raised_by_turn t e = true.
Proof.
  unfold prepare_value_slot. run.
  destruct (is_undefined (at_index l 2)) eqn:Eu; run; [discriminate|].
  pose proof (_prepareSearchValue_raises t l q) as H.
  destruct (_prepareSearchValue 1 2 t (l, q)) as [[text|e'] s']; run;
    [discriminate|].
  intros [= <-]. now apply H.
Qed.

Lemma prepare_logic_slot_raises (operator : string) (t : nat)
  (l : list value) (q : DbQuery) (e : Error) :
  fst (prepare_logic_slot operator t (l, q)) = Throw e ->
  raised_by_turn t e = true.
Proof.
  unfold prepare_logic_slot. run.
  unfold _getLogicOperator.
  destruct (truthy (at_index l 3)).
  - destruct (at_index l 3); run;
      try (intros [= <-]; reflexivity).
    destruct (hasOwnProperty SQL_OPERATORS_LOGIC (toUpperCase s)); run;
      match goal with
      | |- context [if negb ?c then _ else _] => destruct c
      end; run; try discriminate; intros [= <-]; reflexivity.
  - run.
    match goal with
    | |- context [if negb ?c then _ else _] => destruct c
    end; run; try discriminate; intros [= <-]; reflexivity.
Qed.

Lemma compile_entry_raises (operator : string) (t : nat)
  (entryType sql : string) (openBracket : bool) (l : list value)
  (q : DbQuery) (e : Error) :
  (is_str (at_index l 0) "(" || is_str (at_index l 0) ")" = false ->
   String.eqb "String" entryType = false) ->
  fst (compile_entry operator t entryType sql openBracket (l, q)) = Throw e ->
  raised_by_turn t e = true.
Proof.
  intros Hty. unfold compile_entry. run.
  destruct (is_str (at_index l 0) "(" || is_str (at_index l 0) ")") eqn:B.
  - destruct (is_str (at_index l 0) "(" && negb openBracket); run.
    + unfold _getLogicOperator.
      destruct (truthy (at_index l 1)); run; [|discriminate].
      destruct (at_index l 1); run; try (intros [= <-]; reflexivity).
      destruct (hasOwnProperty SQL_OPERATORS_LOGIC (toUpperCase s)); run;
        discriminate.
    + destruct (is_str (at_index l 0) ")"); run; discriminate.
  - rewrite (Hty eq_refl). run.
    destruct (isString (at_index l 0)) eqn:S0; run.
    + unfold prepare_string_clause. run.
      pose proof (prepare_operator_slot_raises t l q) as H1.
      destruct (prepare_operator_slot t (l, q)) as [[[]|e1] [l1 q1]]; run.
      2:{ intros [= <-]. now apply H1. }
      pose proof (prepare_value_slot_raises t l1 q1) as H2.
      destruct (prepare_value_slot t (l1, q1)) as [[[]|e2] [l2 q2]]; run.
      2:{ intros [= <-]. now apply H2. }
      pose proof (prepare_logic_slot_raises operator t l2 q2) as H3.
      destruct (prepare_logic_slot operator t (l2, q2))
        as [[[]|e3] [l3 q3]]; run.
      2:{ intros [= <-]. now apply H3. }
      destruct (isString (at_index l3 0)); run; [discriminate|].
      destruct (instanceof_SqlClause (at_index l3 0)); run.
      * destruct (SqlClause.hasValues (at_index l3 0)).
        -- run. cbn [fst]. intros HH. discriminate HH.
        -- run. cbn [fst]. intros HH. discriminate HH.
      * intros [= <-]. cbn [raised_by_turn]. apply Nat.eqb_refl.
    + rewrite ?S0. run.
      destruct (instanceof_SqlClause (at_index l 0)); run.
      * destruct (SqlClause.hasValues (at_index l 0)); run; cbn [fst];
          intros HH; discriminate HH.
      * intros [= <-]. cbn [raised_by_turn]. apply Nat.eqb_refl.
Qed.

Lemma compile_iteration_raises (operator : string) (t : nat) (ft : value)
  (sql : string) (openBracket : bool) (q : DbQuery) (e : Error) :
  result_of (compile_iteration operator t ft sql openBracket q) = Throw e ->
  raised_by_turn t e = true.
Proof.
  unfold compile_iteration, result_of.
  destruct ft as [| | | |s| |l| | |]; run;
    try (intros [= <-]; reflexivity).
  - eqb_ground. run.
    destruct (String.eqb_spec s "") as [->|_]; run.
    { intros [= <-]. cbn [raised_by_turn]. apply Nat.eqb_refl. }
    rewrite orb_false_r.
    destruct (String.eqb s "(" || String.eqb s ")") eqn:B; run.
    2:{ intros [= <-]. cbn [raised_by_turn]. apply Nat.eqb_refl. }
    pose proof (compile_entry_raises operator t "String" sql openBracket
                  [VStr s] q) as H.
    destruct (compile_entry operator t "String" sql openBracket
                ([VStr s], q)) as [[r|e'] [l' q']]; cbn [fst];
      [discriminate|].
    intros [= <-]. apply H; [|reflexivity].
    cbn [at_index is_str]. rewrite B. discriminate.
  - eqb_ground. run.
    destruct (truthy (at_index l 0)); run.
    2:{ intros [= <-]. cbn [raised_by_turn]. apply Nat.eqb_refl. }
    pose proof (compile_entry_raises operator t "Array" sql openBracket
                  l q) as H.
    destruct (compile_entry operator t "Array" sql openBracket (l, q))
      as [[r|e'] [l' q']]; cbn [fst]; [discriminate|].
    intros [= <-]. apply H; reflexivity.
Qed.

Lemma compile_loop_first_failure (operator : string) (f : list value) :
  forall t sql openBracket q e f' q',
    compile_loop operator f t sql openBracket q = (Throw e, f', q') ->
    exists k,
      k < List.length f
      /\ raised_by_turn (t + k) e = true
      /\ exists sql1 f1 q1,
           compile_loop operator (firstn k f) t sql openBracket q
           = (Ok sql1, f1, q1).
Proof.
  induction f as [|ft f IH]; intros t sql ob q e f' q' H;
    [discriminate H|].
  cbn [compile_loop] in H.
  pose proof (compile_iteration_raises operator t ft sql ob q) as Hturn.
  destruct (compile_iteration operator t ft sql ob q)
    as [[[[sql' ob']|e1] ft'] q1] eqn:E.
  - destruct (compile_loop operator f (S t) sql' ob' q1)
      as [[r f''] q''] eqn:E'.
    injection H as -> <- <-.
    destruct (IH _ _ _ _ _ _ _ E') as [k [Hk [Hr [sql1 [f1 [q2 Hok]]]]]].
    exists (S k). split; [simpl; lia|]. rewrite Nat.add_succ_r.
    split; [exact Hr|]. cbn [firstn compile_loop]. rewrite E, Hok.
    eexists _, _, _. reflexivity.
  - injection H as <- <- <-. exists 0. split; [simpl; lia|].
    rewrite Nat.add_0_r. split; [now apply Hturn|].
    eexists _, _, _. reflexivity.
Qed.

(** X25: when the compiler throws on a filter of entries, either the
    default logic operator was refused by the runtime, or one entry
    was: the entries before it compile, and the error is a runtime
    error or one of the compiler's errors on an entry, with the index
    of that entry.  The compiler never raises the errors for a missing
    operator, a missing value or an invalid column name. *)
Theorem error_names_the_failing_entry (filter : list value)
  (operator : value) (q : DbQuery) (e : Error) :
  isArray (at_index filter 0) = true ->
  result_of (compile (VArr filter) operator q) = Throw e ->
  (exists what, e = TypeError what)
  \/ exists t,
       t < List.length filter
       /\ raised_by_turn t e = true
       /\ exists sql,
            result_of (compile (VArr (firstn t filter)) operator q) = Ok sql.
Proof.
  intros Ha. rewrite !compile_unfold. cbv zeta.
  cbn [isArray negb elements]. rewrite Ha. cbn [negb].
  destruct filter as [|e0 f]; [discriminate|].
  cbn [at_index] in Ha. cbn [List.length Nat.eqb].
  destruct (default_operator operator) as [op|e'] eqn:Ed.
  2:{ intros [= <-]. left. unfold default_operator in Ed.
      destruct (truthy operator); [|discriminate Ed].
      destruct (get_prop operator "length") as [len|e''] eqn:El.
      - destruct (truthy len); [|discriminate Ed].
        destruct operator; try discriminate Ed;
          injection Ed as <-; eexists; reflexivity.
      - injection Ed as <-.
        destruct operator; try discriminate El; simpl in El;
          try (destruct (_ =? "length"); discriminate El);
          injection El as <-; eexists; reflexivity. }
  destruct (negb (hasOwnProperty SQL_OPERATORS_LOGIC op)) eqn:Eop.
  { intros [= <-]. left. eexists. reflexivity. }
  destruct (compile_loop op (e0 :: f) 0 "" true (set_sqlValues [] q))
    as [[r f'] q'] eqn:E.
  unfold result_of. cbn [fst]. intros ->. right.
  destruct (compile_loop_first_failure _ _ _ _ _ _ _ _ _ E)
    as [k [Hk [Hr [sql1 [f1 [q1 Hok]]]]]].
  exists k. split; [exact Hk|]. split; [exact Hr|].
  rewrite compile_unfold. cbv zeta. cbn [isArray negb elements].
  destruct k as [|k]; [eexists; reflexivity|].
  cbn [firstn List.length Nat.eqb at_index]. rewrite Ed, Eop, Ha.
  cbn [negb]. cbn [firstn] in Hok. rewrite Hok. eexists. reflexivity.
Qed.

(** ** Null tests *)

(** A turn of the loop on a null test. *)
Lemma null_test_turn (operator : string) (t : nat)
  (column op : string) (tail : list value) (sql : string)
  (openBracket : bool) (q : DbQuery) :
  is_column column = true ->
  catalogued op = true ->
  includes "ISNULL" (toUpperCase (trim op)) = true ->
  let turn :=
    compile_iteration operator t (VArr (VStr column :: VStr op :: tail))
      sql openBracket q in
  result_of turn
  = Ok ((joined sql openBracket "AND"
         ++ ("(" ++ (toUpperCase (trim op) ++ "(" ++ column ++ ")") ++ ")"))
        %string, false)
  /\ builder_after turn = q.
Proof.
  intros Hcol Hcat Hnull.
  destruct (is_column_parts _ Hcol) as [Hc1 [Hc2 Hc3]].
  assert (Hop1 : (op =? "")%string = false)
    by (destruct op; [discriminate Hcat | reflexivity]).
  unfold catalogued in Hcat.
  assert (Hneg : negb (hasOwnProperty SQL_OPERATORS (toUpperCase (trim op)))
                 && negb (hasOwnProperty SQL_OPERATORS_ARRAY
                            (toUpperCase (trim op))) = false)
    by (rewrite <- negb_orb, Hcat; reflexivity).
  cbv zeta. unfold compile_iteration. run. eqb_ground. rewrite Hc1. run.
  unfold compile_entry. run. rewrite Hc2, Hc3. run. eqb_ground. run.
  unfold prepare_string_clause, prepare_operator_slot. run.
  rewrite Hop1. run.
  unfold _prepareSearchOperator. run. rewrite Hop1. run.
  rewrite Hneg, Hnull. run. rewrite SqlClause_new_string. run.
  cbn [set_index at_index]. run.
  destruct tail as [|v [|c tail]]; cbn [set_index at_index]; run;
    unfold prepare_value_slot; run; unfold prepare_logic_slot; run;
    cbn [set_index at_index _getLogicOperator truthy String.eqb Ascii.eqb
         Bool.eqb negb]; run; eqb_ground; run;
    cbn [set_index at_index instanceof_SqlClause isString]; run;
    eqb_ground; run; unfold joined, result_of, builder_after;
    destruct openBracket; split; reflexivity.
Qed.

(** X26: a null test ([ISNULL], [NOT ISNULL]) compiles to the operator
    applied to the column, [(OP(column))]; it binds nothing, whatever
    value the entry carries, and it is joined to the entries before it
    with [AND]. *)
Theorem null_test_takes_no_value (operator : string) (t : nat)
  (column op : string) (tail : list value) (sql : string)
  (openBracket : bool) (q : DbQuery) :
  is_column column = true ->
  catalogued op = true ->
  includes "ISNULL" (toUpperCase (trim op)) = true ->
  let turn :=
    compile_iteration operator t (VArr (VStr column :: VStr op :: tail))
      sql openBracket q in
  result_of turn
  = Ok ((joined sql openBracket "AND"
         ++ ("(" ++ (toUpperCase (trim op) ++ "(" ++ column ++ ")") ++ ")"))
        %string, false)
  /\ builder_after turn = q.
Proof.
  apply null_test_turn.
Qed.

(** ** The loop over a filter put together *)

Lemma compile_entry_flag (operator : string) (t : nat)
  (entryType sql : string) (openBracket : bool) (l : list value)
  (q : DbQuery) (sql' : string) (openBracket' : bool) :
  fst (compile_entry operator t entryType sql openBracket (l, q))
  = Ok (sql', openBracket') ->
  openBracket' = is_str (at_index l 0) "(".
Proof.
  unfold compile_entry. run.
  destruct (is_str (at_index l 0) "(") eqn:B1.
  - cbn [orb andb].
    assert (B2 : is_str (at_index l 0) ")" = false).
    { destruct (at_index l 0); try reflexivity. cbn [is_str] in *.
      apply String.eqb_eq in B1. now subst. }
    destruct openBracket; run.
    + rewrite B2. run. intros [= _ <-]. reflexivity.
    + destruct (_getLogicOperator (at_index l 1) operator); run;
        [|discriminate]. intros [= _ <-]. reflexivity.
  - cbn [orb andb].
    destruct (is_str (at_index l 0) ")") eqn:B2; run.
    + intros [= _ <-]. reflexivity.
    + destruct (String.eqb "String" entryType); run.
      * destruct (_prepareColumnName (at_index l 0)) as [c|e]; run;
          [|discriminate].
        rewrite at_index_set_index_same. run.
        destruct (prepare_string_clause operator t
                    (set_index l 0 (VStr c), q)) as [[[]|e] [l1 q1]]; run;
          [|discriminate].
        destruct (isString (at_index l1 0)); run;
          [intros [= _ <-]; reflexivity|].
        destruct (instanceof_SqlClause (at_index l1 0)); run;
          [|discriminate].
        destruct (SqlClause.hasValues (at_index l1 0)); run;
          intros [= _ <-]; reflexivity.
      * destruct (isString (at_index l 0)) eqn:S0; run.
        -- destruct (prepare_string_clause operator t (l, q))
             as [[[]|e] [l1 q1]]; run; [|discriminate].
           destruct (isString (at_index l1 0)); run;
             [intros [= _ <-]; reflexivity|].
           destruct (instanceof_SqlClause (at_index l1 0)); run;
             [|discriminate].
           destruct (SqlClause.hasValues (at_index l1 0)); run;
             intros [= _ <-]; reflexivity.
        -- rewrite ?S0. run.
           destruct (instanceof_SqlClause (at_index l 0)); run;
             [|discriminate].
           destruct (SqlClause.hasValues (at_index l 0)); run;
             intros [= _ <-]; reflexivity.
Qed.

Lemma compile_iteration_flag (operator : string) (t : nat) (ft : value)
  (sql : string) (openBracket : bool) (q : DbQuery)
  (sql' : string) (openBracket' : bool) :
  result_of (compile_iteration operator t ft sql openBracket q)
  = Ok (sql', openBracket') ->
  openBracket' = opens_bracket ft.
Proof.
  unfold compile_iteration, result_of.
  destruct ft as [| | | |s| |l| | |]; run; try discriminate.
  - eqb_ground. run.
    destruct (String.eqb_spec s "") as [->|_]; run; [discriminate|].
    rewrite orb_false_r.
    destruct (String.eqb s "(" || String.eqb s ")") eqn:B; run;
      [|discriminate].
    pose proof (compile_entry_flag operator t "String" sql openBracket
                  [VStr s] q) as H.
    destruct (compile_entry operator t "String" sql openBracket
                ([VStr s], q)) as [[[sq ob]|e'] [l' q']]; cbn [fst];
      [|discriminate].
    intros [= <- <-]. exact (H _ _ eq_refl).
  - eqb_ground. run.
    destruct (truthy (at_index l 0)); run; [|discriminate].
    pose proof (compile_entry_flag operator t "Array" sql openBracket
                  l q) as H.
    destruct (compile_entry operator t "Array" sql openBracket (l, q))
      as [[[sq ob]|e'] [l' q']]; cbn [fst]; [|discriminate].
    intros [= <- <-]. exact (H _ _ eq_refl).
Qed.

(** The loop over two lists of entries, one after the other. *)
Lemma compile_loop_app (operator : string) (l1 l2 : list value) :
  forall (t : nat) (sql : string) (openBracket : bool) (q : DbQuery),
    match compile_loop operator l1 t sql openBracket q with
    | (Ok sql1, l1', q1) =>
        compile_loop operator (l1 ++ l2) t sql openBracket q
        = (let '(r, l2', q2) :=
             compile_loop operator l2 (t + List.length l1) sql1
               (bracket_left_open l1 openBracket) q1 in
           (r, l1' ++ l2', q2))
    | (Throw e, l1', q1) =>
        compile_loop operator (l1 ++ l2) t sql openBracket q
        = (Throw e, l1' ++ l2, q1)
    end.
Proof.
  induction l1 as [|ft l1 IH]; intros t sql ob q.
  - cbn [compile_loop app List.length bracket_left_open].
    rewrite Nat.add_0_r.
    destruct (compile_loop operator l2 t sql ob q) as [[r l2'] q2].
    reflexivity.
  - cbn [compile_loop app].
    pose proof (compile_iteration_flag operator t ft sql ob q) as Hflag.
    destruct (compile_iteration operator t ft sql ob q)
      as [[[[sql' ob']|e] ft'] q'].
    2:{ reflexivity. }
    specialize (Hflag _ _ eq_refl).
    specialize (IH (S t) sql' ob' q').
    destruct (compile_loop operator l1 (S t) sql' ob' q')
      as [[[sql1|e] l1'] q1].
    + rewrite IH. cbn [List.length Nat.add]. rewrite Nat.add_succ_r.
      assert (Hb : bracket_left_open (ft :: l1) ob
                   = bracket_left_open l1 ob').
      { destruct l1 as [|x l1]; [exact (eq_sym Hflag) | reflexivity]. }
      rewrite Hb.
      destruct (compile_loop operator l2 (S (t + List.length l1)) sql1
                  (bracket_left_open l1 ob') q1) as [[r l2'] q2].
      reflexivity.
    + rewrite IH. reflexivity.
Qed.

(** X27: the loop over a filter made of two lists of entries is the loop
    over the first list followed by the loop over the second: the
    second starts from the text and the builder the first ended with,
    at the index after the first list, and just after an opening
    bracket exactly when the first list ends with one.  When the loop
    throws on the first list, it throws the same error on the whole
    filter and leaves the entries of the second list as they are. *)
Theorem loop_over_joined_filters (operator : string) (l1 l2 : list value) :
  forall (t : nat) (sql : string) (openBracket : bool) (q : DbQuery),
    match compile_loop operator l1 t sql openBracket q with
    | (Ok sql1, l1', q1) =>
        compile_loop operator (l1 ++ l2) t sql openBracket q
        = (let '(r, l2', q2) :=
             compile_loop operator l2 (t + List.length l1) sql1
               (bracket_left_open l1 openBracket) q1 in
           (r, l1' ++ l2', q2))
    | (Throw e, l1', q1) =>
        compile_loop operator (l1 ++ l2) t sql openBracket q
        = (Throw e, l1' ++ l2, q1)
    end.
Proof.
  apply compile_loop_app.
Qed.

(** ** Values are only appended *)

Lemma appended_refl (q : DbQuery) : appended q q.
Proof. exists []. apply set_sqlValues_none. Qed.

Lemma appended_trans (q1 q2 q3 : DbQuery) :
  appended q1 q2 -> appended q2 q3 -> appended q1 q3.
Proof.
  intros [p1 ->] [p2 ->]. exists (p1 ++ p2)%list.
  apply set_sqlValues_twice.
Qed.

Lemma _pushValue_appends (v : value) (q : DbQuery) :
  appended q (snd (_pushValue v q)).
Proof.
  destruct (_pushValue_known v q) as [p [E _]]. rewrite E. now exists p.
Qed.

Lemma placeholder_list_appends (ph : string) (vs : list value) :
  forall tmp tt q, appended q (snd (placeholder_list ph tmp tt vs q)).
Proof.
  induction vs as [|v vs IH]; intros tmp tt q; [apply appended_refl|].
  cbn [placeholder_list]. run.
  destruct (_pushValue_known v q) as [p [E _]]. rewrite E. run.
  eapply appended_trans; [|apply IH]. now exists p.
Qed.

Lemma _prepareSearchValue_appends (t : nat) (l : list value) (q : DbQuery) :
  appended q (snd (snd (_prepareSearchValue 1 2 t (l, q)))).
Proof.
  unfold _prepareSearchValue. run.
  destruct (negb (2 <? List.length l)%nat || is_undefined (at_index l 2));
    [apply appended_refl|].
  fold (_getColumnPlaceholder (_table q) (at_index l 0) q).
  rewrite _getColumnPlaceholder_eq. run.
  set (ph := placeholder_of q (at_index l 0)). clearbody ph.
  set (value := if hasOwnProperty SQL_OPERATORS_ARRAY (toStr (at_index l 1))
                   && isString (at_index l 2)
                then VArr (map VStr (split_commas (toStr (at_index l 2))))
                else at_index l 2). clearbody value.
  destruct (String.eqb "Array" (typeOf (at_index l 2))).
  - destruct (negb (hasOwnProperty SQL_OPERATORS_ARRAY
                      (toStr (at_index l 1)))); run;
      [apply appended_refl|].
    destruct (is_str (at_index l 1) "BETWEEN"); run.
    + destruct (negb (List.length (elements value) =? 2)%nat); run;
        [apply appended_refl|].
      destruct (_pushValue_known (at_index (elements value) 0) q)
        as [p0 [E0 _]]. rewrite E0. run.
      destruct (_pushValue_known (at_index (elements value) 1)
                  (set_sqlValues (_sqlValues q ++ p0) q)) as [p1 [E1 _]].
      rewrite E1. run. rewrite set_sqlValues_twice. now eexists.
    + pose proof (placeholder_list_appends ph (elements value) "(" 0 q)
        as H.
      destruct (placeholder_list ph "(" 0 (elements value) q)
        as [[tmp|e] q']; run; exact H.
  - destruct (instanceof_SqlClause value); run.
    + destruct (SqlClause.hasValues value); run;
        [now eexists | apply appended_refl].
    + destruct (_pushValue_known value q) as [p [E _]]. rewrite E. run.
      destruct (known_kind value); run; now exists p.
Qed.

Lemma compile_entry_appends (operator : string) (t : nat)
  (entryType sql : string) (openBracket : bool) (l : list value)
  (q : DbQuery) :
  appended q
    (snd (snd (compile_entry operator t entryType sql openBracket (l, q)))).
Proof.
  assert (Clause : forall (l0 : list value) (q0 : DbQuery),
            appended q q0 ->
            appended q
              (snd (snd
                 ((e3 <- entry_get 3 ;;
                   let sql0 :=
                     if negb openBracket
                     then (sql ++ (" " ++ toStr e3 ++ " "))%string
                     else sql in
                   e0 <- entry_get 0 ;;
                   if isString e0 then
                     entry_set_length 3 ;;;
                     entry <- entry_read ;;
                     ret (sql0 ++ ("(" ++ join " " entry ++ ")"),
                          false)%string
                   else if instanceof_SqlClause e0 then
                     lift (when (SqlClause.hasValues e0)
                             (push_all (SqlClause.get_values e0))) ;;;
                     ret (sql0 ++ ("(" ++ SqlClause.get e0 ++ ")"),
                          false)%string
                   else throw (UnsupportedFieldType t)) (l0, q0))))).
  { intros l0 q0 H. run.
    destruct (isString (at_index l0 0)); run; [exact H|].
    destruct (instanceof_SqlClause (at_index l0 0)); run; [|exact H].
    destruct (SqlClause.hasValues (at_index l0 0)); run; [|exact H].
    eapply appended_trans; [exact H | now eexists]. }
  assert (Slots : forall (l0 : list value),
            exists r l1 q1,
              prepare_string_clause operator t (l0, q) = (r, (l1, q1))
              /\ appended q q1).
  { intros l0. unfold prepare_string_clause. run.
    destruct (prepare_operator_slot_marks t l0 q) as [r1 [l1 [E1 _]]].
    rewrite E1. run. destruct r1 as [[]|e]; run.
    2:{ eexists _, _, _. split; [reflexivity | apply appended_refl]. }
    unfold prepare_value_slot. run.
    destruct (negb (is_undefined (at_index l1 2))); run.
    - pose proof (_prepareSearchValue_appends t l1 q) as Hv.
      destruct (_prepareSearchValue 1 2 t (l1, q)) as [[text|e] [l2 q2]];
        cbn [snd] in Hv; run.
      + unfold prepare_logic_slot. run.
        destruct (_getLogicOperator (at_index (set_index l2 2 (VStr text)) 3)
                    operator) as [lop|e]; run.
        * destruct (negb (hasOwnProperty SQL_OPERATORS_LOGIC lop)); run;
            eexists _, _, _; (split; [reflexivity | exact Hv]).
        * eexists _, _, _. split; [reflexivity | exact Hv].
      + eexists _, _, _. split; [reflexivity | exact Hv].
    - unfold prepare_logic_slot. run.
      destruct (_getLogicOperator (at_index l1 3) operator) as [lop|e]; run.
      + destruct (negb (hasOwnProperty SQL_OPERATORS_LOGIC lop)); run;
          eexists _, _, _; (split; [reflexivity | apply appended_refl]).
      + eexists _, _, _. split; [reflexivity | apply appended_refl]. }
  unfold compile_entry. run.
  destruct (is_str (at_index l 0) "(" || is_str (at_index l 0) ")").
  - destruct (is_str (at_index l 0) "(" && negb openBracket); run.
    + destruct (_getLogicOperator (at_index l 1) operator); run;
        apply appended_refl.
    + destruct (is_str (at_index l 0) ")"); run; apply appended_refl.
  - destruct (String.eqb "String" entryType); run.
    + destruct (_prepareColumnName (at_index l 0)) as [c|e]; run;
        [|apply appended_refl].
      rewrite at_index_set_index_same. run.
      destruct (Slots (set_index l 0 (VStr c))) as [r [l1 [q1 [E H]]]].
      rewrite E. destruct r as [[]|e]; run; [|exact H].
      specialize (Clause l1 q1 H). revert Clause. run. exact (fun x => x).
    + destruct (isString (at_index l 0)) eqn:S0; run.
      * destruct (Slots l) as [r [l1 [q1 [E H]]]].
        rewrite E. destruct r as [[]|e]; run; [|exact H].
        specialize (Clause l1 q1 H). revert Clause. run. exact (fun x => x).
      * specialize (Clause l q (appended_refl q)). revert Clause. run.
        exact (fun x => x).
Qed.

Lemma compile_iteration_appends (operator : string) (t : nat) (ft : value)
  (sql : string) (openBracket : bool) (q : DbQuery) :
  appended q
    (builder_after (compile_iteration operator t ft sql openBracket q)).
Proof.
  unfold compile_iteration, builder_after.
  destruct ft as [| | | |s| |l| | |]; run; try apply appended_refl.
  - eqb_ground. run.
    destruct (String.eqb_spec s "") as [->|_]; run; [apply appended_refl|].
    rewrite orb_false_r.
    destruct (String.eqb s "(" || String.eqb s ")") eqn:B; run;
      [|apply appended_refl].
    pose proof (compile_entry_appends operator t "String" sql openBracket
                  [VStr s] q) as H.
    destruct (compile_entry operator t "String" sql openBracket
                ([VStr s], q)) as [r [l' q']]. exact H.
  - eqb_ground. run.
    destruct (truthy (at_index l 0)); run; [|apply appended_refl].
    pose proof (compile_entry_appends operator t "Array" sql openBracket
                  l q) as H.
    destruct (compile_entry operator t "Array" sql openBracket (l, q))
      as [r [l' q']]. exact H.
Qed.

(** X28: the compiler only ever appends to the values of the builder:
    after a turn of the loop, and after the loop over any entries,
    whether it returns or throws, the builder holds the values it held
    before, in their order, followed by those bound since, and nothing
    else of the builder has changed. *)
Theorem values_are_only_appended (operator : string) (filter : list value) :
  forall (t : nat) (sql : string) (openBracket : bool) (q : DbQuery),
    appended q
      (builder_after (compile_loop operator filter t sql openBracket q))
    /\ forall ft,
         appended q
           (builder_after
              (compile_iteration operator t ft sql openBracket q)).
Proof.
  intros t sql ob q. split; [|intros ft; apply compile_iteration_appends].
  revert t sql ob q.
  induction filter as [|ft f IH]; intros t sql ob q;
    [apply appended_refl|].
  cbn [compile_loop].
  pose proof (compile_iteration_appends operator t ft sql ob q) as H.
  destruct (compile_iteration operator t ft sql ob q)
    as [[[[sql' ob']|e] ft'] q']; [|exact H].
  specialize (IH (S t) sql' ob' q').
  destruct (compile_loop operator f (S t) sql' ob' q') as [[r f''] q''].
  eapply appended_trans; [exact H | exact IH].
Qed.

(** ** Logic operators outside the catalogue *)










End Rest.

(* ================================================================== *)
(** * The further properties at sample inputs *)
(* ================================================================== *)

Lemma flipToObject_keeps_the_names_witness :
  ("OR" =? "__proto__") = false
  /\ has_own_prop (flipToObject (VArr (map VStr SQL_OPERATORS_LOGIC))) "OR"
     = hasOwnProperty SQL_OPERATORS_LOGIC "OR"
  /\ truthy (own_value (flipToObject (VArr (map VStr SQL_OPERATORS_LOGIC)))
               "OR")
     = hasOwnProperty SQL_OPERATORS_LOGIC "OR"
  /\ own_value (flipToObject (VArr (map VStr SQL_OPERATORS_LOGIC))) "OR"
     = VStr "1".
Proof.
  split; [vm_compute; reflexivity|].
  pose proof (flipToObject_keeps_the_names SQL_OPERATORS_LOGIC "OR" eq_refl)
    as H.
  split; [exact (proj1 H)|]. split; [exact (proj1 (proj2 H))|].
  apply (proj2 (proj2 H) 1); [vm_compute; lia | reflexivity | reflexivity].
Defined.

Lemma SqlClause_keeps_what_it_is_given_witness :
  (truthy (VNum 5) && negb (isString (VNum 5)) = true
   /\ SqlClause.new (VNum 5) (VArr []) = Throw SqlClauseAcceptsOnlyStrings)
  /\ (truthy (VStr "x = ?") && negb (isString (VStr "x = ?")) = false
      /\ exists this,
           SqlClause.new (VStr "x = ?") (VArr [VNum 1]) = Ok this
           /\ SqlClause.get this = "x = ?"
           /\ SqlClause.get_values this = [VNum 1]).
Proof.
  split.
  - split; [vm_compute; reflexivity|].
    exact (proj1 (SqlClause_keeps_what_it_is_given (VNum 5) (VArr []))
             eq_refl).
  - split; [vm_compute; reflexivity|].
    destruct (proj2 (SqlClause_keeps_what_it_is_given (VStr "x = ?")
                       (VArr [VNum 1])) eq_refl)
      as [this [H1 [H2 [H3 _]]]].
    exists this. split; [exact H1 | split; [exact H2 | exact H3]].
Defined.

Lemma table_name_is_never_empty_witness :
  new_DbQuery (VStr "t") plain_db = Ok (fresh "t")
  /\ (getTableName
        (after_calls (rt := decimal_runtime)
           [CallPrepareCount VNull; CallSetTableName (VStr "");
            CallSearch (VArr [VArr [VStr "a"; VStr "="; VNum 1]])]
           (fresh "t")) =? "") = false.
Proof.
  split; [vm_compute; reflexivity|].
  pose proof (table_name_is_never_empty (rt := decimal_runtime) (VStr "t")
                plain_db (fresh "t")
                [CallPrepareCount VNull; CallSetTableName (VStr "");
                 CallSearch (VArr [VArr [VStr "a"; VStr "="; VNum 1]])]
                eq_refl) as H.
  exact (proj1 H).
Defined.


Lemma refused_column_is_the_first_witness :
  fst (_searchPrepareReturnColumns
         (VArr [VStr "a"; VStr "x"; VNum 5]) (fresh "t"))
  = Throw (UnknownColumn 1)
  /\ exists i,
       i < 3
       /\ return_columns (getColumns (_db (fresh "t")) (_table (fresh "t")))
            0 (firstn i [VStr "a"; VStr "x"; VNum 5])
          = Ok (firstn i [VStr "a"; VStr "x"; VNum 5]).
Proof.
  split; [vm_compute; reflexivity|].
  destruct (refused_column_is_the_first [VStr "a"; VStr "x"; VNum 5]
              (fresh "t") (UnknownColumn 1) eq_refl) as [i [H1 [H2 _]]].
  exists i. split; [exact H1 | exact H2].
Defined.

Lemma empty_filter_means_every_row_witness :
  lookup_prop "filter" [("filter", VArr []); ("operator", VStr "nor")]
  = VArr []
  /\ prepareCount (rt := decimal_runtime)
       (VObj [("filter", VArr []); ("operator", VStr "nor")]) (fresh "t")
     = (Ok "SELECT COUNT(*) FROM t",
        VObj [("filter", VArr []); ("operator", VStr "nor")],
        set_sql "SELECT COUNT(*) FROM t" (fresh "t"))
  /\ has_own_prop (VObj [("filter", VArr []); ("operator", VStr "nor")])
       "hasOwnProperty" = false
  /\ has_own_prop (VObj [("filter", VArr []); ("operator", VStr "nor")])
       "limit" = false
  /\ result_of
       (prepareDeleteSearch (rt := decimal_runtime)
          (VObj [("filter", VArr []); ("operator", VStr "nor")]) (fresh "t"))
     = Ok "DELETE FROM t"
  /\ result_of
       (prepareSearch (rt := decimal_runtime)
          (VObj [("filter", VArr []); ("operator", VStr "nor")]) (fresh "t"))
     = Ok "SELECT id, a, b, c FROM t".
Proof.
  split; [vm_compute; reflexivity|].
  pose proof (empty_filter_means_every_row (rt := decimal_runtime)
                [("filter", VArr []); ("operator", VStr "nor")] (fresh "t")
                eq_refl) as [H1 [H2 H3]].
  split; [exact H1|]. do 2 (split; [vm_compute; reflexivity|]).
  split.
  - specialize (H2 eq_refl eq_refl). rewrite H2. reflexivity.
  - exact (proj1 (H3 eq_refl eq_refl eq_refl)).
Defined.

Lemma search_needs_a_search_object_witness :
  isArray (VObj [("filter", VStr "")]) = false
  /\ has_filter (VObj [("filter", VStr "")]) = false
  /\ search (rt := decimal_runtime) (VObj [("filter", VStr "")]) (fresh "t")
     = (NeedSearchObject, VObj [("filter", VStr "")], fresh "t").
Proof.
  do 2 (split; [vm_compute; reflexivity|]).
  pose proof (search_needs_a_search_object (rt := decimal_runtime)
                (VObj [("filter", VStr "")]) (fresh "t") eq_refl eq_refl)
    as H.
  exact H.
Defined.

Lemma statements_share_the_filter_witness :
  let s := VObj [ ("filter", VArr [VArr [VStr "a"; VStr "="; VNum 1]]);
                  ("columns", VArr [VStr "b"]);
                  ("limit", VNum 5) ] in
  has_own_prop s "hasOwnProperty" = false
  /\ result_of (prepareSearch (rt := decimal_runtime) s (fresh "t"))
     = Ok "SELECT b FROM t WHERE (a = ?)LIMIT 5"
  /\ getValues (builder_after
                  (prepareCount (rt := decimal_runtime) s (fresh "t")))
     = getValues (builder_after
                    (prepareSearch (rt := decimal_runtime) s (fresh "t"))).
Proof.
  cbv zeta. do 2 (split; [vm_compute; reflexivity|]).
  destruct (statements_share_the_filter (rt := decimal_runtime)
              (VObj [ ("filter", VArr [VArr [VStr "a"; VStr "="; VNum 1]]);
                      ("columns", VArr [VStr "b"]);
                      ("limit", VNum 5) ])
              (fresh "t") "SELECT b FROM t WHERE (a = ?)LIMIT 5" eq_refl
              eq_refl)
    as [columns [w [tail [limit [_ [_ [_ [_ [H _]]]]]]]]].
  exact H.
Defined.

Lemma limit_follows_the_statement_witness :
  let props := [ ("filter", VArr [VArr [VStr "a"; VStr "="; VNum 1]]);
                 ("limit", VNum 5) ] in
  has_own_prop (VObj props) "hasOwnProperty" = false
  /\ has_own_prop (VObj props) "limit" = true
  /\ converts_as_inherited (lookup_prop "limit" props) = true
  /\ result_of (prepareCount (rt := decimal_runtime) (VObj props)
                  (fresh "t"))
     = Ok ("SELECT COUNT(*) FROM " ++ _table (fresh "t")
           ++ " WHERE (a = ?)")%string
  /\ result_of (prepareDeleteSearch (rt := decimal_runtime) (VObj props)
                  (fresh "t"))
     = Ok "DELETE FROM t WHERE (a = ?)LIMIT 5"
  /\ safe_integer 5 = true
  /\ _buildSqlLimit (rt := decimal_runtime) (VNum 5) = "LIMIT 5"
  /\ safe_integer 10 = true
  /\ (0 <? 5)%Z = true
  /\ _buildSqlLimit (rt := decimal_runtime) (VArr [VNum 10; VNum 5])
     = "LIMIT 10, 5".
Proof.
  cbv zeta. do 4 (split; [vm_compute; reflexivity|]).
  pose proof (limit_follows_the_statement (rt := decimal_runtime)
                [ ("filter", VArr [VArr [VStr "a"; VStr "="; VNum 1]]);
                  ("limit", VNum 5) ] (fresh "t") " WHERE (a = ?)"
                eq_refl eq_refl eq_refl eq_refl) as [H [Hn Hp]].
  split; [exact H|]. split; [reflexivity|].
  split; [exact (Hn 5%Z eq_refl)|]. do 2 (split; [reflexivity|]).
  exact (Hp 10%Z 5%Z eq_refl eq_refl eq_refl).
Defined.

Lemma order_is_built_the_same_again_witness :
  _buildSqlOrderBy (VArr [VArr [VStr "a"; VStr "desc"]; VArr [VStr "b"]])
  = Ok " ORDER BY a DESC, b ASC"
  /\ order_after (VArr [VArr [VStr "a"; VStr "desc"]; VArr [VStr "b"]])
     = VArr [VArr [VStr "a"; VStr "DESC"]; VArr [VStr "b"; VStr "ASC"]]
  /\ _buildSqlOrderBy
       (order_after (VArr [VArr [VStr "a"; VStr "desc"]; VArr [VStr "b"]]))
     = Ok " ORDER BY a DESC, b ASC".
Proof.
  do 2 (split; [vm_compute; reflexivity|]).
  pose proof (order_is_built_the_same_again
                (VArr [VArr [VStr "a"; VStr "desc"]; VArr [VStr "b"]])
                " ORDER BY a DESC, b ASC" eq_refl) as H.
  exact (proj1 H).
Defined.

Lemma order_by_names_witness :
  forallb (fun o => isString o
                    || negb (isArray o
                             && (0 <? List.length (elements o))%nat))
    [VStr "a"; VNum 5; VStr "b DESC"] = true
  /\ _buildSqlOrderBy (VArr [VStr "a"; VNum 5; VStr "b DESC"])
     = Ok " ORDER BY a, b DESC".
Proof.
  split; [vm_compute; reflexivity|].
  pose proof (order_by_names [VStr "a"; VNum 5; VStr "b DESC"] eq_refl) as H.
  exact H.
Defined.

(** A turn of the loop on the first entry of a filter, for the
    predicate [[a, op, ...]] and the default logic operator [AND]. *)
Lemma sample_turn (op : string) :
  catalogued op = true ->
  includes "ISNULL" (toUpperCase (trim op)) = false ->
  predicate_turn "AND" "a" op VUndef "AND".
Proof. intros H1 H2. repeat split; assumption. Qed.

Lemma scalar_value_is_bound_witness :
  predicate_turn "AND" "a" " like " (at_index [] 0) "AND"
  /\ scalar_value (rt := decimal_runtime) (VBool true) = true
  /\ hasOwnProperty SQL_OPERATORS_ARRAY (toUpperCase (trim " like "))
     && isString (VBool true) = false
  /\ compile_iteration (rt := decimal_runtime) "AND" 0
       (VArr [VStr "a"; VStr " like "; VBool true]) "" true (fresh "t")
     = (Ok ("(a LIKE ?)", false),
        VArr [VStr "a"; VStr "LIKE"; VStr "?"],
        set_sqlValues [VNum 1] (fresh "t")).
Proof.
  split; [exact (sample_turn " like " eq_refl eq_refl)|].
  do 2 (split; [vm_compute; reflexivity|]).
  pose proof (scalar_value_is_bound (rt := decimal_runtime) "AND" 0 "a"
                " like " (VBool true) [] "" true (fresh "t") "AND"
                (sample_turn " like " eq_refl eq_refl) eq_refl eq_refl) as H.
  exact H.
Defined.




Lemma string_list_is_bound_as_one_value_witness :
  predicate_turn "AND" "y" "not in" (at_index [] 0) "AND"
  /\ hasOwnProperty SQL_OPERATORS_ARRAY (toUpperCase (trim "not in")) = true
  /\ compile_iteration (rt := decimal_runtime) "AND" 0
       (VArr [VStr "y"; VStr "not in"; VStr "5, 6 ,7"]) "" true (fresh "t")
     = (Ok ("(y NOT IN ?)", false),
        VArr [VStr "y"; VStr "NOT IN"; VStr "?"],
        set_sqlValues [VStr "'5', '6', '7'"] (fresh "t")).
Proof.
  assert (T : predicate_turn "AND" "y" "not in" (at_index [] 0) "AND")
    by (repeat split).
  split; [exact T|]. split; [vm_compute; reflexivity|].
  pose proof (string_list_is_bound_as_one_value (rt := decimal_runtime)
                "AND" 0 "y" "not in" "5, 6 ,7" [] "" true (fresh "t") "AND"
                T eq_refl) as H.
  exact (proj1 H).
Defined.

Lemma statement_embeds_as_a_value_witness :
  let inner :=
    builder_after
      (prepareSearch (rt := decimal_runtime)
         (VObj [ ("filter", VArr [VArr [VStr "a"; VStr "="; VNum 42]]);
                 ("columns", VArr [VStr "id"]) ])
         (fresh "foo")) in
  predicate_turn "AND" "z" "IN" (at_index [] 0) "AND"
  /\ getSqlClause inner
     = Ok (VClause "SELECT id FROM foo WHERE (a = ?)" [VNum 42])
  /\ compile_iteration (rt := decimal_runtime) "AND" 0
       (VArr [VStr "z"; VStr "IN";
              VClause "SELECT id FROM foo WHERE (a = ?)" [VNum 42]])
       "" true (set_sqlValues [VNum 1] (fresh "t"))
     = (Ok ("(z IN SELECT id FROM foo WHERE (a = ?))", false),
        VArr [VStr "z"; VStr "IN";
              VStr "SELECT id FROM foo WHERE (a = ?)"],
        set_sqlValues [VNum 1; VNum 42] (fresh "t")).
Proof.
  cbv zeta.
  assert (T : predicate_turn "AND" "z" "IN" (at_index [] 0) "AND")
    by (repeat split).
  split; [exact T|]. split; [vm_compute; reflexivity|].
  pose proof (statement_embeds_as_a_value (rt := decimal_runtime) "AND" 0
                "z" "IN"
                (builder_after
                   (prepareSearch (rt := decimal_runtime)
                      (VObj [ ("filter",
                               VArr [VArr [VStr "a"; VStr "="; VNum 42]]);
                              ("columns", VArr [VStr "id"]) ])
                      (fresh "foo")))
                (VClause "SELECT id FROM foo WHERE (a = ?)" [VNum 42])
                [] "" true (set_sqlValues [VNum 1] (fresh "t")) "AND"
                T eq_refl) as H.
  exact H.
Defined.

Lemma missing_value_is_left_empty_witness :
  predicate_turn "AND" "a" "=" (at_index [] 1) "AND"
  /\ is_undefined (at_index [] 0) = true
  /\ compile_iteration (rt := decimal_runtime) "AND" 0
       (VArr [VStr "a"; VStr "="]) "" true (fresh "t")
     = (Ok ("(a = )", false), VArr [VStr "a"; VStr "="; VUndef], fresh "t").
Proof.
  split; [exact (sample_turn "=" eq_refl eq_refl)|].
  split; [vm_compute; reflexivity|].
  pose proof (missing_value_is_left_empty (rt := decimal_runtime) "AND" 0
                "a" "=" [] "" true (fresh "t") "AND"
                (sample_turn "=" eq_refl eq_refl) eq_refl) as H.
  exact H.
Defined.

Lemma brackets_group_the_entries_witness :
  _getLogicOperator (at_index [VStr "or"] 0) "AND" = Ok "OR"
  /\ compile_iteration (rt := decimal_runtime) "AND" 2
       (VArr [VStr "("; VStr "or"]) "(a = ?)" false (fresh "t")
     = (Ok ("(a = ?) OR(", true), VArr [VStr "("; VStr "or"], fresh "t").
Proof.
  split; [vm_compute; reflexivity|].
  pose proof (brackets_group_the_entries (rt := decimal_runtime) "AND" 2
                [VStr "or"] "(a = ?)" false (fresh "t") "OR" eq_refl) as H.
  exact (proj1 H).
Defined.

Lemma single_entry_is_a_filter_witness :
  isArray (at_index [VStr "a"; VStr "="; VNum 1] 0) = false
  /\ (0 <? List.length [VStr "a"; VStr "="; VNum 1])%nat = true
  /\ result_of (compile (rt := decimal_runtime)
                  (VArr [VStr "a"; VStr "="; VNum 1]) VUndef (fresh "t"))
     = result_of (compile (rt := decimal_runtime)
                    (VArr [VArr [VStr "a"; VStr "="; VNum 1]]) VUndef
                    (fresh "t"))
  /\ search_after (compile (rt := decimal_runtime)
                     (VArr [VStr "a"; VStr "="; VNum 1]) VUndef (fresh "t"))
     = search_of (VArr [VStr "a"; VStr "="; VNum 1]) VUndef.
Proof.
  do 2 (split; [vm_compute; reflexivity|]).
  pose proof (single_entry_is_a_filter (rt := decimal_runtime)
                [VStr "a"; VStr "="; VNum 1] VUndef (fresh "t")
                eq_refl eq_refl) as [H1 [_ H3]].
  split; [exact H1 | exact H3].
Defined.

Lemma default_operator_is_AND_witness :
  let filter := VArr [ VArr [VStr "a"; VStr "="; VNum 1];
                       VArr [VStr "b"; VStr "="; VNum 2] ] in
  (VStr "or" = VStr "or"
   /\ result_of (compile (rt := decimal_runtime) filter (VStr "or")
                   (fresh "t"))
      = result_of (compile (rt := decimal_runtime) filter
                     (VStr (toUpperCase "or")) (fresh "t")))
  /\ (truthy (VStr "") = false
      /\ result_of (compile (rt := decimal_runtime) filter (VStr "")
                      (fresh "t"))
         = result_of (compile (rt := decimal_runtime) filter (VStr "AND")
                        (fresh "t"))).
Proof.
  cbv zeta. split.
  - split; [reflexivity|].
    exact (proj1 (proj1 (default_operator_is_AND (rt := decimal_runtime)
                           (VArr [ VArr [VStr "a"; VStr "="; VNum 1];
                                   VArr [VStr "b"; VStr "="; VNum 2] ])
                           (VStr "or") (fresh "t")) "or" eq_refl)).
  - split; [vm_compute; reflexivity|].
    exact (proj1 (proj2 (default_operator_is_AND (rt := decimal_runtime)
                           (VArr [ VArr [VStr "a"; VStr "="; VNum 1];
                                   VArr [VStr "b"; VStr "="; VNum 2] ])
                           (VStr "") (fresh "t")) eq_refl)).
Defined.


Lemma error_names_the_failing_entry_witness :
  let filter := [ VArr [VStr "a"; VStr "="; VNum 1];
                  VArr [VStr "b"; VStr "~"; VNum 2];
                  VArr [VStr "c"; VStr "="; VObj []] ] in
  isArray (at_index filter 0) = true
  /\ result_of (compile (rt := decimal_runtime) (VArr filter) VUndef
                  (fresh "t"))
     = Throw (UnknownOperator 1 "~")
  /\ ((exists what, UnknownOperator 1 "~" = TypeError what)
      \/ exists t,
           t < List.length filter
           /\ raised_by_turn t (UnknownOperator 1 "~") = true
           /\ exists sql,
                result_of (compile (rt := decimal_runtime)
                             (VArr (firstn t filter)) VUndef (fresh "t"))
                = Ok sql).
Proof.
  cbv zeta. do 2 (split; [vm_compute; reflexivity|]).
  pose proof (error_names_the_failing_entry (rt := decimal_runtime)
                [ VArr [VStr "a"; VStr "="; VNum 1];
                  VArr [VStr "b"; VStr "~"; VNum 2];
                  VArr [VStr "c"; VStr "="; VObj []] ]
                VUndef (fresh "t") (UnknownOperator 1 "~")
                eq_refl eq_refl) as H.
  exact H.
Defined.

Lemma null_test_takes_no_value_witness :
  is_column "b" = true
  /\ catalogued "not isnull" = true
  /\ includes "ISNULL" (toUpperCase (trim "not isnull")) = true
  /\ result_of
       (compile_iteration (rt := decimal_runtime) "OR" 1
          (VArr [VStr "b"; VStr "not isnull"; VNum 7; VStr "OR"])
          "(a = ?)" false (fresh "t"))
     = Ok ("(a = ?) AND (NOT ISNULL(b))", false).
Proof.
  do 3 (split; [vm_compute; reflexivity|]).
  pose proof (null_test_takes_no_value (rt := decimal_runtime) "OR" 1 "b"
                "not isnull" [VNum 7; VStr "OR"] "(a = ?)" false (fresh "t")
                eq_refl eq_refl eq_refl) as H.
  exact (proj1 H).
Defined.

